(** * Isotope dispatch pipeline: a shallow embedding of the Python sources

    The file has three parts.

    The first embeds the sources, one module per source file:

    - [Py]                 the fragments of Python semantics the code relies
                           on (exceptions, loops, [max], [int], [round],
                           [math.sqrt], [math.atan2]);
    - [json]               documents as [json.load] returns them, with the
                           operations the simulator applies to them;
    - [data_loader]        [Hospital], [get_priority_weight] and
                           [load_hospitals];
    - [decay_calculator]   [DecayCalculator.calculate_remaining_activity];
    - [distance_matrix]    haversine, analytic fallback, matrix builder,
                           road snapping, detour waypoint and the OSRM route
                           fetch;
    - [optimizer]          the disruption injector, the solver callbacks,
                           what the solver is asked for, and the plan
                           materializer [_export_solution];
    - [simulator_dynamic]  the target search and the ignorant option of
                           [run_m5_scenario];
    - [simulator]          [find_route_to_disrupt] and the reroute problem
                           of [trigger_reroute];
    - [api]                [get_hospitals];
    - [binary64]           the cost arithmetic, the financial roll-up and
                           the route fallback once more, on IEEE doubles.

    The second defines the terms the statements are written in, and the
    third proves the statements.

    Numbers.  A Python [float] is modelled by a real number and the
    functions of the [math] module by their real counterparts: the theorems
    are about the computation in exact arithmetic, and the rounding error,
    NaN and infinities of binary64 are outside the model.  Where rounding
    error decides a statement (the exported figures of the roll-up, the
    domain of the square root in the haversine distance), the module
    [binary64] evaluates the same lines on primitive floats.  A Python
    [int] is a [Z].

    Network.  The services the code talks to are modelled by a script: the
    k-th request of a run is answered by the k-th reply of the script, and an
    exhausted script is a connection error.  Statements quantify over all
    scripts, hence over every behaviour of the network.

    Solver.  The constraint solver is outside the sources; the materializer
    is studied on an arbitrary solution, given as the walks it encodes. *)

From Stdlib Require Import Reals Lra Lia ZArith List String Bool Arith.
From Stdlib Require Floats Uint63.
Import ListNotations.

Open Scope R_scope.

(* ================================================================== *)
(** * Python semantics used by the sources                             *)
(* ================================================================== *)

Module Py.

(** Exceptions the modelled code can raise. *)
Inductive exn : Set :=
| ValueError
| TypeError
| KeyError
| IndexError
| RequestException.

(** The outcome of a call: a value, or a raised exception. *)
Inductive result (A : Type) : Type :=
| Return (a : A)
| Raise (e : exn).

Arguments Return {A} a.
Arguments Raise {A} e.

Definition bind {A B : Type} (m : result A) (k : A -> result B) : result B :=
  match m with
  | Return a => k a
  | Raise e => Raise e
  end.

(** [xs[i]] on a list: [IndexError] out of range. *)
Definition getitem {A : Type} (xs : list A) (i : nat) : result A :=
  match nth_error xs i with
  | Some a => Return a
  | None => Raise IndexError
  end.

(** [x < y] on floats, as a boolean. *)
Definition lt (x y : R) : bool :=
  if Rlt_dec x y then true else false.

(** [x >= y] on floats, as a boolean. *)
Definition ge (x y : R) : bool :=
  if Rle_dec y x then true else false.

(** [max(a, b)] keeps its first argument unless the second is greater. *)
Definition max (a b : R) : R :=
  if Rlt_dec a b then b else a.

(** [int(x)] on a float truncates toward zero. *)
Definition int (x : R) : Z :=
  if Rle_dec 0 x then Zfloor x else Zceil x.

(** Nearest integer, ties to the even neighbour (the rule of [round]). *)
Definition round_half_even (x : R) : Z :=
  let f := Zfloor x in
  let d := x - IZR f in
  if Rlt_dec d (1 / 2) then f
  else if Rlt_dec (1 / 2) d then (f + 1)%Z
  else if Z.even f then f else (f + 1)%Z.

(** [round(x, ndigits)] on a float, for [ndigits >= 0]. *)
Definition round (x : R) (ndigits : nat) : R :=
  IZR (round_half_even (x * 10 ^ ndigits)) / 10 ^ ndigits.

(** [math.sqrt]: a negative argument is a [ValueError]. *)
Definition sqrt (x : R) : result R :=
  if Rlt_dec x 0 then Raise ValueError else Return (R_sqrt.sqrt x).

(** [for x in xs: body], threading the state [s]; an exception in the body
    leaves the loop. *)
Fixpoint for_ {A S : Type} (xs : list A) (body : A -> S -> result S) (s : S)
  : result S :=
  match xs with
  | [] => Return s
  | x :: xs' =>
      match body x s with
      | Return s' => for_ xs' body s'
      | Raise e => Raise e
      end
  end.

(** [range(n)]. *)
Definition range (n : nat) : list nat := seq 0 n.

(** [math.radians]. *)
Definition radians (deg : R) : R := deg * (PI / 180).

(** [math.atan2(y, x)]. *)
Definition atan2 (y x : R) : R :=
  if Rlt_dec 0 x then atan (y / x)
  else if Rlt_dec x 0 then
         (if Rle_dec 0 y then atan (y / x) + PI else atan (y / x) - PI)
  else if Rlt_dec 0 y then PI / 2
  else if Rlt_dec y 0 then - (PI / 2)
  else 0.

(** [sub in s] on strings. *)
Fixpoint contains (sub s : string) : bool :=
  if prefix sub s then true
  else match s with
       | EmptyString => false
       | String _ s' => contains sub s'
       end.

End Py.

Notation "x <- m ;; k" := (Py.bind m (fun x => k))
(at level 61, m at next level, right associativity).

(* ================================================================== *)
(** * JSON documents as Python reads them                              *)
(* ================================================================== *)

Module json.

#[local] Set Warnings "-register-all".

(** What [json.load] returns. *)
Inductive value : Type :=
| Null
| Bool (b : bool)
| Int (z : Z)
| Float (r : R)
| Str (s : string)
| List (xs : list value)
| Dict (kvs : list (string * value)).

Fixpoint chars (s : string) : list value :=
  match s with
  | EmptyString => []
  | String c s' => Str (String c EmptyString) :: chars s'
  end.

(** [for x in v]: a list yields its items, a dict its keys, a string its
    characters; nothing else is iterable. *)
Definition iter (v : value) : Py.result (list value) :=
  match v with
  | List xs => Py.Return xs
  | Dict kvs => Py.Return (map (fun kv => Str (fst kv)) kvs)
  | Str s => Py.Return (chars s)
  | _ => Py.Raise Py.TypeError
  end.

Fixpoint lookup (kvs : list (string * value)) (k : string) : option value :=
  match kvs with
  | [] => None
  | (k', v) :: kvs' => if String.eqb k k' then Some v else lookup kvs' k
  end.

(** [v[k]] for a string key [k]: only a dict accepts it. *)
Definition getitem_str (v : value) (k : string) : Py.result value :=
  match v with
  | Dict kvs =>
      match lookup kvs k with
      | Some x => Py.Return x
      | None => Py.Raise Py.KeyError
      end
  | _ => Py.Raise Py.TypeError
  end.

(** [v[i]] for an integer [i >= 0]. *)
Definition getitem_int (v : value) (i : nat) : Py.result value :=
  match v with
  | List xs => Py.getitem xs i
  | Str s =>
      match String.get i s with
      | Some c => Py.Return (Str (String c EmptyString))
      | None => Py.Raise Py.IndexError
      end
  | Dict _ => Py.Raise Py.KeyError
  | _ => Py.Raise Py.TypeError
  end.

(** [len(v)]. *)
Definition len (v : value) : Py.result nat :=
  match v with
  | List xs => Py.Return (List.length xs)
  | Dict kvs => Py.Return (List.length kvs)
  | Str s => Py.Return (String.length s)
  | _ => Py.Raise Py.TypeError
  end.

(** [sub in v] for a string [sub]. *)
Definition contains_str (sub : string) (v : value) : Py.result bool :=
  match v with
  | Str s => Py.Return (Py.contains sub s)
  | List xs =>
      Py.Return (existsb (fun x => match x with
                                   | Str t => String.eqb sub t
                                   | _ => false
                                   end) xs)
  | Dict kvs => Py.Return (existsb (fun kv => String.eqb sub (fst kv)) kvs)
  | _ => Py.Raise Py.TypeError
  end.

(** [v == n] for an integer [n]. *)
Definition eq_int (v : value) (n : Z) : bool :=
  match v with
  | Int z => Z.eqb z n
  | Float r => if Req_dec_T r (IZR n) then true else false
  | Bool b => Z.eqb (if b then 1 else 0) n
  | _ => false
  end.

(** [v is None]. *)
Definition is_none (v : value) : bool :=
  match v with
  | Null => true
  | _ => false
  end.

(** [v == s] for a string [s]. *)
Definition eq_str (v : value) (s : string) : bool :=
  match v with
  | Str t => String.eqb t s
  | _ => false
  end.

(** The truth value of [v] where a condition is expected. *)
Definition truthy (v : value) : bool :=
  match v with
  | Null => false
  | Bool b => b
  | Int z => negb (Z.eqb z 0)
  | Float r => if Req_dec_T r 0 then false else true
  | Str s => negb (String.eqb s "")
  | List xs => match xs with [] => false | _ :: _ => true end
  | Dict kvs => match kvs with [] => false | _ :: _ => true end
  end.

(** [d.get(k, default)], on the items of the dict [d]. *)
Definition get (kvs : list (string * value)) (k : string) (default : value)
  : value :=
  match lookup kvs k with
  | Some x => x
  | None => default
  end.

End json.

(* ================================================================== *)
(** * src/core/data_loader.py                                          *)
(* ================================================================== *)

Module data_loader.

Record Hospital : Type := mkHospital {
  name : string;
  lat : R;
  lon : R;
  tier : Z;
  type : string
}.

Definition get_priority_weight (self : Hospital) : Py.result R :=
  if Z.eqb (tier self) 3 then Py.Return 1
  else if Z.eqb (tier self) 2 then Py.Return 2
  else if Z.eqb (tier self) 1 then Py.Return 3
  else if Z.eqb (tier self) 0 then Py.Return 0
  else Py.Raise Py.ValueError.

(** ** load_hospitals *)

(** A [Hospital] as [load_hospitals] builds it.  The dataclass does not
    check its annotations: each field holds the value the document has under
    its key, whatever the type of that value. *)
Record HospitalObject : Type := mkHospitalObject {
  o_name : json.value;
  o_lat : json.value;
  o_lon : json.value;
  o_tier : json.value;
  o_type : json.value
}.

(** What the loader sees of its environment: the working directory, the
    directory of data_loader.py and, for each path, whether a file is there
    ([None]: no such file) and the document [json.load] makes of it
    ([Some None]: the file is not valid JSON).  A path that exists can be
    opened: directories and permissions are outside the model. *)
Record FileSystem : Type := mkFileSystem {
  getcwd : string;
  module_dir : string;
  read : string -> option (option json.value)
}.

(** [os.path.exists]. *)
Definition path_exists (fs : FileSystem) (path : string) : bool :=
  match read fs path with
  | Some _ => true
  | None => false
  end.

(** [s.endswith('/')]. *)
Fixpoint endswith_sep (s : string) : bool :=
  match s with
  | EmptyString => false
  | String c EmptyString => String.eqb (String c EmptyString) "/"
  | String _ s' => endswith_sep s'
  end.

(** [os.path.join(a, b)] (POSIX). *)
Definition path_join (a b : string) : string :=
  if prefix "/" b then b
  else if String.eqb a "" || endswith_sep a then (a ++ b)%string
  else (a ++ "/" ++ b)%string.

(** How a call of [load_hospitals] ends: with its list, or with one of the
    two exceptions of opening and decoding the file, or with an exception
    of the loop over the entries. *)
Inductive outcome (A : Type) : Type :=
| Loaded (a : A)
| FileNotFoundError (path : string)
| JSONDecodeError
| Raised (e : Py.exn).

Arguments Loaded {A} a.
Arguments FileNotFoundError {A} path.
Arguments JSONDecodeError {A}.
Arguments Raised {A} e.

(** The path handling at the head of [load_hospitals]: the path that is
    opened. *)
Definition resolve_path (fs : FileSystem) (file_path : string) : string :=
  if negb (path_exists fs file_path) then
    let root_path := path_join (getcwd fs) "hospitals.json" in
    if path_exists fs root_path then root_path
    else
      let rel_path := path_join (module_dir fs) "../../hospitals.json" in
      if path_exists fs rel_path then rel_path
      else file_path
  else file_path.

(** [Hospital(name=entry["name"], ...)]. *)
Definition hospital_of_entry (entry : json.value) : Py.result HospitalObject :=
  name <- json.getitem_str entry "name" ;;
  lat <- json.getitem_str entry "lat" ;;
  lon <- json.getitem_str entry "lon" ;;
  tier <- json.getitem_str entry "tier" ;;
  type <- json.getitem_str entry "type" ;;
  Py.Return (mkHospitalObject name lat lon tier type).

(** The loop over the entries of the document. *)
Definition hospitals_of (data : json.value)
  : Py.result (list HospitalObject) :=
  entries <- json.iter data ;;
  Py.for_ entries (fun entry hospitals =>
    h <- hospital_of_entry entry ;;
    Py.Return (hospitals ++ [h])) [].

Definition load_hospitals (fs : FileSystem) (file_path : string)
  : outcome (list HospitalObject) :=
  let file_path := resolve_path fs file_path in
  match read fs file_path with
  | None => FileNotFoundError file_path
  | Some None => JSONDecodeError
  | Some (Some data) =>
      match hospitals_of data with
      | Py.Return hospitals => Loaded hospitals
      | Py.Raise e => Raised e
      end
  end.

End data_loader.

(* ================================================================== *)
(** * src/core/use_cases/decay_calculator.py                           *)
(* ================================================================== *)

Module decay_calculator.

Definition calculate_remaining_activity
    (initial_activity time_elapsed_hours half_life_hours : R) : Py.result R :=
  if Rle_dec half_life_hours 0 then Py.Raise Py.ValueError
  else if Rlt_dec time_elapsed_hours 0 then Py.Raise Py.ValueError
  else
    let decay_constant := ln 2 / half_life_hours in
    let remaining_activity :=
      initial_activity * exp (- decay_constant * time_elapsed_hours) in
    Py.Return remaining_activity.

End decay_calculator.

(* ================================================================== *)
(** * src/core/distance_matrix.py                                      *)
(* ================================================================== *)

Module distance_matrix.

Record Location : Type := mkLocation {
  lat : R;
  lon : R
}.

(** One entry of the [locations] list handed to the matrix builder: a dict
    with the keys 'lat', 'lon' and 'tier'. *)
Record loc_dict : Type := mkLocDict {
  d_lat : R;
  d_lon : R;
  d_tier : Z
}.

(** A dense matrix, row by row. *)
Definition matrix : Type := list (list R).

(** [np.zeros((n, m))]. *)
Definition zeros (n m : nat) : matrix := repeat (repeat 0 m) n.

(** [xs[i] = v]. *)
Fixpoint list_set {A : Type} (xs : list A) (i : nat) (v : A)
  : Py.result (list A) :=
  match xs, i with
  | [], _ => Py.Raise Py.IndexError
  | _ :: xs', O => Py.Return (v :: xs')
  | x :: xs', S i' =>
      match list_set xs' i' v with
      | Py.Return r => Py.Return (x :: r)
      | Py.Raise e => Py.Raise e
      end
  end.

(** [m[i][j]]. *)
Definition get_cell (m : matrix) (i j : nat) : Py.result R :=
  row <- Py.getitem m i ;; Py.getitem row j.

(** [m[i][j] = v]. *)
Definition set_cell (m : matrix) (i j : nat) (v : R) : Py.result matrix :=
  row <- Py.getitem m i ;;
  row' <- list_set row j v ;;
  list_set m i row'.

(** ** The two remote services *)

(** Reply of the trip planner to one request: the request raised (timeout,
    connection error, undecodable body), or a response with its status code
    and, when the body has the key 'journeys', the length of that list. *)
Inductive tfnsw_reply : Type :=
| TripRaised
| TripResponse (status_code : Z) (journeys : option nat).

(** A route object of the road router: 'duration' in seconds, 'distance' in
    metres and 'geometry', given here as the point list that
    [polyline.decode] makes of it. *)
Record osrm_route : Type := mkOsrmRoute {
  duration : R;
  distance : R;
  geometry : list (R * R)
}.

(** Reply of the road router to one request: anything that raises inside the
    caller's [try] (the request itself, the JSON decoding, a missing key,
    the polyline decoding), or a response with status code, 'code' and
    'routes'. *)
Inductive osrm_reply : Type :=
| OsrmRaised
| OsrmResponse (status_code : Z) (code : string) (routes : list osrm_route).

(** What a route request sends: the coordinate list and the 'radiuses'
    parameter. *)
Record osrm_request : Type := mkOsrmRequest {
  coords : list Location;
  radiuses : option string
}.

(** The network: the replies still to come from each service and the route
    requests sent so far. *)
Record Network : Type := mkNetwork {
  tfnsw_replies : list tfnsw_reply;
  osrm_replies : list osrm_reply;
  osrm_sent : list osrm_request
}.

Definition tfnsw_get (net : Network) : tfnsw_reply * Network :=
  match tfnsw_replies net with
  | [] => (TripRaised, net)
  | r :: rs => (r, mkNetwork rs (osrm_replies net) (osrm_sent net))
  end.

Definition osrm_get (req : osrm_request) (net : Network)
  : osrm_reply * Network :=
  match osrm_replies net with
  | [] => (OsrmRaised,
           mkNetwork (tfnsw_replies net) [] (osrm_sent net ++ [req]))
  | r :: rs => (r, mkNetwork (tfnsw_replies net) rs (osrm_sent net ++ [req]))
  end.

(** ** TfNSWClient *)

Record TfNSWClient : Type := mkTfNSWClient {
  token : option string
}.

(** [not self.token]: the token is [None] or the empty string. *)
Definition token_falsy (c : TfNSWClient) : bool :=
  match token c with
  | None => true
  | Some EmptyString => true
  | Some _ => false
  end.

Definition get_trip_duration (self : TfNSWClient)
    (origin destination : Location) (net : Network)
  : option R * Network :=
  if token_falsy self then (None, net)
  else
    match tfnsw_get net with
    | (TripResponse status (Some len), net') =>
        if Z.eqb status 200 then
          (if Nat.ltb 0 len then (Some 45, net') else (None, net'))
        else (None, net')
    | (_, net') => (None, net')
    end.

(** ** Geography *)

Definition get_haversine_distance (origin destination : Location)
  : Py.result R :=
  let R_ := 6371 in
  let dlat := Py.radians (lat destination - lat origin) in
  let dlon := Py.radians (lon destination - lon origin) in
  let a := sin (dlat / 2) ^ 2
           + cos (Py.radians (lat origin))
             * cos (Py.radians (lat destination))
             * sin (dlon / 2) ^ 2 in
  sa <- Py.sqrt a ;;
  sb <- Py.sqrt (1 - a) ;;
  let c := 2 * Py.atan2 sa sb in
  Py.Return (R_ * c).

Definition calculate_duration_fallback (distance_km : R) (tier : Z) : R :=
  let '(speed, multiplier) :=
    if Z.eqb tier 1 || Z.eqb tier 2 then (50, 14 / 10) else (80, 1) in
  (distance_km * multiplier / speed) * 60.

(** ** Matrix builder *)

(** One pass of the inner loop body of [generate_distance_matrix], for the
    pair [(i, j)]. *)
Definition matrix_arc (locations : list loc_dict)
    (client : option TfNSWClient) (use_api : bool) (i j : nat)
    (st : matrix * Network) : Py.result (matrix * Network) :=
  let '(m, net) := st in
  if Nat.eqb i j then Py.Return (m, net)
  else
    li <- Py.getitem locations i ;;
    lj <- Py.getitem locations j ;;
    let origin := mkLocation (d_lat li) (d_lon li) in
    let dest := mkLocation (d_lat lj) (d_lon lj) in
    let dest_tier := d_tier lj in
    let '(duration, net) :=
      match use_api, client with
      | true, Some c => get_trip_duration c origin dest net
      | _, _ => (None, net)
      end in
    duration <-
      match duration with
      | Some d => Py.Return d
      | None =>
          dist <- get_haversine_distance origin dest ;;
          Py.Return (calculate_duration_fallback dist dest_tier)
      end ;;
    m <- set_cell m i j duration ;;
    Py.Return (m, net).

Definition generate_distance_matrix (locations : list loc_dict)
    (client : option TfNSWClient) (net : Network)
  : Py.result (matrix * Network) :=
  let n := List.length locations in
  let matrix0 := zeros n n in
  let use_api :=
    match client with
    | Some c => match token c with Some _ => true | None => false end
    | None => false
    end in
  Py.for_ (Py.range n) (fun i st =>
    Py.for_ (Py.range n) (fun j st =>
      matrix_arc locations client use_api i j st) st)
    (matrix0, net).

(** ** Road-network services *)

(** Reply of the nearest service to one request: the request raised, or a
    response with its status code and the document [r.json()] makes of its
    body ([None]: the body does not decode). *)
Inductive nearest_reply : Type :=
| NearestRaised
| NearestResponse (status_code : Z) (body : option json.value).

(** The dict [snap_to_road] returns. *)
Record snap_result : Type := mkSnapResult {
  sr_lat : json.value;
  sr_lon : json.value;
  sr_distance_m : json.value;
  sr_name : json.value
}.

(** The body of the [try] of [snap_to_road]: [Return (Some r)] when it
    returns [r], [Return None] when it falls through, [Raise] when it
    raises.  [data.get] and [wp.get] are reached on dicts only, the
    subscripts before them raising on anything else. *)
Definition snap_try (reply : nearest_reply) : Py.result (option snap_result) :=
  match reply with
  | NearestRaised => Py.Raise Py.RequestException
  | NearestResponse status body =>
      if Z.eqb status 200 then
        match body with
        | None => Py.Raise Py.ValueError
        | Some data =>
            code <- json.getitem_str data "code" ;;
            match data with
            | json.Dict kvs =>
                if json.eq_str code "Ok"
                   && json.truthy (json.get kvs "waypoints" json.Null) then
                  wps <- json.getitem_str data "waypoints" ;;
                  wp <- json.getitem_int wps 0 ;;
                  loc <- json.getitem_str wp "location" ;;
                  la <- json.getitem_int loc 1 ;;
                  loc' <- json.getitem_str wp "location" ;;
                  lo <- json.getitem_int loc' 0 ;;
                  dist <- json.getitem_str wp "distance" ;;
                  match wp with
                  | json.Dict wkvs =>
                      Py.Return
                        (Some (mkSnapResult la lo dist
                                 (json.get wkvs "name" (json.Str ""))))
                  | _ => Py.Raise Py.TypeError
                  end
                else Py.Return None
            | _ => Py.Raise Py.TypeError
            end
        end
      else Py.Return None
  end.

Definition snap_to_road (lat lon : R) (reply : nearest_reply) : snap_result :=
  match snap_try reply with
  | Py.Return (Some r) => r
  | _ => mkSnapResult (json.Float lat) (json.Float lon) (json.Int 0)
                      (json.Str "")
  end.

Fixpoint near_point_scan (idxs : list nat) (origin dest : Location)
    (point_lat point_lon radius_km : R) : Py.result bool :=
  match idxs with
  | [] => Py.Return false
  | i :: rest =>
      let t := INR i / 10 in
      let lat_ := lat origin + (lat dest - lat origin) * t in
      let lon_ := lon origin + (lon dest - lon origin) * t in
      d <- get_haversine_distance (mkLocation lat_ lon_)
                                  (mkLocation point_lat point_lon) ;;
      if Rlt_dec d radius_km then Py.Return true
      else near_point_scan rest origin dest point_lat point_lon radius_km
  end.

Definition _is_segment_near_point (origin dest : Location)
    (point_lat point_lon radius_km : R) : Py.result bool :=
  near_point_scan (Py.range 11) origin dest point_lat point_lon radius_km.

Definition _calculate_detour_waypoint (origin dest : Location)
    (avoid_lat avoid_lon : R) : Py.result Location :=
  let dx := lat dest - lat origin in
  let dy := lon dest - lon origin in
  let px := - dy in
  let py := dx in
  mag <- Py.sqrt (px * px + py * py) ;;
  if Req_dec_T mag 0 then
    Py.Return (mkLocation (avoid_lat + 4 / 100) avoid_lon)
  else
    let px := px / mag in
    let py := py / mag in
    let offset := 45 / 1000 in
    let wp1 := mkLocation (avoid_lat + px * offset) (avoid_lon + py * offset) in
    let wp2 := mkLocation (avoid_lat - px * offset) (avoid_lon - py * offset) in
    let mid := mkLocation ((lat origin + lat dest) / 2)
                          ((lon origin + lon dest) / 2) in
    d1 <- get_haversine_distance wp1 mid ;;
    d2 <- get_haversine_distance wp2 mid ;;
    Py.Return (if Rlt_dec d1 d2 then wp2 else wp1).

Record route_data : Type := mkRouteData {
  duration_min : R;
  distance_km : R;
  rd_geometry : list (R * R);
  detoured : bool
}.

(** The body of the [try] of [fetch_osrm_route_data]: [Return (Some r)] when
    it returns [r], [Return None] when it falls through to the fallback, and
    [Raise] when it raises. *)
Definition fetch_osrm_try (origin dest : Location)
    (avoid_point : option Location) (net : Network)
  : Py.result (option route_data) * Network :=
  let detour : Py.result (option Location) :=
    match avoid_point with
    | Some ap =>
        near <- _is_segment_near_point origin dest (lat ap) (lon ap) 2 ;;
        if (near : bool) then
          wp <- _calculate_detour_waypoint origin dest (lat ap) (lon ap) ;;
          Py.Return (Some wp)
        else Py.Return None
    | None => Py.Return None
    end in
  match detour with
  | Py.Raise e => (Py.Raise e, net)
  | Py.Return detour_wp =>
      let use_detour :=
        match detour_wp with Some _ => true | None => false end in
      let req :=
        match detour_wp with
        | Some wp => mkOsrmRequest [origin; wp; dest]
                                   (Some "unlimited;50;unlimited"%string)
        | None => mkOsrmRequest [origin; dest] None
        end in
      match osrm_get req net with
      | (OsrmRaised, net') => (Py.Raise Py.RequestException, net')
      | (OsrmResponse status code routes, net') =>
          if Z.eqb status 200 then
            if String.eqb code "Ok" then
              match routes with
              | route :: _ =>
                  (Py.Return (Some (mkRouteData (duration route / 60)
                                                (distance route / 1000)
                                                (geometry route)
                                                use_detour)), net')
              | [] => (Py.Return None, net')
              end
            else (Py.Return None, net')
          else (Py.Return None, net')
      end
  end.

Definition fetch_osrm_route_data (origin dest : Location)
    (avoid_point : option Location) (net : Network)
  : Py.result (route_data * Network) :=
  match fetch_osrm_try origin dest avoid_point net with
  | (Py.Return (Some r), net') => Py.Return (r, net')
  | (_, net') =>
      dist <- get_haversine_distance origin dest ;;
      Py.Return (mkRouteData (calculate_duration_fallback dist 1)
                             dist
                             [(lat origin, lon origin); (lat dest, lon dest)]
                             false,
                 net')
  end.

Definition fetch_route_geometry (origin dest : Location)
    (avoid_point : option Location) (net : Network)
  : Py.result (list (R * R) * Network) :=
  r <- fetch_osrm_route_data origin dest avoid_point net ;;
  Py.Return (rd_geometry (fst r), snd r).

End distance_matrix.

(* ================================================================== *)
(** * src/core/optimizer.py                                            *)
(* ================================================================== *)

Module optimizer.

Module dl := data_loader.
Module dm := distance_matrix.

(** Physics constants *)
Definition HALF_LIFE_TC99M : R := 6.
Definition INITIAL_ACTIVITY : R := 100.
Definition LAMBDA : R := ln 2 / HALF_LIFE_TC99M.

(** Clinical thresholds *)
Definition FUTILITY_THRESHOLD : R := 35.

(** Financial constants *)
Definition DOSE_VALUE_AUD : Z := 1500.

(** The dict [snap_to_road] returns. *)
Record snapped : Type := mkSnapped {
  snap_lat : R;
  snap_lon : R;
  distance_m : R;
  snap_name : string
}.

Record IsotopeOptimizer : Type := mkIsotopeOptimizer {
  hospitals : list dl.Hospital;
  depot_index : nat;
  avoid_point : option dm.Location;
  snapped_incident : option snapped;
  distance_matrix : dm.matrix;
  num_vehicles : nat;
  vehicle_capacity : Z
}.

Definition set_distance_matrix (self : IsotopeOptimizer) (m : dm.matrix)
  : IsotopeOptimizer :=
  mkIsotopeOptimizer (hospitals self) (depot_index self) (avoid_point self)
    (snapped_incident self) m (num_vehicles self) (vehicle_capacity self).

Record data_model : Type := mkDataModel {
  time_matrix : dm.matrix;
  data_num_vehicles : nat;
  depot : nat;
  demands : list Z;
  vehicle_capacities : list Z
}.

Definition create_data_model (self : IsotopeOptimizer) : data_model :=
  mkDataModel (distance_matrix self) (num_vehicles self) (depot_index self)
    (map (fun h => if Z.eqb (dl.tier h) 0 then 0%Z else 1%Z) (hospitals self))
    (repeat (vehicle_capacity self) (num_vehicles self)).

Fixpoint impacted_scan (idxs : list nat) (loc1 loc2 : dm.Location)
    (lat lon radius_km : R) : Py.result bool :=
  match idxs with
  | [] => Py.Return false
  | i :: rest =>
      let t := INR i / 10 in
      let plat := dm.lat loc1 + (dm.lat loc2 - dm.lat loc1) * t in
      let plon := dm.lon loc1 + (dm.lon loc2 - dm.lon loc1) * t in
      d <- dm.get_haversine_distance (dm.mkLocation plat plon)
                                     (dm.mkLocation lat lon) ;;
      if Rlt_dec d radius_km then Py.Return true
      else impacted_scan rest loc1 loc2 lat lon radius_km
  end.

Definition is_segment_impacted (loc1 loc2 : dm.Location)
    (lat lon radius_km : R) : Py.result bool :=
  impacted_scan (Py.range 11) loc1 loc2 lat lon radius_km.

(** ** Forced road diversion *)

(** What the double loop of [_apply_osrm_detour_durations] carries along. *)
Record detour_state : Type := mkDetourState {
  ds_matrix : dm.matrix;
  ds_net : dm.Network;
  rerouted : Z;
  checked : Z
}.

(** One pass of the inner loop body, for the arc [(i, j)]. *)
Definition detour_arc (hs : list dl.Hospital) (avoid_point : dm.Location)
    (i j : nat) (st : detour_state) : Py.result detour_state :=
  let incident_loc :=
    dm.mkLocation (dm.lat avoid_point) (dm.lon avoid_point) in
  if Nat.eqb i j then Py.Return st
  else
    hi <- Py.getitem hs i ;;
    hj <- Py.getitem hs j ;;
    let loc1 := dm.mkLocation (dl.lat hi) (dl.lon hi) in
    let loc2 := dm.mkLocation (dl.lat hj) (dl.lon hj) in
    d1 <- dm.get_haversine_distance loc1 incident_loc ;;
    d2 <- dm.get_haversine_distance loc2 incident_loc ;;
    if Py.lt 50 d1 && Py.lt 50 d2 then Py.Return st
    else
      hit <- is_segment_impacted loc1 loc2
               (dm.lat avoid_point) (dm.lon avoid_point) 2 ;;
      if (hit : bool) then
        let checked' := (checked st + 1)%Z in
        r <- dm.fetch_osrm_route_data loc1 loc2 (Some avoid_point)
               (ds_net st) ;;
        let '(route_data, net') := r in
        original <- dm.get_cell (ds_matrix st) i j ;;
        let osrm_dur := dm.duration_min route_data in
        m' <- dm.set_cell (ds_matrix st) i j (Py.max original osrm_dur) ;;
        let rerouted' :=
          if dm.detoured route_data then (rerouted st + 1)%Z
          else rerouted st in
        Py.Return (mkDetourState m' net' rerouted' checked')
      else Py.Return st.

Definition _apply_osrm_detour_durations (self : IsotopeOptimizer)
    (avoid_point : dm.Location) (net : dm.Network)
  : Py.result (IsotopeOptimizer * dm.Network) :=
  let n := List.length (hospitals self) in
  st <- Py.for_ (Py.range n) (fun i st =>
          Py.for_ (Py.range n) (fun j st =>
            detour_arc (hospitals self) avoid_point i j st) st)
        (mkDetourState (distance_matrix self) net 0 0) ;;
  Py.Return (set_distance_matrix self (ds_matrix st), ds_net st).

(** ** Solver callbacks *)

(** [manager.IndexToNode] of the routing index manager. *)
Record RoutingIndexManager : Type := mkManager {
  IndexToNode : Z -> nat
}.

Definition time_callback (data : data_model) (manager : RoutingIndexManager)
    (from_index to_index : Z) : Py.result Z :=
  tt <- dm.get_cell (time_matrix data) (IndexToNode manager from_index)
                    (IndexToNode manager to_index) ;;
  Py.Return (Py.int tt).

Definition cost_callback (self : IsotopeOptimizer) (data : data_model)
    (manager : RoutingIndexManager) (from_index to_index : Z)
  : Py.result Z :=
  let fn := IndexToNode manager from_index in
  let tn := IndexToNode manager to_index in
  tt <- dm.get_cell (time_matrix data) fn tn ;;
  dest <- Py.getitem (hospitals self) tn ;;
  pw <- (if Z.eqb (dl.tier dest) 0 then Py.Return 1
         else dl.get_priority_weight dest) ;;
  Py.Return (Py.int (tt * (1 / pw) * 100)).

Definition demand_callback (data : data_model) (manager : RoutingIndexManager)
    (from_index : Z) : Py.result Z :=
  Py.getitem (demands data) (IndexToNode manager from_index).

(** ** What [solve_and_report] asks of the routing model *)

(** The time dimension, [AddDimension(transit_cb, 30, 1440, True, 'Time')]:
    the slack and the horizon, in minutes. *)
Definition TIME_SLACK : Z := 30.
Definition TIME_HORIZON : Z := 1440.

(** [SetRange(0, 720)] on the arrival time, for the node of every hospital
    whose tier is not 0. *)
Definition arrival_range (h : dl.Hospital) : option (Z * Z) :=
  if negb (Z.eqb (dl.tier h) 0) then Some (0, 720)%Z else None.

(** [SetCumulVarSoftUpperBound(ni, bound, coefficient)], by tier: the soft
    deadline in minutes and the penalty per minute beyond it. *)
Definition soft_upper_bound (h : dl.Hospital) : option (Z * Z) :=
  if Z.eqb (dl.tier h) 0 then None
  else if Z.eqb (dl.tier h) 3 then Some (120, 500)%Z
  else if Z.eqb (dl.tier h) 2 then Some (180, 200)%Z
  else Some (240, 50)%Z.

(** [AddDisjunction([node], penalty)], for every node but the depot: the
    price of leaving the node out, [{1: 50000, 2: 200000, 3:
    1000000}.get(h.tier, 0)]. *)
Definition drop_penalty (self : IsotopeOptimizer) (idx : nat)
    (h : dl.Hospital) : option Z :=
  if Nat.eqb idx (depot_index self) then None
  else Some (if Z.eqb (dl.tier h) 1 then 50000
             else if Z.eqb (dl.tier h) 2 then 200000
             else if Z.eqb (dl.tier h) 3 then 1000000
             else 0)%Z.

(** ** Export: ETA and potency, auto-cancel, financial data *)

(** The routing model and the assignment the solver returned, as the paths
    they encode: for vehicle [vid], [route_walk vid] lists the indices from
    [routing.Start(vid)] along [NextVar] for which [routing.IsEnd] is false,
    [route_end vid] is the index that ends the walk, and [cumul_min index]
    is [solution.Min(time_dim.CumulVar(index))]. *)
Record Assignment : Type := mkAssignment {
  route_walk : nat -> list Z;
  route_end : nat -> Z;
  cumul_min : Z -> Z
}.

Record step : Type := mkStep {
  name : string;
  tier : Z;
  arrival_time_min : Z;
  lat : R;
  lon : R;
  potency : R;
  triage : string
}.

Definition set_triage (s : step) (label : string) : step :=
  mkStep (name s) (tier s) (arrival_time_min s) (lat s) (lon s) (potency s)
         label.

(** A step of the walk before the end node. *)
Definition walk_step (self : IsotopeOptimizer) (manager : RoutingIndexManager)
    (solution : Assignment) (index : Z) : Py.result step :=
  let ni := IndexToNode manager index in
  h <- Py.getitem (hospitals self) ni ;;
  let arr_min := cumul_min solution index in
  let hrs := IZR arr_min / 60 in
  let potency := INITIAL_ACTIVITY * exp (- LAMBDA * hrs) in
  let triage :=
    if Rle_dec 70 potency then "OPTIMAL"%string
    else if Rle_dec FUTILITY_THRESHOLD potency then "DEGRADED"%string
    else "FUTILE"%string in
  Py.Return (mkStep (dl.name h) (dl.tier h) arr_min (dl.lat h) (dl.lon h)
                    (Py.round potency 1) triage).

(** The end node (depot return). *)
Definition end_step (self : IsotopeOptimizer) (manager : RoutingIndexManager)
    (solution : Assignment) (index : Z) : Py.result step :=
  let ni := IndexToNode manager index in
  h <- Py.getitem (hospitals self) ni ;;
  Py.Return (mkStep (dl.name h) (dl.tier h) (cumul_min solution index)
                    (dl.lat h) (dl.lon h) 100 "DEPOT"%string).

Definition build_all_steps (self : IsotopeOptimizer)
    (manager : RoutingIndexManager) (solution : Assignment) (vid : nat)
  : Py.result (list step) :=
  all_steps <- Py.for_ (route_walk solution vid) (fun index all_steps =>
                 s <- walk_step self manager solution index ;;
                 Py.Return (all_steps ++ [s])) [] ;;
  e <- end_step self manager solution (route_end solution vid) ;;
  Py.Return (all_steps ++ [e]).

(** The accumulators shared by all vehicles. *)
Record fleet_state : Type := mkFleet {
  fleet_total_potency : R;
  fleet_served : Z;
  all_canceled : list step
}.

Record split_state : Type := mkSplit {
  viable : list step;
  canceled : list step;
  fleet : fleet_state
}.

(** One pass of the loop that separates viable from futile steps. *)
Definition split_step (st : split_state) (s : step) : split_state :=
  let fl := fleet st in
  if negb (Z.eqb (tier s) 0) && Py.lt (potency s) FUTILITY_THRESHOLD then
    let s' := set_triage s "CANCELED" in
    mkSplit (viable st) (canceled st ++ [s'])
            (mkFleet (fleet_total_potency fl) (fleet_served fl)
                     (all_canceled fl ++ [s']))
  else
    mkSplit (viable st ++ [s]) (canceled st)
            (if negb (Z.eqb (tier s) 0) then
               mkFleet (fleet_total_potency fl + potency s)
                       (fleet_served fl + 1) (all_canceled fl)
             else fl).

Definition split_steps (all_steps : list step) (fl : fleet_state)
  : split_state :=
  fold_left split_step all_steps (mkSplit [] [] fl).

Definition point_eq_dec (p q : R * R) : {p = q} + {p <> q}.
Proof.
  destruct p as [a b], q as [c d].
  destruct (Req_dec_T a c) as [Hac|Hac];
    [destruct (Req_dec_T b d) as [Hbd|Hbd]|].
  - left. congruence.
  - right. congruence.
  - right. congruence.
Defined.

(** [geom.extend(seg)], dropping the head of [seg] when it repeats the last
    point of [geom]. *)
Definition extend_geometry (geom seg : list (R * R)) : list (R * R) :=
  match geom, seg with
  | _ :: _, s0 :: seg' =>
      if point_eq_dec (List.last geom s0) s0 then geom ++ seg'
      else geom ++ seg
  | _, _ => geom ++ seg
  end.

Definition fetch_viable_geometry (self : IsotopeOptimizer)
    (viable : list step) (net : dm.Network)
  : Py.result (list (R * R) * dm.Network) :=
  if Nat.ltb 1 (List.length viable) then
    Py.for_ (Py.range (List.length viable - 1)) (fun i '(geom, net) =>
      vi <- Py.getitem viable i ;;
      vj <- Py.getitem viable (i + 1) ;;
      let o := dm.mkLocation (lat vi) (lon vi) in
      let d := dm.mkLocation (lat vj) (lon vj) in
      r <- dm.fetch_osrm_route_data o d (avoid_point self) net ;;
      let seg := dm.rd_geometry (fst r) in
      Py.Return (extend_geometry geom seg, snd r)) ([], net)
  else Py.Return ([], net).

(** [sum(xs)]: from 0, left to right. *)
Definition sum (xs : list R) : R := fold_left Rplus xs 0.

Record financial_summary : Type := mkFinancial {
  mission_value : Z;
  preserved_value : R;
  waste_value : R
}.

Definition van_stops_of (viable : list step) : list step :=
  filter (fun s => negb (Z.eqb (tier s) 0)) viable.

Definition van_preserved_of (van_stops : list step) : R :=
  sum (map (fun s => (potency s / 100) * IZR DOSE_VALUE_AUD) van_stops).

Definition van_waste_of (van_stops canceled : list step) : R :=
  let van_waste :=
    sum (map (fun s => ((100 - potency s) / 100) * IZR DOSE_VALUE_AUD)
             van_stops) in
  let canceled_waste := (Z.of_nat (List.length canceled) * DOSE_VALUE_AUD)%Z in
  van_waste + IZR canceled_waste.

Definition van_mission_of (van_stops canceled : list step) : Z :=
  ((Z.of_nat (List.length van_stops) + Z.of_nat (List.length canceled))
   * DOSE_VALUE_AUD)%Z.

(** The 'financial' dict of one vehicle; [round] with [ndigits = 0] leaves
    the integer [van_mission] as it is. *)
Definition van_financial (viable canceled : list step) : financial_summary :=
  let van_stops := van_stops_of viable in
  mkFinancial (van_mission_of van_stops canceled)
              (Py.round (van_preserved_of van_stops) 0)
              (Py.round (van_waste_of van_stops canceled) 0).

Record route_out : Type := mkRouteOut {
  vehicle_id : nat;
  steps : list step;
  route_canceled : list step;
  geometry : list (R * R);
  avg_potency : R;
  financial : financial_summary
}.

(** One pass of the loop over the vehicles. *)
Definition export_vehicle (self : IsotopeOptimizer)
    (manager : RoutingIndexManager) (solution : Assignment) (vid : nat)
    (st : list route_out * fleet_state * dm.Network)
  : Py.result (list route_out * fleet_state * dm.Network) :=
  let '(output_data, fl, net) := st in
  all_steps <- build_all_steps self manager solution vid ;;
  let sp := split_steps all_steps fl in
  g <- fetch_viable_geometry self (viable sp) net ;;
  let '(geom, net') := g in
  let van_stops := van_stops_of (viable sp) in
  let avg_pot :=
    match van_stops with
    | [] => 0
    | _ => sum (map potency van_stops) / INR (List.length van_stops)
    end in
  Py.Return (output_data ++
               [mkRouteOut vid (viable sp) (canceled sp) geom
                           (Py.round avg_pot 1)
                           (van_financial (viable sp) (canceled sp))],
             fleet sp, net').

Record canceled_mission : Type := mkCanceledMission {
  cm_name : string;
  cm_potency : R;
  cm_tier : Z;
  original_eta_min : Z
}.

Record clinical_outcomes : Type := mkClinical {
  doses_saved : Z;
  cardiac_ready : Z;
  avoided_waste_count : Z;
  avoided_waste_cost : Z;
  canceled_missions : list canceled_mission
}.

Record fleet_financial : Type := mkFleetFinancial {
  dose_value : Z;
  total_mission_value : Z;
  total_preserved_value : R;
  total_waste_value : R
}.

Record analytics : Type := mkAnalytics {
  fleet_avg_potency : R;
  analytics_total_potency : R;
  fleet_stops_served : Z;
  incident_active : bool;
  snapped_road : string;
  clinical : clinical_outcomes;
  analytics_financial : fleet_financial
}.

Record payload : Type := mkPayload {
  routes : list route_out;
  payload_analytics : analytics
}.

(** [sum(1 for r in output_data for s in r['steps'] if ...)] *)
Definition count_steps (p : step -> bool) (output_data : list route_out) : Z :=
  Z.of_nat (List.length (filter p (flat_map steps output_data))).

Definition _export_solution (self : IsotopeOptimizer)
    (manager : RoutingIndexManager) (solution : Assignment)
    (data : data_model) (net : dm.Network)
  : Py.result (payload * dm.Network) :=
  st <- Py.for_ (Py.range (data_num_vehicles data))
          (export_vehicle self manager solution)
          ([], mkFleet 0 0 [], net) ;;
  let '(output_data, fl, net') := st in
  let fleet_avg :=
    if Z.ltb 0 (fleet_served fl)
    then fleet_total_potency fl / IZR (fleet_served fl) else 0 in
  let doses_saved :=
    count_steps (fun s => negb (Z.eqb (tier s) 0)
                          && Py.ge (potency s) 60) output_data in
  let cardiac_ready :=
    count_steps (fun s => negb (Z.eqb (tier s) 0)
                          && Py.ge (potency s) 70) output_data in
  let n_canceled := Z.of_nat (List.length (all_canceled fl)) in
  let total_mission :=
    (fleet_served fl * DOSE_VALUE_AUD + n_canceled * DOSE_VALUE_AUD)%Z in
  let total_preserved :=
    sum (map (fun r => preserved_value (financial r)) output_data) in
  let total_waste :=
    sum (map (fun r => waste_value (financial r)) output_data) in
  Py.Return
    (mkPayload output_data
       (mkAnalytics
          (Py.round fleet_avg 1)
          (Py.round (fleet_total_potency fl) 1)
          (fleet_served fl)
          (match avoid_point self with Some _ => true | None => false end)
          (match snapped_incident self with
           | Some sn => snap_name sn
           | None => ""%string
           end)
          (mkClinical doses_saved cardiac_ready n_canceled
             (n_canceled * DOSE_VALUE_AUD)%Z
             (map (fun c => mkCanceledMission (name c) (potency c) (tier c)
                                              (arrival_time_min c))
                  (all_canceled fl)))
          (mkFleetFinancial DOSE_VALUE_AUD total_mission
             (Py.round total_preserved 0) (Py.round total_waste 0))),
     net').

(** ** The document written to output/routes.json *)

Definition step_json (s : step) : json.value :=
  json.Dict [("name", json.Str (name s));
             ("tier", json.Int (tier s));
             ("arrival_time_min", json.Int (arrival_time_min s));
             ("lat", json.Float (lat s));
             ("lon", json.Float (lon s));
             ("potency", json.Float (potency s));
             ("triage", json.Str (triage s))]%string.

Definition point_json (p : R * R) : json.value :=
  json.List [json.Float (fst p); json.Float (snd p)].

Definition financial_json (f : financial_summary) : json.value :=
  json.Dict [("mission_value", json.Int (mission_value f));
             ("preserved_value", json.Float (preserved_value f));
             ("waste_value", json.Float (waste_value f))]%string.

Definition route_json (r : route_out) : json.value :=
  json.Dict [("vehicle_id", json.Int (Z.of_nat (vehicle_id r)));
             ("steps", json.List (map step_json (steps r)));
             ("canceled", json.List (map step_json (route_canceled r)));
             ("geometry", json.List (map point_json (geometry r)));
             ("avg_potency", json.Float (avg_potency r));
             ("financial", financial_json (financial r))]%string.

Definition canceled_mission_json (c : canceled_mission) : json.value :=
  json.Dict [("name", json.Str (cm_name c));
             ("potency", json.Float (cm_potency c));
             ("tier", json.Int (cm_tier c));
             ("original_eta_min", json.Int (original_eta_min c))]%string.

Definition analytics_json (a : analytics) : json.value :=
  let c := clinical a in
  let f := analytics_financial a in
  json.Dict
    [("fleet_avg_potency", json.Float (fleet_avg_potency a));
     ("fleet_total_potency", json.Float (analytics_total_potency a));
     ("fleet_stops_served", json.Int (fleet_stops_served a));
     ("incident_active", json.Bool (incident_active a));
     ("snapped_road", json.Str (snapped_road a));
     ("clinical_outcomes",
      json.Dict
        [("doses_saved", json.Int (doses_saved c));
         ("cardiac_ready", json.Int (cardiac_ready c));
         ("avoided_waste_count", json.Int (avoided_waste_count c));
         ("avoided_waste_cost", json.Int (avoided_waste_cost c));
         ("canceled_missions",
          json.List (map canceled_mission_json (canceled_missions c)))]);
     ("financial",
      json.Dict
        [("dose_value", json.Int (dose_value f));
         ("total_mission_value", json.Int (total_mission_value f));
         ("total_preserved_value", json.Float (total_preserved_value f));
         ("total_waste_value", json.Float (total_waste_value f))])]%string.

(** [json.dump(payload, f)] followed by [json.load(f)]. *)
Definition payload_json (p : payload) : json.value :=
  json.Dict [("routes", json.List (map route_json (routes p)));
             ("analytics", analytics_json (payload_analytics p))]%string.

End optimizer.

(* ================================================================== *)
(** * src/core/simulator_dynamic.py                                    *)
(* ================================================================== *)

Module simulator_dynamic.

(** [target_vid] and [target_route] of [run_m5_scenario]. *)
Record target : Type := mkTarget {
  target_vid : json.value;
  target_route : json.value
}.

(** First loop of step 2: the strict 'St George' search, with its [break]. *)
Fixpoint strict_scan (rs : list json.value) (t : target) : Py.result target :=
  match rs with
  | [] => Py.Return t
  | r :: rest =>
      steps <- json.getitem_str r "steps" ;;
      n <- json.len steps ;;
      hit <- (if Nat.ltb 1 n then
                s0 <- json.getitem_int steps 0 ;;
                nm <- json.getitem_str s0 "name" ;;
                json.contains_str "St George" nm
              else Py.Return false) ;;
      if (hit : bool) then
        vid <- json.getitem_str r "vehicle_id" ;;
        Py.Return (mkTarget vid r)
      else strict_scan rest t
  end.

(** Second loop of step 2: the first route that starts at a Metro stop. *)
Fixpoint metro_scan (rs : list json.value) (t : target) : Py.result target :=
  match rs with
  | [] => Py.Return t
  | r :: rest =>
      steps <- json.getitem_str r "steps" ;;
      n <- json.len steps ;;
      hit <- (if Nat.ltb 0 n then
                steps' <- json.getitem_str r "steps" ;;
                s0 <- json.getitem_int steps' 0 ;;
                tr <- json.getitem_str s0 "tier" ;;
                Py.Return (json.eq_int tr 1)
              else Py.Return false) ;;
      if (hit : bool) then
        vid <- json.getitem_str r "vehicle_id" ;;
        Py.Return (mkTarget vid r)
      else metro_scan rest t
  end.

(** Step 2 of [run_m5_scenario] on the document read from
    output/routes.json: [Return None] is the early [return] after
    "No suitable route found". *)
Definition identify_target_van (routes_data : json.value)
  : Py.result (option target) :=
  rs <- json.iter routes_data ;;
  t <- strict_scan rs (mkTarget json.Null json.Null) ;;
  t <- (if json.is_none (target_vid t) then
          rs' <- json.iter routes_data ;;
          metro_scan rs' t
        else Py.Return t) ;;
  if json.is_none (target_vid t) then Py.Return None
  else Py.Return (Some t).

Module dl := data_loader.
Module dm := distance_matrix.

Definition MIN_ACTIVITY_THRESHOLD : R := 25 / 100.
Definition HALF_LIFE : R := 6.
Definition INITIAL_ACTIVITY : R := 100.

Definition interpolate_location (origin dest : dl.Hospital)
    (progress_fraction : R) : dl.Hospital :=
  let new_lat := dl.lat origin + (dl.lat dest - dl.lat origin)
                                 * progress_fraction in
  let new_lon := dl.lon origin + (dl.lon dest - dl.lon origin)
                                 * progress_fraction in
  dl.mkHospital ("Van_Loc_EnRoute_" ++ dl.name dest) new_lat new_lon 0
                "Mobile".

(** Step 4 of [run_m5_scenario], scenario A (the system that pushes
    through): the arrival time at the next destination, in minutes, and the
    activity left by then. *)
Definition ignorant_option (current_loc next_dest_h : dl.Hospital)
    (net : dm.Network) : Py.result (R * R) :=
  let loc_dicts :=
    [dm.mkLocDict (dl.lat current_loc) (dl.lon current_loc) 0;
     dm.mkLocDict (dl.lat next_dest_h) (dl.lon next_dest_h)
                  (dl.tier next_dest_h)] in
  r <- dm.generate_distance_matrix loc_dicts None net ;;
  let matrix := fst r in
  base_time <- dm.get_cell matrix 0 1 ;;
  let spiked_time := base_time * 10 in
  let ignorant_arrival_time := 45 + spiked_time in
  ignorant_activity <-
    decay_calculator.calculate_remaining_activity
      INITIAL_ACTIVITY (ignorant_arrival_time / 60) HALF_LIFE ;;
  Py.Return (ignorant_arrival_time, ignorant_activity).

(** The 'Viable?' entry of [generate_simulation_log]. *)
Definition viable_entry (ignorant_activity : R) : string :=
  if Rlt_dec (MIN_ACTIVITY_THRESHOLD * 100) ignorant_activity
  then "YES" else "NO (FUTILE)".

End simulator_dynamic.

(* ================================================================== *)
(** * src/core/simulator.py                                            *)
(* ================================================================== *)

Module simulator.

Module dl := data_loader.
Module dm := distance_matrix.

Definition interpolate_location (origin dest : dl.Hospital)
    (progress_fraction : R) : dl.Hospital :=
  let new_lat := dl.lat origin + (dl.lat dest - dl.lat origin)
                                 * progress_fraction in
  let new_lon := dl.lon origin + (dl.lon dest - dl.lon origin)
                                 * progress_fraction in
  dl.mkHospital ("Van_Loc_EnRoute_" ++ dl.name dest) new_lat new_lon 0
                "Mobile".

(** The inner loop of [find_route_to_disrupt] over the legs of a route:
    whether one of them ends at a tier-3 stop. *)
Fixpoint leg_scan (steps : json.value) (idxs : list nat) : Py.result bool :=
  match idxs with
  | [] => Py.Return false
  | i :: rest =>
      s <- json.getitem_int steps (i + 1) ;;
      dest_name <- json.getitem_str s "name" ;;
      s' <- json.getitem_int steps (i + 1) ;;
      dest_tier <- json.getitem_str s' "tier" ;;
      if json.eq_int dest_tier 3 then Py.Return true
      else leg_scan steps rest
  end.

(** The outer loop, over the routes; [(Null, Null)] is [None, None]. *)
Fixpoint route_scan (rs : list json.value)
  : Py.result (json.value * json.value) :=
  match rs with
  | [] => Py.Return (json.Null, json.Null)
  | route :: rest =>
      vehicle_id <- json.getitem_str route "vehicle_id" ;;
      steps <- json.getitem_str route "steps" ;;
      n <- json.len steps ;;
      hit <- leg_scan steps (Py.range (n - 1)) ;;
      if (hit : bool) then Py.Return (vehicle_id, route)
      else route_scan rest
  end.

Definition find_route_to_disrupt (routes_data : json.value)
  : Py.result (json.value * json.value) :=
  rs <- json.iter routes_data ;;
  route_scan rs.

(** What [trigger_reroute] hands to the solver and reports. *)
Record reroute : Type := mkReroute {
  reroute_optimizer : optimizer.IsotopeOptimizer;
  original_time : R;
  projected_delay : R
}.

(** [trigger_reroute] from the list [remaining_hospitals] on (the van's
    location first, then the hospitals of the remaining steps): the matrix
    of the reroute problem with its spike, the optimizer built on it, and
    the projected delay.  The solver call between the two is outside the
    sources; it is given no avoid-point and so leaves the matrix as it is. *)
Definition trigger_reroute (remaining_hospitals : list dl.Hospital)
    (net : dm.Network) : Py.result (reroute * dm.Network) :=
  let loc_dicts :=
    map (fun h => dm.mkLocDict (dl.lat h) (dl.lon h) (dl.tier h))
        remaining_hospitals in
  r <- dm.generate_distance_matrix loc_dicts None net ;;
  let '(new_matrix, net) := r in
  original_time <- dm.get_cell new_matrix 0 1 ;;
  x <- dm.get_cell new_matrix 0 1 ;;
  new_matrix <- dm.set_cell new_matrix 0 1 (x * 4) ;;
  let reroute_optimizer :=
    optimizer.mkIsotopeOptimizer remaining_hospitals 0 None None new_matrix
                                 1 10 in
  y <- dm.get_cell new_matrix 0 1 ;;
  let projected_delay := y - original_time in
  Py.Return (mkReroute reroute_optimizer original_time projected_delay, net).

End simulator.

(* ================================================================== *)
(** * src/api.py                                                       *)
(* ================================================================== *)

Module api.

Module dl := data_loader.

(** The dict [get_hospitals] makes of one hospital. *)
Definition hospital_json (h : dl.HospitalObject) : json.value :=
  json.Dict [("name", dl.o_name h);
             ("lat", dl.o_lat h);
             ("lon", dl.o_lon h);
             ("tier", dl.o_tier h);
             ("type", dl.o_type h)]%string.

Definition get_hospitals (fs : dl.FileSystem) : dl.outcome json.value :=
  match dl.load_hospitals fs "hospitals.json" with
  | dl.Loaded hospitals => dl.Loaded (json.List (map hospital_json hospitals))
  | dl.FileNotFoundError path => dl.FileNotFoundError path
  | dl.JSONDecodeError => dl.JSONDecodeError
  | dl.Raised e => dl.Raised e
  end.

End api.

(* ================================================================== *)
(** * The sources on IEEE doubles                                      *)
(* ================================================================== *)

(** The cost arithmetic, the per-van financial lines of
    [_export_solution] and the haversine distance with the fallback of
    [fetch_osrm_route_data] once more, on binary64 numbers (Rocq's primitive
    floats, which round as Python's floats do), where the rounding error of
    each operation is visible. *)
Module binary64.
Import Floats.
#[local] Open Scope float_scope.

(** An [int] operand of a float operation, for [0 <= z < 2^53] (exact). *)
Definition of_int (z : Z) : float := PrimFloat.of_uint63 (Uint63.of_Z z).

(** Nearest integer to [m * 2^e], ties to even. *)
Definition nearest_even (m : positive) (e : Z) : Z :=
  if Z.leb 0 e then (Zpos m * 2 ^ e)%Z
  else
    let d := (2 ^ (- e))%Z in
    let q := (Zpos m / d)%Z in
    let r := (Zpos m mod d)%Z in
    if Z.ltb (2 * r) d then q
    else if Z.ltb d (2 * r) then (q + 1)%Z
    else if Z.even q then q else (q + 1)%Z.

(** [round(x, 0)] on a float: a float with a non-negative exponent is an
    integer already. *)
Definition round0 (x : float) : float :=
  match Prim2SF x with
  | S754_finite s m e =>
      if Z.leb 0 e then x
      else
        let f := of_int (nearest_even m e) in
        if s then - f else f
  | _ => x
  end.

(** [int(x)] on a float truncates toward zero; infinities and NaN raise. *)
Definition int (x : float) : option Z :=
  match Prim2SF x with
  | S754_zero _ => Some 0%Z
  | S754_finite s m e =>
      let z := if Z.leb 0 e then (Zpos m * 2 ^ e)%Z
               else (Zpos m / 2 ^ (- e))%Z in
      Some (if s then (- z)%Z else z)
  | _ => None
  end.

(** The arithmetic of [cost_callback] for a travel time [tt] and a weight
    [pw]. *)
Definition arc_cost (tt pw : float) : option Z :=
  int (tt * (1 / pw) * 100).

(** [sum(xs)] of a generator of floats: from the integer 0, left to
    right.  (Python 3.12 and later compensate the rounding error of the
    additions; on a single addend, as in the example below, either way gives
    the addend itself.) *)
Definition sum (xs : list float) : float := fold_left PrimFloat.add xs 0.

Definition DOSE_VALUE_AUD : Z := 1500.

(** The fields of a step dict the roll-up reads. *)
Record step : Type := mkStep {
  tier : Z;
  potency : float
}.

Record financial_summary : Type := mkFinancial {
  mission_value : Z;
  preserved_value : float;
  waste_value : float
}.

Definition van_financial (viable canceled : list step) : financial_summary :=
  let van_stops := filter (fun s => negb (Z.eqb (tier s) 0)) viable in
  let van_preserved :=
    sum (map (fun s => (potency s / 100) * of_int DOSE_VALUE_AUD)
             van_stops) in
  let van_waste :=
    sum (map (fun s => ((100 - potency s) / 100) * of_int DOSE_VALUE_AUD)
             van_stops) in
  let canceled_waste := (Z.of_nat (List.length canceled) * DOSE_VALUE_AUD)%Z in
  let van_waste := van_waste + of_int canceled_waste in
  let van_mission :=
    ((Z.of_nat (List.length van_stops) + Z.of_nat (List.length canceled))
     * DOSE_VALUE_AUD)%Z in
  mkFinancial van_mission (round0 van_preserved) (round0 van_waste).

(** The viable list of a van with one stop, reached at minute 10 and so at
    potency 98.1, between the depot steps. *)
#[local] Set Warnings "-inexact-float".
Definition one_stop_at_minute_ten : list step :=
  [mkStep 0 100; mkStep 1 98.1; mkStep 0 100].

(** ** The haversine distance and the route fallback *)

(** The functions of the C library behind [math.sin], [math.cos],
    [math.atan2] and the float power [x ** y].  They are not part of the
    sources, and primitive floats do not have them: the code is read for an
    arbitrary library. *)
Record libm : Type := mkLibm {
  m_sin : float -> float;
  m_cos : float -> float;
  m_atan2 : float -> float -> float;
  m_pow : float -> float -> float
}.

Record Location : Type := mkLocation {
  lat : float;
  lon : float
}.

(** [math.pi]. *)
Definition pi : float := 0x1.921fb54442d18p+1.

(** [math.radians(x)] is [x * (pi / 180)]. *)
Definition radians (x : float) : float := x * (pi / 180).

(** [math.sqrt]: a [ValueError] below zero. *)
Definition sqrt (x : float) : Py.result float :=
  if x <? 0 then Py.Raise Py.ValueError else Py.Return (PrimFloat.sqrt x).

Definition get_haversine_distance (c : libm) (origin destination : Location)
  : Py.result float :=
  let R_ := 6371 in
  let dlat := radians (lat destination - lat origin) in
  let dlon := radians (lon destination - lon origin) in
  let a := m_pow c (m_sin c (dlat / 2)) 2
           + m_cos c (radians (lat origin))
             * m_cos c (radians (lat destination))
             * m_pow c (m_sin c (dlon / 2)) 2 in
  sa <- sqrt a ;;
  sb <- sqrt (1 - a) ;;
  Py.Return (R_ * (2 * m_atan2 c sa sb)).

Definition calculate_duration_fallback (distance_km : float) (tier : Z)
  : float :=
  let '(speed, multiplier) :=
    if Z.eqb tier 1 || Z.eqb tier 2 then (50, 1.4) else (80, 1) in
  (distance_km * multiplier / speed) * 60.

Record route_data : Type := mkRouteData {
  duration_min : float;
  distance_km : float;
  rd_geometry : list (float * float);
  detoured : bool
}.

(** [fetch_osrm_route_data] from the end of its [try] block on.  [tried] is
    the record the block returned, and [None] when the block raised (the
    [except] clause prints and goes on) or fell through; the statements
    under [# Fallback] follow, outside the [try]. *)
Definition fetch_osrm_route_data (c : libm) (origin dest : Location)
    (tried : option route_data) : Py.result route_data :=
  match tried with
  | Some r => Py.Return r
  | None =>
      dist <- get_haversine_distance c origin dest ;;
      Py.Return (mkRouteData (calculate_duration_fallback dist 1) dist
                             [(lat origin, lon origin); (lat dest, lon dest)]
                             false)
  end.

(** A stand-in for the C library: at the arguments that the route from
    (2.5, 0) to (-2.5, 180) reaches it returns what glibc returns there. *)
Definition glibc_between_antipodes : libm :=
  mkLibm
    (fun x => if x =? radians (180 - 0) / 2 then 1
              else -0x1.65547c4694e11p-5)
    (fun _ => 0x1.ff833f9da45f7p-1)
    (fun _ _ => 0)
    (fun x _ => if x =? 1 then 1 else 0x1.f2c4be7ea5e1ep-10).

End binary64.

(* ================================================================== *)
(** * A two-node plan                                                  *)
(* ================================================================== *)

Module plan_example.
Import optimizer.

(** A depot and one Metro hospital five minutes away. *)
Definition two_node_fleet : IsotopeOptimizer :=
  mkIsotopeOptimizer
    [dl.mkHospital "Source" (-34) 150 0 "Source";
     dl.mkHospital "Dest1" (-341 / 10) (1501 / 10) 1 "Metro"]
    0 None None [[0; 5]; [5; 0]] 1 10.

(** One van: out of the depot at minute 0, at Dest1 at minute 5, back at
    minute 10.  Index 0 is the start, index 1 the hospital, index 2 the
    end of the route. *)
Definition single_van_manager : RoutingIndexManager :=
  mkManager (fun index => if Z.eqb index 1 then 1%nat else 0%nat).

Definition single_van_solution : Assignment :=
  mkAssignment (fun _ => [0; 1]%Z) (fun _ => 2%Z)
    (fun index => if Z.eqb index 1 then 5%Z
                  else if Z.eqb index 2 then 10%Z else 0%Z).

(** A network that answers nothing. *)
Definition silent_network : dm.Network := dm.mkNetwork [] [] [].

End plan_example.


(* ================================================================== *)
(** * Terms of the statements                                          *)
(* ================================================================== *)

Module geo_terms.
Import distance_matrix.

(** The argument [a] of the two square roots of [get_haversine_distance]. *)
Definition haversine_a (origin destination : Location) : R :=
  let dlat := Py.radians (lat destination - lat origin) in
  let dlon := Py.radians (lon destination - lon origin) in
  sin (dlat / 2) ^ 2
  + cos (Py.radians (lat origin)) * cos (Py.radians (lat destination))
    * sin (dlon / 2) ^ 2.

(** The distance as a total function of the two points. *)
Definition haversine_km (origin destination : Location) : R :=
  let a := haversine_a origin destination in
  6371 * (2 * Py.atan2 (sqrt a) (sqrt (1 - a))).

End geo_terms.

Module loop_terms.
Import distance_matrix.
#[local] Open Scope nat_scope.

(** The cell [(i, j)] of a matrix, when there is one. *)
Definition cell (m : matrix) (i j : nat) : option R :=
  match nth_error m i with
  | Some row => nth_error row j
  | None => None
  end.

(** The length of every row. *)
Definition dims (m : matrix) : list nat := map (@List.length R) m.

End loop_terms.

Module matrix_terms.
Import distance_matrix loop_terms geo_terms.
#[local] Open Scope nat_scope.

(** No trip-planner client can answer: there is none, or its token is
    [None] or empty. *)
Definition client_unavailable (client : option TfNSWClient) : Prop :=
  match client with
  | None => True
  | Some c => token_falsy c = true
  end.

Definition loc_of (l : loc_dict) : Location := mkLocation (d_lat l) (d_lon l).

(** The analytic entry for the ordered pair of locations [(li, lj)]. *)
Definition analytic_entry (li lj : loc_dict) : R :=
  calculate_duration_fallback (haversine_km (loc_of li) (loc_of lj))
                              (d_tier lj).

End matrix_terms.

Module route_terms.
Import distance_matrix geo_terms.

(** The reply the next route request will get. *)
Definition next_reply (net : Network) : osrm_reply :=
  match osrm_replies net with
  | [] => OsrmRaised
  | r :: _ => r
  end.

(** The reply is a 200 response with code 'Ok' and at least one route. *)
Definition reply_ok (r : osrm_reply) : bool :=
  match r with
  | OsrmResponse status code (_ :: _) =>
      Z.eqb status 200 && String.eqb code "Ok"
  | _ => false
  end.

(** The record built after the [try] block. *)
Definition fallback_record (origin dest : Location) (dist : R) : route_data :=
  mkRouteData (calculate_duration_fallback dist 1) dist
              [(lat origin, lon origin); (lat dest, lon dest)] false.

End route_terms.

Module injector_terms.
Import optimizer loop_terms geo_terms route_terms.
#[local] Open Scope nat_scope.

Definition hospital_loc (h : dl.Hospital) : dm.Location :=
  dm.mkLocation (dl.lat h) (dl.lon h).

(** The arc [(i, j)] reaches the assignment of the injector: it is not on the
    diagonal, passes the 50 km pre-filter and is impacted. *)
Definition arc_rewritten (hs : list dl.Hospital) (ap : dm.Location)
    (i j : nat) : Prop :=
  i <> j
  /\ exists hi hj d1 d2,
       nth_error hs i = Some hi
       /\ nth_error hs j = Some hj
       /\ dm.get_haversine_distance (hospital_loc hi) ap = Py.Return d1
       /\ dm.get_haversine_distance (hospital_loc hj) ap = Py.Return d2
       /\ ~ (50 < d1 /\ 50 < d2)%R
       /\ is_segment_impacted (hospital_loc hi) (hospital_loc hj)
            (dm.lat ap) (dm.lon ap) 2 = Py.Return true.

(** The arcs the two nested loops visit before they reach [(i, j)], in the
    order of the visit. *)
Definition arcs_before (n i j : nat) : list (nat * nat) :=
  flat_map (fun i' => map (pair i') (Py.range n)) (Py.range i)
  ++ map (pair i) (Py.range j).

(** The arcs they visit after it. *)
Definition arcs_after (n i j : nat) : list (nat * nat) :=
  map (pair i) (seq (S j) (n - S j))
  ++ flat_map (fun i' => map (pair i') (Py.range n)) (seq (S i) (n - S i)).

(** The state in which the run of the injector that starts on the network
    [net] reaches the arc [(i, j)]: the loop body has run on the arcs
    visited before. *)
Definition state_at (self : IsotopeOptimizer) (ap : dm.Location)
    (net : dm.Network) (i j : nat) : Py.result detour_state :=
  Py.for_ (arcs_before (List.length (hospitals self)) i j)
    (fun a st => detour_arc (hospitals self) ap (fst a) (snd a) st)
    (mkDetourState (distance_matrix self) net 0 0).

(** [d] is the duration of the record [fetch_osrm_route_data] returns for
    the arc [(i, j)], with the avoid-point, on the network [net]. *)
Definition fetched_duration (hs : list dl.Hospital) (ap : dm.Location)
    (i j : nat) (net : dm.Network) (d : R) : Prop :=
  exists hi hj r net',
    nth_error hs i = Some hi
    /\ nth_error hs j = Some hj
    /\ dm.fetch_osrm_route_data (hospital_loc hi) (hospital_loc hj)
         (Some ap) net = Py.Return (r, net')
    /\ d = dm.duration_min r.

(** [d] is the detour duration of the arc [(i, j)] in the run of the
    injector that starts on [net]: the duration the route fetch returns on
    the network as the run has left it when it reaches the arc. *)
Definition detour_duration (self : IsotopeOptimizer) (ap : dm.Location)
    (net : dm.Network) (i j : nat) (d : R) : Prop :=
  exists st,
    state_at self ap net i j = Py.Return st
    /\ fetched_duration (hospitals self) ap i j (ds_net st) d.

(** Every cell of the [n] x [n] block exists. *)
Definition covers (n : nat) (m : dm.matrix) : Prop :=
  forall i j, i < n -> j < n -> exists x, cell m i j = Some x.

(** How the cell of an arc changes when the loop body runs on it with the
    network [net]. *)
Definition arc_change (hs : list dl.Hospital) (ap : dm.Location) (i j : nat)
    (net : dm.Network) (old new : option R) : Prop :=
  exists x,
    old = Some x
    /\ ((arc_rewritten hs ap i j
         /\ exists d, fetched_duration hs ap i j net d
                      /\ new = Some (Py.max x d))
        \/ (~ arc_rewritten hs ap i j /\ new = Some x)).

End injector_terms.

Module callback_terms.
Import optimizer.

(** The cost in the spec's words: the product rounded to the nearest
    integer, the weight of a tier-0 destination forced to 1. *)
Definition rounded_cost (tt : R) (dest : dl.Hospital) : Py.result Z :=
  pw <- (if Z.eqb (dl.tier dest) 0 then Py.Return 1
         else dl.get_priority_weight dest) ;;
  Py.Return (Py.round_half_even (tt * (1 / pw) * 100)).

End callback_terms.

Module export_terms.
Import optimizer loop_terms route_terms.
#[local] Open Scope nat_scope.

(** The test that sends a step to the canceled list. *)
Definition futile (s : step) : bool :=
  negb (Z.eqb (tier s) 0) && Py.lt (potency s) FUTILITY_THRESHOLD.

Definition cancel (s : step) : step := set_triage s "CANCELED".

(** Every index on the walk of vehicle [vid] names a hospital. *)
Definition walk_in_range (self : IsotopeOptimizer)
    (manager : RoutingIndexManager) (solution : Assignment) (vid : nat)
  : Prop :=
  forall index,
    In index (route_walk solution vid ++ [route_end solution vid]) ->
    IndexToNode manager index < List.length (hospitals self).

Definition solution_in_range (self : IsotopeOptimizer)
    (manager : RoutingIndexManager) (solution : Assignment)
    (data : data_model) : Prop :=
  forall vid, vid < data_num_vehicles data ->
              walk_in_range self manager solution vid.

(** The steps of vehicle [vid] as the solver walk gives them: one per index
    before the end node, then the end node. *)
Definition walk_steps (self : IsotopeOptimizer)
    (manager : RoutingIndexManager) (solution : Assignment) (vid : nat)
    (body : list step) (e : step) : Prop :=
  Forall2 (fun index s => walk_step self manager solution index = Py.Return s)
          (route_walk solution vid) body
  /\ end_step self manager solution (route_end solution vid) = Py.Return e.

(** [r] is the plan the materializer makes of the walk of its vehicle. *)
Definition route_of (self : IsotopeOptimizer)
    (manager : RoutingIndexManager) (solution : Assignment) (r : route_out)
  : Prop :=
  exists body e,
    walk_steps self manager solution (vehicle_id r) body e
    /\ steps r = filter (fun s => negb (futile s)) (body ++ [e])
    /\ route_canceled r = map cancel (filter futile (body ++ [e]))
    /\ financial r = van_financial (steps r) (route_canceled r).

End export_terms.

Module simulator_terms.
Import optimizer simulator_dynamic.

(** The first step of the route is a depot step that is not St George. *)
Definition starts_at_depot (r : route_out) : Prop :=
  exists s rest,
    steps r = s :: rest
    /\ tier s = 0%Z
    /\ Py.contains "St George" (name s) = false.

(** A route as the materializer exports it, whose first stop after the
    depot is St George Hospital, tier 1. *)
Definition st_george_route : route_out :=
  mkRouteOut 0
    [mkStep "ANSTO Lucas Heights" 0 0 (-3405 / 100) (15098 / 100) 100
            "OPTIMAL";
     mkStep "St George Hospital" 1 25 (-3397 / 100) (15113 / 100) (953 / 10)
            "OPTIMAL";
     mkStep "ANSTO Lucas Heights" 0 50 (-3405 / 100) (15098 / 100) 100
            "DEPOT"]
    [] [] (953 / 10) (mkFinancial 1500 1430 70).

End simulator_terms.

Module waypoint_terms.
Import distance_matrix geo_terms route_terms.

(** The midpoint of origin and destination. *)
Definition midpoint (origin dest : Location) : Location :=
  mkLocation ((lat origin + lat dest) / 2) ((lon origin + lon dest) / 2).

(** [(ux, uy)] is a unit vector perpendicular to origin -> dest. *)
Definition unit_perpendicular (origin dest : Location) (ux uy : R) : Prop :=
  ux * ux + uy * uy = 1
  /\ ux * (lat dest - lat origin) + uy * (lon dest - lon origin) = 0.

(** The avoid-point moved by [k] times 0.045 degrees along [(ux, uy)]. *)
Definition offset_point (avoid_lat avoid_lon ux uy k : R) : Location :=
  mkLocation (avoid_lat + k * ux * (45 / 1000))
             (avoid_lon + k * uy * (45 / 1000)).

(** The waypoint in the spec's words: one of the two candidates at
    +-0.045 degrees along the unit perpendicular, the one closer to the
    midpoint. *)
Definition closer_candidate (origin dest : Location)
    (avoid_lat avoid_lon : R) (w : Location) : Prop :=
  exists ux uy k d_w d_other,
    unit_perpendicular origin dest ux uy
    /\ (k = 1 \/ k = -1)
    /\ w = offset_point avoid_lat avoid_lon ux uy k
    /\ get_haversine_distance w (midpoint origin dest) = Py.Return d_w
    /\ get_haversine_distance
         (offset_point avoid_lat avoid_lon ux uy (- k))
         (midpoint origin dest) = Py.Return d_other
    /\ d_w <= d_other.

(** Length of the perpendicular [(-dy, dx)] the code normalises. *)
Definition perp_mag (origin dest : Location) : R :=
  let dx := lat dest - lat origin in
  let dy := lon dest - lon origin in
  sqrt (- dy * - dy + dx * dx).

(** The waypoint the code returns, as a function of its arguments. *)
Definition chosen_waypoint (origin dest : Location) (avoid_lat avoid_lon : R)
  : Location :=
  let dx := lat dest - lat origin in
  let dy := lon dest - lon origin in
  let mag := perp_mag origin dest in
  if Req_dec_T mag 0 then mkLocation (avoid_lat + 4 / 100) avoid_lon
  else
    let wp1 := offset_point avoid_lat avoid_lon (- dy / mag) (dx / mag) 1 in
    let wp2 := offset_point avoid_lat avoid_lon (- dy / mag) (dx / mag) (-1) in
    if Rlt_dec (haversine_km wp1 (midpoint origin dest))
               (haversine_km wp2 (midpoint origin dest))
    then wp2 else wp1.

(** The segment from (0, -1) to (0, 1) with a closure 0.01 degrees north of
    its middle. *)
Definition west_end : Location := mkLocation 0 (-1).
Definition east_end : Location := mkLocation 0 1.

End waypoint_terms.

Module trip_terms.
Import distance_matrix loop_terms geo_terms matrix_terms.
#[local] Open Scope nat_scope.

(** The trip-planner client can answer: there is one and its token is
    neither [None] nor empty. *)
Definition client_live (client : option TfNSWClient) : bool :=
  match client with
  | Some c => negb (token_falsy c)
  | None => false
  end.

(** The tiers for which the analytic fallback takes the urban speed. *)
Definition urban (tier : Z) : bool := Z.eqb tier 1 || Z.eqb tier 2.

(** What the builder may store for the ordered pair [(li, lj)]: the
    constant the client returns, when there is a live client, or the
    analytic entry. *)
Definition entry_ok (client : option TfNSWClient) (li lj : loc_dict)
    (x : option R) : Prop :=
  (client_live client = true /\ x = Some 45%R)
  \/ x = Some (analytic_entry li lj).

(** The route service is left alone. *)
Definition same_router (net net' : Network) : Prop :=
  osrm_replies net' = osrm_replies net /\ osrm_sent net' = osrm_sent net.

End trip_terms.

Module request_terms.
Import distance_matrix geo_terms route_terms.

(** The request for the direct route. *)
Definition direct_request (origin dest : Location) : osrm_request :=
  mkOsrmRequest [origin; dest] None.

(** The request for the route through a detour waypoint, which gets a snap
    radius of 50 m. *)
Definition detour_request (origin wp dest : Location) : osrm_request :=
  mkOsrmRequest [origin; wp; dest] (Some "unlimited;50;unlimited"%string).

(** The network after one route request: the request is logged and one
    reply of the router, if there was one, is used up. *)
Definition after_request (net : Network) (req : osrm_request) : Network :=
  mkNetwork (tfnsw_replies net) (tl (osrm_replies net))
            (osrm_sent net ++ [req]).

(** The record made of a route of the router's reply. *)
Definition route_record (route : osrm_route) (use_detour : bool)
  : route_data :=
  mkRouteData (duration route / 60) (distance route / 1000)
              (geometry route) use_detour.

(** The request asks for a detour. *)
Definition with_waypoint (req : osrm_request) : bool :=
  match radiuses req with
  | Some _ => true
  | None => false
  end.

End request_terms.

Module snap_terms.
Import distance_matrix.

(** The dict returned when nothing was snapped: the point as given, no
    distance, no road name. *)
Definition unsnapped (lat lon : R) : snap_result :=
  mkSnapResult (json.Float lat) (json.Float lon) (json.Int 0) (json.Str "").

(** The reply is a 200 whose body is a dict with code 'Ok' and, under
    'waypoints', a value whose item 0 is a dict with a 'location' of at
    least two items and a 'distance'; [r] is made of that waypoint, the
    latitude being item 1 of the location and the longitude item 0. *)
Definition snaps_to (reply : nearest_reply) (r : snap_result) : Prop :=
  exists kvs wps wkvs loc la lo dist,
    reply = NearestResponse 200 (Some (json.Dict kvs))
    /\ json.lookup kvs "code" = Some (json.Str "Ok")
    /\ json.lookup kvs "waypoints" = Some wps
    /\ json.getitem_int wps 0 = Py.Return (json.Dict wkvs)
    /\ json.lookup wkvs "location" = Some loc
    /\ json.getitem_int loc 1 = Py.Return la
    /\ json.getitem_int loc 0 = Py.Return lo
    /\ json.lookup wkvs "distance" = Some dist
    /\ r = mkSnapResult la lo dist (json.get wkvs "name" (json.Str "")).

End snap_terms.

Module impact_terms.
Import optimizer loop_terms geo_terms route_terms waypoint_terms request_terms injector_terms.

(** The sample point of the segment at [t = i / 10]. *)
Definition sample (loc1 loc2 : dm.Location) (i : nat) : dm.Location :=
  dm.mkLocation (dm.lat loc1 + (dm.lat loc2 - dm.lat loc1) * (INR i / 10))
                (dm.lon loc1 + (dm.lon loc2 - dm.lon loc1) * (INR i / 10)).

(** One of the sample points listed in [idxs] is less than [radius_km]
    away from the point. *)
Definition sample_within (idxs : list nat) (loc1 loc2 : dm.Location)
    (lat lon radius_km : R) : bool :=
  existsb (fun i => Py.lt (haversine_km (sample loc1 loc2 i)
                                        (dm.mkLocation lat lon))
                          radius_km) idxs.

(** A route request of the injector: between two hospitals, through the
    detour waypoint computed for them. *)
Definition injector_request (hs : list dl.Hospital) (ap : dm.Location)
    (req : dm.osrm_request) : Prop :=
  exists hi hj wp,
    In hi hs /\ In hj hs
    /\ dm._calculate_detour_waypoint (hospital_loc hi) (hospital_loc hj)
         (dm.lat ap) (dm.lon ap) = Py.Return wp
    /\ req = detour_request (hospital_loc hi) wp (hospital_loc hj).

(** A router that answers its first request with a route of 6000 seconds
    and 20 km, and nothing after that. *)
Definition one_route_network : dm.Network :=
  dm.mkNetwork []
    [dm.OsrmResponse 200 "Ok" [dm.mkOsrmRoute 6000 20000 []]] [].

End impact_terms.

Module triage_terms.
Import optimizer loop_terms export_terms.
#[local] Open Scope R_scope.

(** The potency, in percent, of a dose [m] minutes after departure, before
    it is rounded to one decimal. *)
Definition raw_potency (m : Z) : R :=
  INITIAL_ACTIVITY * exp (- LAMBDA * (IZR m / 60)).

(** The label the thresholds of the materializer give an arrival minute,
    when they are read as bounds on the minute. *)
Definition label_of_minute (m : Z) : string :=
  if Z.leb m 185 then "OPTIMAL"
  else if Z.leb m 545 then "DEGRADED"
  else "FUTILE".

End triage_terms.

Module fleet_terms.
Import optimizer loop_terms route_terms export_terms triage_terms.
#[local] Open Scope R_scope.

(** The hospital stops the routes serve (the stops of the viable lists whose
    tier is not 0), in the order of the vehicles. *)
Definition served_stops (out : list route_out) : list step :=
  flat_map (fun r => van_stops_of (steps r)) out.

(** The stops the routes cancel, in the order of the vehicles. *)
Definition canceled_stops (out : list route_out) : list step :=
  flat_map route_canceled out.

(** The entry of 'canceled_missions' for a canceled stop. *)
Definition mission_of (c : step) : canceled_mission :=
  mkCanceledMission (name c) (potency c) (tier c) (arrival_time_min c).

(** The mean potency of a list of stops, 0 for the empty list. *)
Definition mean_potency (stops : list step) : R :=
  match stops with
  | [] => 0
  | _ => sum (map potency stops) / INR (List.length stops)
  end.

(** The sum of a list of integers. *)
Definition total (zs : list Z) : Z := fold_right Z.add 0%Z zs.

(** No index of a walk is reached before minute 0. *)
Definition arrivals_nonneg (solution : Assignment) (data : data_model)
  : Prop :=
  forall vid index,
    (vid < data_num_vehicles data)%nat ->
    In index (route_walk solution vid) ->
    (0 <= cumul_min solution index)%Z.

End fleet_terms.

Module geometry_terms.
Import optimizer loop_terms geo_terms route_terms export_terms request_terms.
#[local] Open Scope nat_scope.

(** The point of a step, as the geometry lists it. *)
Definition point_of (s : step) : R * R := (lat s, lon s).

(** The location of a step, as a route request names it. *)
Definition location_of (s : step) : dm.Location :=
  dm.mkLocation (lat s) (lon s).

(** [req] asks for a route from [o] to [d], directly or through one
    waypoint. *)
Definition request_between (o d : dm.Location) (req : dm.osrm_request)
  : Prop :=
  req = direct_request o d \/ exists wp, req = detour_request o wp d.

(** [reqs] are the requests for the legs of the path [viable], one per pair
    of consecutive steps, in order. *)
Definition requests_of_legs (viable : list step)
    (reqs : list dm.osrm_request) : Prop :=
  List.length reqs = List.length viable - 1
  /\ forall i req,
       nth_error reqs i = Some req ->
       exists vi vj,
         nth_error viable i = Some vi
         /\ nth_error viable (i + 1) = Some vj
         /\ request_between (location_of vi) (location_of vj) req.

End geometry_terms.

Module model_terms.
Import optimizer loop_terms callback_terms fleet_terms.

(** The weight the cost callback divides by, for a destination of tier 0
    to 3. *)
Definition cost_weight (tier : Z) : R :=
  if Z.eqb tier 0 then 1
  else if Z.eqb tier 3 then 1
  else if Z.eqb tier 2 then 2
  else 3.

(** The hospitals a van has to be loaded for: those whose tier is not 0. *)
Definition to_serve (hs : list dl.Hospital) : list dl.Hospital :=
  filter (fun h => negb (Z.eqb (dl.tier h) 0)) hs.

End model_terms.

Module loader_terms.
Import data_loader snap_terms.

(** The five keys [load_hospitals] reads in every entry. *)
Definition entry_keys : list string :=
  ["name"; "lat"; "lon"; "tier"; "type"]%string.

(** [entry] is a dict that has the five keys, and [h] holds their
    values. *)
Definition entry_fields (entry : json.value) (h : HospitalObject) : Prop :=
  exists kvs,
    entry = json.Dict kvs
    /\ json.lookup kvs "name" = Some (o_name h)
    /\ json.lookup kvs "lat" = Some (o_lat h)
    /\ json.lookup kvs "lon" = Some (o_lon h)
    /\ json.lookup kvs "tier" = Some (o_tier h)
    /\ json.lookup kvs "type" = Some (o_type h).

(** [entry] cannot be read, and reading it raises [ex]: it is not a dict
    ([TypeError]) or it is a dict that lacks one of the five keys
    ([KeyError]). *)
Definition entry_fails (entry : json.value) (ex : Py.exn) : Prop :=
  (ex = Py.TypeError /\ forall kvs, entry <> json.Dict kvs)
  \/ (ex = Py.KeyError
      /\ exists kvs k,
           entry = json.Dict kvs /\ In k entry_keys
           /\ json.lookup kvs k = None).

(** The default file in the working directory, and the one two levels
    above the module. *)
Definition root_path (fs : FileSystem) : string :=
  path_join (getcwd fs) "hospitals.json".

Definition rel_path (fs : FileSystem) : string :=
  path_join (module_dir fs) "../../hospitals.json".

(** A file system whose working directory holds a hospitals.json with one
    entry, found under the relative path. *)
Definition one_hospital_file : json.value :=
  json.List [json.Dict [("name", json.Str "ANSTO Lucas Heights");
                        ("lat", json.Float (-3405 / 100));
                        ("lon", json.Float (15098 / 100));
                        ("tier", json.Int 0);
                        ("type", json.Str "Source")]%string].

Definition app_directory : FileSystem :=
  mkFileSystem "/app" "/app/src/core"
    (fun path => if String.eqb path "hospitals.json"
                 then Some (Some one_hospital_file) else None).

(** A file system where only /app/hospitals.json exists, with an empty
    list. *)
Definition default_file_only : FileSystem :=
  mkFileSystem "/app" "/app/src/core"
    (fun path => if String.eqb path "/app/hospitals.json"
                 then Some (Some (json.List [])) else None).

End loader_terms.

Module disrupt_terms.
Import optimizer loop_terms geo_terms matrix_terms trip_terms.

(** A route has a leg that ends at a tier-3 stop: one of its steps after
    the first is of tier 3. *)
Definition has_remote_leg (r : route_out) : bool :=
  existsb (fun s => Z.eqb (tier s) 3) (skipn 1 (steps r)).

(** What [find_route_to_disrupt] returns for a route it picks, and for
    none. *)
Definition picked (r : option route_out) : json.value * json.value :=
  match r with
  | Some r => (json.Int (Z.of_nat (vehicle_id r)), route_json r)
  | None => (json.Null, json.Null)
  end.

(** The entry of a reroute problem for a hospital. *)
Definition loc_dict_of (h : dl.Hospital) : dm.loc_dict :=
  dm.mkLocDict (dl.lat h) (dl.lon h) (dl.tier h).

(** The analytic minutes from the van to its next destination. *)
Definition base_minutes (current_loc next_dest_h : dl.Hospital) : R :=
  dm.calculate_duration_fallback
    (haversine_km (dm.mkLocation (dl.lat current_loc) (dl.lon current_loc))
                  (dm.mkLocation (dl.lat next_dest_h) (dl.lon next_dest_h)))
    (dl.tier next_dest_h).

End disrupt_terms.

(* ================================================================== *)
(** * Decay model                                                      *)
(* ================================================================== *)

Module decay_props.
Import decay_calculator.

Lemma exp_neg_ln2 : exp (- ln 2) = 1 / 2.
Proof.
  rewrite exp_Ropp, exp_ln by lra. lra.
Qed.

Lemma activity_defined (A0 t H : R) :
  0 < H -> 0 <= t ->
  calculate_remaining_activity A0 t H
  = Py.Return (A0 * exp (- (ln 2 / H) * t)).
Proof.
  intros HH Ht. unfold calculate_remaining_activity.
  destruct (Rle_dec H 0) as [Hle|_]; [lra|].
  destruct (Rlt_dec t 0) as [Hlt|_]; [lra|].
  reflexivity.
Qed.

Lemma activity_antitone (A0 H t1 t2 : R) :
  0 < H -> 0 <= A0 -> t1 <= t2 ->
  A0 * exp (- (ln 2 / H) * t2) <= A0 * exp (- (ln 2 / H) * t1).
Proof.
  intros HH HA Ht.
  apply Rmult_le_compat_l; [exact HA|].
  assert (Hk : 0 < ln 2 / H).
  { apply Rdiv_lt_0_compat; [|exact HH].
    rewrite <- ln_1. apply ln_increasing; lra. }
  destruct Ht as [Hlt|Heq].
  - left. apply exp_increasing. nra.
  - subst t2. right. reflexivity.
Qed.

(** C7. For a half-life [H > 0] and an initial activity [A0 >= 0] the decay
    function returns [A0] at elapsed time 0, [A0 / 2] after one half-life
    and [A0 / 4] after two; on [t >= 0] it always returns a value, that
    value is never negative, and a later time never gives a larger one. *)
Theorem decay_laws (A0 H : R) :
  0 < H -> 0 <= A0 ->
  calculate_remaining_activity A0 0 H = Py.Return A0
  /\ calculate_remaining_activity A0 H H = Py.Return (A0 / 2)
  /\ calculate_remaining_activity A0 (2 * H) H = Py.Return (A0 / 4)
  /\ (forall t1 t2, 0 <= t1 -> t1 <= t2 ->
        exists a1 a2,
          calculate_remaining_activity A0 t1 H = Py.Return a1
          /\ calculate_remaining_activity A0 t2 H = Py.Return a2
          /\ a2 <= a1)
  /\ (forall t, 0 <= t ->
        exists a, calculate_remaining_activity A0 t H = Py.Return a
                  /\ 0 <= a).
Proof.
  intros HH HA.
  assert (Hne : H <> 0) by lra.
  repeat split.
  - rewrite activity_defined by lra.
    rewrite Rmult_0_r, exp_0. f_equal. lra.
  - rewrite activity_defined by lra.
    replace (- (ln 2 / H) * H) with (- ln 2) by (field; exact Hne).
    rewrite exp_neg_ln2. f_equal. lra.
  - rewrite activity_defined by lra.
    replace (- (ln 2 / H) * (2 * H)) with (- ln 2 + - ln 2)
      by (field; exact Hne).
    rewrite exp_plus, exp_neg_ln2. f_equal. lra.
  - intros t1 t2 H1 H12.
    exists (A0 * exp (- (ln 2 / H) * t1)), (A0 * exp (- (ln 2 / H) * t2)).
    rewrite !activity_defined by lra.
    repeat split. apply activity_antitone; assumption.
  - intros t Ht.
    exists (A0 * exp (- (ln 2 / H) * t)).
    rewrite activity_defined by lra.
    split; [reflexivity|].
    apply Rmult_le_pos; [exact HA|]. left. apply exp_pos.
Qed.

Lemma decay_laws_witness :
  calculate_remaining_activity 100 6 6 = Py.Return (100 / 2)
  /\ calculate_remaining_activity 100 12 6 = Py.Return (100 / 4).
Proof.
  destruct (decay_laws 100 6) as [_ [Hhalf [Hquarter _]]]; [lra|lra|].
  split; [exact Hhalf|].
  replace 12 with (2 * 6) by lra. exact Hquarter.
Defined.

End decay_props.

(* ================================================================== *)
(** * Geography: the haversine distance is defined and non-negative    *)
(* ================================================================== *)

Module geo_props.
Import distance_matrix geo_terms.

Lemma sin_half_sq (x : R) : sin (x / 2) ^ 2 = (1 - cos x) / 2.
Proof.
  replace x with (2 * (x / 2)) at 2 by field.
  rewrite cos_2a_sin. simpl. field.
Qed.

Lemma sin_sq_bounds (x : R) : 0 <= sin x ^ 2 <= 1.
Proof.
  pose proof (sin2_cos2 x) as H. unfold Rsqr in H.
  pose proof (pow2_ge_0 (sin x)). pose proof (pow2_ge_0 (cos x)).
  simpl in *. lra.
Qed.

Lemma haversine_a_bounds (origin destination : Location) :
  0 <= haversine_a origin destination <= 1.
Proof.
  unfold haversine_a, Py.radians.
  set (p1 := lat origin * (PI / 180)).
  set (p2 := lat destination * (PI / 180)).
  replace ((lat destination - lat origin) * (PI / 180)) with (p2 - p1)
    by (unfold p1, p2; ring).
  set (s := sin ((lon destination - lon origin) * (PI / 180) / 2) ^ 2).
  assert (Hs : 0 <= s <= 1) by apply sin_sq_bounds.
  rewrite sin_half_sq.
  pose proof (cos_minus p2 p1) as Hm.
  pose proof (cos_plus p2 p1) as Hp.
  pose proof (COS_bound (p2 - p1)) as Bm.
  pose proof (COS_bound (p2 + p1)) as Bp.
  set (cm := cos (p2 - p1)) in *. set (cp := cos (p2 + p1)) in *.
  set (c1 := cos p1) in *. set (c2 := cos p2) in *.
  set (s1 := sin p1) in *. set (s2 := sin p2) in *.
  assert (Hc : c1 * c2 = (cm + cp) / 2) by lra.
  rewrite Hc.
  split; nra.
Qed.

Lemma py_sqrt_nonneg (x : R) : 0 <= x -> Py.sqrt x = Py.Return (sqrt x).
Proof.
  intros Hx. unfold Py.sqrt. destruct (Rlt_dec x 0); [lra|reflexivity].
Qed.

Lemma get_haversine_distance_total (origin destination : Location) :
  get_haversine_distance origin destination
  = Py.Return (haversine_km origin destination).
Proof.
  pose proof (haversine_a_bounds origin destination) as [H0 H1].
  unfold get_haversine_distance.
  fold (haversine_a origin destination).
  rewrite py_sqrt_nonneg by exact H0. cbn [Py.bind].
  rewrite py_sqrt_nonneg by lra. reflexivity.
Qed.

Lemma atan2_quadrant1 (y x : R) : 0 <= y -> 0 <= x -> 0 <= Py.atan2 y x.
Proof.
  intros Hy Hx. unfold Py.atan2.
  destruct (Rlt_dec 0 x) as [Hpos|Hnpos].
  - rewrite <- atan_0.
    assert (Hq : 0 <= y / x).
    { unfold Rdiv. apply Rmult_le_pos; [exact Hy|].
      left. apply Rinv_0_lt_compat. exact Hpos. }
    destruct Hq as [Hq|Hq].
    + left. apply atan_increasing. exact Hq.
    + rewrite <- Hq. right. reflexivity.
  - destruct (Rlt_dec x 0); [lra|].
    destruct (Rlt_dec 0 y).
    + pose proof PI_RGT_0. lra.
    + destruct (Rlt_dec y 0); lra.
Qed.

Lemma haversine_km_nonneg (origin destination : Location) :
  0 <= haversine_km origin destination.
Proof.
  unfold haversine_km.
  pose proof (atan2_quadrant1 _ _
                (sqrt_pos (haversine_a origin destination))
                (sqrt_pos (1 - haversine_a origin destination))).
  lra.
Qed.

Lemma calculate_duration_fallback_nonneg (d : R) (t : Z) :
  0 <= d -> 0 <= calculate_duration_fallback d t.
Proof.
  intros Hd. unfold calculate_duration_fallback.
  destruct (Z.eqb t 1 || Z.eqb t 2); lra.
Qed.

(** A point is at distance 0 from itself. *)
Lemma haversine_km_refl (p : Location) : haversine_km p p = 0.
Proof.
  unfold haversine_km.
  assert (Ha : haversine_a p p = 0).
  { unfold haversine_a, Py.radians.
    replace ((lat p - lat p) * (PI / 180) / 2) with 0 by lra.
    replace ((lon p - lon p) * (PI / 180) / 2) with 0 by lra.
    rewrite sin_0. ring. }
  rewrite Ha, Rminus_0_r, sqrt_0, sqrt_1.
  unfold Py.atan2. destruct (Rlt_dec 0 1); [|lra].
  replace (0 / 1) with 0 by lra. rewrite atan_0. ring.
Qed.

End geo_props.

(* ================================================================== *)
(** * Loops and matrices                                               *)
(* ================================================================== *)

Module loop_props.
Import distance_matrix loop_terms.
#[local] Open Scope nat_scope.

(** A [for] loop whose body keeps an invariant, indexed by the items
    already visited, returns and ends in the invariant of the whole list. *)
Lemma for_invariant {A S : Type} (I : list A -> S -> Prop)
    (body : A -> S -> Py.result S) (xs : list A) (s : S) :
  I [] s ->
  (forall done x rest s1,
      xs = done ++ x :: rest -> I done s1 ->
      exists s2, body x s1 = Py.Return s2 /\ I (done ++ [x]) s2) ->
  exists s', Py.for_ xs body s = Py.Return s' /\ I xs s'.
Proof.
  intros Hinit Hstep.
  assert (Hgen : forall rest done s1,
             xs = done ++ rest -> I done s1 ->
             exists s', Py.for_ rest body s1 = Py.Return s' /\ I xs s').
  { induction rest as [|x rest IH]; intros done s1 Hxs Hd.
    - rewrite app_nil_r in Hxs. subst done. exists s1.
      split; [reflexivity|exact Hd].
    - destruct (Hstep done x rest s1 Hxs Hd) as [s2 [Hb Hi]].
      cbn [Py.for_]. rewrite Hb.
      apply (IH (done ++ [x])); [|exact Hi].
      rewrite <- app_assoc. exact Hxs. }
  apply (Hgen xs [] s); [reflexivity|exact Hinit].
Qed.

(** A loop over two lists in a row is the two loops in a row. *)
Lemma for_app {A S : Type} (xs ys : list A) (body : A -> S -> Py.result S)
    (s : S) :
  Py.for_ (xs ++ ys) body s = (s' <- Py.for_ xs body s ;; Py.for_ ys body s').
Proof.
  revert s. induction xs as [|x xs IH]; intros s; cbn [app Py.for_ Py.bind].
  - reflexivity.
  - destruct (body x s) as [s1|e]; [apply IH|reflexivity].
Qed.

Lemma for_map {A B S : Type} (f : A -> B) (xs : list A)
    (body : B -> S -> Py.result S) (s : S) :
  Py.for_ (map f xs) body s = Py.for_ xs (fun x st => body (f x) st) s.
Proof.
  revert s. induction xs as [|x xs IH]; intros s; cbn [map Py.for_].
  - reflexivity.
  - destruct (body (f x) s) as [s1|e]; [apply IH|reflexivity].
Qed.

(** Two nested loops visit the pairs of their items row by row. *)
Lemma for_nested {S : Type} (rows cols : list nat)
    (body : nat -> nat -> S -> Py.result S) (s : S) :
  Py.for_ rows (fun i st => Py.for_ cols (fun j st => body i j st) st) s
  = Py.for_ (flat_map (fun i => map (pair i) cols) rows)
      (fun a st => body (fst a) (snd a) st) s.
Proof.
  revert s. induction rows as [|i rows IH]; intros s;
    cbn [flat_map Py.for_].
  - reflexivity.
  - rewrite for_app, for_map. cbn [fst snd].
    destruct (Py.for_ cols (fun j st => body i j st) s) as [s1|e];
      cbn [Py.bind]; [apply IH|reflexivity].
Qed.

(** [range(n)] around one of its items. *)
Lemma range_around (n i : nat) :
  i < n -> Py.range n = Py.range i ++ i :: seq (S i) (n - S i).
Proof.
  intros Hi. unfold Py.range.
  replace n with (i + S (n - S i)) at 1 by lia.
  rewrite seq_app. reflexivity.
Qed.

Lemma getitem_in_range {A : Type} (xs : list A) (i : nat) :
  i < List.length xs -> exists a, nth_error xs i = Some a
                                  /\ Py.getitem xs i = Py.Return a.
Proof.
  intros Hi. unfold Py.getitem.
  destruct (nth_error xs i) as [a|] eqn:Ha; [eauto|].
  apply nth_error_None in Ha. lia.
Qed.

Lemma get_cell_cell (m : matrix) (i j : nat) (x : R) :
  get_cell m i j = Py.Return x <-> cell m i j = Some x.
Proof.
  unfold get_cell, cell, Py.getitem, Py.bind.
  destruct (nth_error m i) as [row|]; [|split; discriminate].
  destruct (nth_error row j); split; congruence.
Qed.

Lemma list_set_spec {A : Type} (xs : list A) (i : nat) (v : A) :
  i < List.length xs ->
  exists xs', list_set xs i v = Py.Return xs'
              /\ List.length xs' = List.length xs
              /\ nth_error xs' i = Some v
              /\ forall k, k <> i -> nth_error xs' k = nth_error xs k.
Proof.
  revert i. induction xs as [|x xs IH]; intros i Hi; cbn in Hi; [lia|].
  destruct i as [|i].
  - exists (v :: xs). cbn. repeat split.
    intros [|k] Hk; [contradiction|reflexivity].
  - destruct (IH i) as [xs' [Hs [Hl [Hn Ho]]]]; [lia|].
    exists (x :: xs'). cbn. rewrite Hs. repeat split.
    + cbn. lia.
    + exact Hn.
    + intros [|k] Hk; [reflexivity|]. cbn. apply Ho. lia.
Qed.

Lemma set_cell_spec (m : matrix) (i j : nat) (x v : R) :
  cell m i j = Some x ->
  exists m', set_cell m i j v = Py.Return m'
             /\ dims m' = dims m
             /\ cell m' i j = Some v
             /\ forall i' j', i' <> i \/ j' <> j ->
                  cell m' i' j' = cell m i' j'.
Proof.
  unfold cell, set_cell, Py.getitem. intros Hc.
  destruct (nth_error m i) as [row|] eqn:Hrow; [|discriminate].
  cbn [Py.bind].
  assert (Hj : j < List.length row).
  { apply nth_error_Some. congruence. }
  destruct (list_set_spec row j v Hj) as [row' [Hs [Hl [Hn Ho]]]].
  rewrite Hs. cbn [Py.bind].
  assert (Hi : i < List.length m).
  { apply nth_error_Some. congruence. }
  destruct (list_set_spec m i row' Hi) as [m' [Hs' [Hl' [Hn' Ho']]]].
  exists m'. split; [exact Hs'|]. split; [|split].
  - unfold dims. apply nth_error_ext. intros k.
    rewrite !nth_error_map.
    destruct (Nat.eq_dec k i) as [->|Hk].
    + rewrite Hn', Hrow. cbn. congruence.
    + rewrite (Ho' k Hk). reflexivity.
  - rewrite Hn'. exact Hn.
  - intros i' j' Hne.
    destruct (Nat.eq_dec i' i) as [->|Hi'].
    + rewrite Hn', Hrow. apply Ho. destruct Hne; congruence.
    + rewrite (Ho' i' Hi'). reflexivity.
Qed.

Lemma cell_zeros (n i j : nat) :
  i < n -> j < n -> cell (zeros n n) i j = Some 0%R.
Proof.
  intros Hi Hj. unfold cell, zeros.
  rewrite (nth_error_repeat _ Hi). apply nth_error_repeat. exact Hj.
Qed.

Lemma dims_zeros (n : nat) : dims (zeros n n) = repeat n n.
Proof.
  unfold dims, zeros. rewrite map_repeat, repeat_length. reflexivity.
Qed.

Lemma dims_cell (m : matrix) (n i j : nat) :
  dims m = repeat n n -> i < n -> j < n -> exists x, cell m i j = Some x.
Proof.
  intros Hd Hi Hj. unfold cell.
  assert (Hrow : nth_error (dims m) i = Some n).
  { rewrite Hd. apply nth_error_repeat. exact Hi. }
  unfold dims in Hrow. rewrite nth_error_map in Hrow.
  destruct (nth_error m i) as [row|]; [|discriminate].
  cbn in Hrow. injection Hrow as Hlen.
  destruct (nth_error row j) as [x|] eqn:Hx; [eauto|].
  apply nth_error_None in Hx. lia.
Qed.

Lemma range_split_fresh (n : nat) (done rest : list nat) (x : nat) :
  Py.range n = done ++ x :: rest -> x < n /\ ~ In x done.
Proof.
  intros Hr. split.
  - assert (Hin : In x (Py.range n)).
    { rewrite Hr. apply in_or_app. right. left. reflexivity. }
    apply in_seq in Hin. lia.
  - pose proof (seq_NoDup n 0) as Hnd. unfold Py.range in Hr.
    rewrite Hr in Hnd. apply NoDup_remove_2 in Hnd.
    intros Hin. apply Hnd. apply in_or_app. left. exact Hin.
Qed.

(** A double loop over [range(n)] x [range(n)] whose body touches, at
    [(i, j)], no cell but [(i, j)], and relates its old and new content by
    [Q i j]. *)
Section double_loop.

Context {S : Type}.
Variable mat : S -> matrix.
Variable n : nat.
Variable body : nat -> nat -> S -> Py.result S.
Variable Inv : S -> Prop.
Variable Q : nat -> nat -> option R -> option R -> Prop.

Hypothesis body_ok : forall i j s,
  i < n -> j < n -> Inv s ->
  exists s', body i j s = Py.Return s'
             /\ Inv s'
             /\ Q i j (cell (mat s) i j) (cell (mat s') i j)
             /\ forall i' j', i' <> i \/ j' <> j ->
                  cell (mat s') i' j' = cell (mat s) i' j'.

Lemma inner_loop (i : nat) (s : S) :
  i < n -> Inv s ->
  exists s', Py.for_ (Py.range n) (fun j st => body i j st) s = Py.Return s'
             /\ Inv s'
             /\ (forall j, j < n ->
                   Q i j (cell (mat s) i j) (cell (mat s') i j))
             /\ forall i' j', i' <> i \/ n <= j' ->
                  cell (mat s') i' j' = cell (mat s) i' j'.
Proof.
  intros Hi Hinv.
  destruct (for_invariant
              (fun done s1 =>
                 Inv s1
                 /\ (forall j, In j done ->
                       Q i j (cell (mat s) i j) (cell (mat s1) i j))
                 /\ forall i' j', i' <> i \/ ~ In j' done ->
                      cell (mat s1) i' j' = cell (mat s) i' j')
              (fun j st => body i j st) (Py.range n) s)
    as [s' [Hrun [Hinv' [Hq Hu]]]].
  - split; [exact Hinv|]. split; [intros j []|]. reflexivity.
  - intros done x rest s1 Hsplit [Hinv1 [Hq1 Hu1]].
    destruct (range_split_fresh _ _ _ _ Hsplit) as [Hx Hfresh].
    destruct (body_ok i x s1 Hi Hx Hinv1) as [s2 [Hb [Hinv2 [Hq2 Hu2]]]].
    exists s2. split; [exact Hb|]. split; [exact Hinv2|]. split.
    + intros j Hj. apply in_app_or in Hj. destruct Hj as [Hj|[<-|[]]].
      * rewrite Hu2; [apply Hq1; exact Hj|].
        right. intros ->. contradiction.
      * rewrite <- (Hu1 i x) by (right; exact Hfresh). exact Hq2.
    + intros i' j' Hne. rewrite Hu2.
      * apply Hu1. destruct Hne as [Hne|Hne]; [left; exact Hne|].
        right. intros Hin. apply Hne. apply in_or_app. left. exact Hin.
      * destruct Hne as [Hne|Hne]; [left; exact Hne|].
        right. intros ->. apply Hne. apply in_or_app. right. left. reflexivity.
  - exists s'. split; [exact Hrun|]. split; [exact Hinv'|]. split.
    + intros j Hj. apply Hq. apply in_seq. lia.
    + intros i' j' [Hne|Hge]; apply Hu; [left; exact Hne|].
      right. intros Hin. apply in_seq in Hin. lia.
Qed.

Lemma outer_loop (s : S) :
  Inv s ->
  exists s', Py.for_ (Py.range n)
               (fun i st => Py.for_ (Py.range n) (fun j st => body i j st) st) s
             = Py.Return s'
             /\ Inv s'
             /\ (forall i j, i < n -> j < n ->
                   Q i j (cell (mat s) i j) (cell (mat s') i j))
             /\ forall i' j', n <= i' \/ n <= j' ->
                  cell (mat s') i' j' = cell (mat s) i' j'.
Proof.
  intros Hinv.
  destruct (for_invariant
              (fun done s1 =>
                 Inv s1
                 /\ (forall i j, In i done -> j < n ->
                       Q i j (cell (mat s) i j) (cell (mat s1) i j))
                 /\ forall i' j', ~ In i' done \/ n <= j' ->
                      cell (mat s1) i' j' = cell (mat s) i' j')
              (fun i st => Py.for_ (Py.range n) (fun j st => body i j st) st)
              (Py.range n) s)
    as [s' [Hrun [Hinv' [Hq Hu]]]].
  - split; [exact Hinv|]. split; [intros i j []|]. reflexivity.
  - intros done x rest s1 Hsplit [Hinv1 [Hq1 Hu1]].
    destruct (range_split_fresh _ _ _ _ Hsplit) as [Hx Hfresh].
    destruct (inner_loop x s1 Hx Hinv1) as [s2 [Hb [Hinv2 [Hq2 Hu2]]]].
    exists s2. split; [exact Hb|]. split; [exact Hinv2|]. split.
    + intros i j Hi Hj. apply in_app_or in Hi. destruct Hi as [Hi|[<-|[]]].
      * rewrite Hu2; [apply Hq1; assumption|].
        left. intros ->. contradiction.
      * rewrite <- (Hu1 x j) by (left; exact Hfresh). apply Hq2. exact Hj.
    + intros i' j' Hne. rewrite Hu2.
      * apply Hu1. destruct Hne as [Hne|Hne]; [|right; exact Hne].
        left. intros Hin. apply Hne. apply in_or_app. left. exact Hin.
      * destruct Hne as [Hne|Hne]; [|right; exact Hne].
        left. intros ->. apply Hne. apply in_or_app. right. left. reflexivity.
  - exists s'. split; [exact Hrun|]. split; [exact Hinv'|]. split.
    + intros i j Hi Hj. apply Hq; [|exact Hj]. apply in_seq. lia.
    + intros i' j' [Hge|Hge]; apply Hu; [|right; exact Hge].
      left. intros Hin. apply in_seq in Hin. lia.
Qed.

End double_loop.

End loop_props.

(* ================================================================== *)
(** * Matrix builder without a router                                  *)
(* ================================================================== *)

Module matrix_props.
Import distance_matrix loop_props geo_props loop_terms geo_terms matrix_terms.
#[local] Open Scope nat_scope.

Lemma no_client_no_request (client : option TfNSWClient) (o d : Location)
    (net : Network) :
  client_unavailable client ->
  match
    match client with
    | Some c => match token c with Some _ => true | None => false end
    | None => false
    end, client
  with
  | true, Some c => get_trip_duration c o d net
  | _, _ => (None, net)
  end = (None, net).
Proof.
  intros Hc. destruct client as [c|]; [|reflexivity].
  cbn in Hc. unfold get_trip_duration. rewrite Hc.
  destruct (token c); reflexivity.
Qed.

Lemma matrix_arc_fallback (locations : list loc_dict)
    (client : option TfNSWClient) (net : Network) (i j : nat)
    (s : matrix * Network) :
  client_unavailable client ->
  let n := List.length locations in
  let use_api :=
    match client with
    | Some c => match token c with Some _ => true | None => false end
    | None => false
    end in
  i < n -> j < n ->
  dims (fst s) = repeat n n /\ snd s = net ->
  exists s', matrix_arc locations client use_api i j s = Py.Return s'
    /\ (dims (fst s') = repeat n n /\ snd s' = net)
    /\ (if Nat.eqb i j then cell (fst s') i j = cell (fst s) i j
        else forall li lj,
            nth_error locations i = Some li ->
            nth_error locations j = Some lj ->
            cell (fst s') i j = Some (analytic_entry li lj))
    /\ forall i' j', i' <> i \/ j' <> j ->
         cell (fst s') i' j' = cell (fst s) i' j'.
Proof.
  intros Hc n use_api Hi Hj [Hd Hn]. destruct s as [m net0].
  cbn [fst snd] in *. subst net0. unfold matrix_arc.
  destruct (Nat.eqb i j) eqn:Hij.
  - exists (m, net). cbn [fst snd]. repeat split; assumption.
  - destruct (getitem_in_range locations i Hi) as [li [Hli ->]].
    destruct (getitem_in_range locations j Hj) as [lj [Hlj ->]].
    cbn [Py.bind]. unfold use_api.
    rewrite (no_client_no_request client _ _ net Hc).
    rewrite get_haversine_distance_total. cbn [Py.bind].
    destruct (dims_cell m n i j Hd Hi Hj) as [x Hx].
    destruct (set_cell_spec m i j x
                (calculate_duration_fallback
                   (haversine_km (mkLocation (d_lat li) (d_lon li))
                                 (mkLocation (d_lat lj) (d_lon lj)))
                   (d_tier lj)) Hx) as [m' [Hs [Hd' [Hc' Hu]]]].
    rewrite Hs. cbn [Py.bind].
    exists (m', net). cbn [fst snd]. split; [reflexivity|].
    split; [split; [congruence|reflexivity]|]. split; [|exact Hu].
    intros li' lj' Hli' Hlj'.
    assert (li' = li) by congruence. assert (lj' = lj) by congruence.
    subst li' lj'. exact Hc'.
Qed.

(** C8. When no trip-planner client is available (no client, or a client
    whose token is [None] or empty), [generate_distance_matrix], computed in
    exact arithmetic, returns,
    sends nothing to the network, and its result is an N x N matrix whose
    diagonal is exactly zero and whose entry [(i, j)], [i <> j], is the
    analytic fallback duration for the haversine distance from location [i]
    to location [j] at the tier of location [j]. *)
Theorem fallback_matrix (locations : list loc_dict)
    (client : option TfNSWClient) (net : Network) :
  client_unavailable client ->
  let n := List.length locations in
  exists m,
    generate_distance_matrix locations client net = Py.Return (m, net)
    /\ List.length m = n
    /\ (forall row, In row m -> List.length row = n)
    /\ (forall i, i < n -> get_cell m i i = Py.Return 0%R)
    /\ (forall i j li lj,
          i <> j ->
          nth_error locations i = Some li ->
          nth_error locations j = Some lj ->
          exists dist,
            get_haversine_distance (loc_of li) (loc_of lj) = Py.Return dist
            /\ get_cell m i j
               = Py.Return (calculate_duration_fallback dist (d_tier lj))).
Proof.
  intros Hc n.
  destruct (outer_loop (@fst matrix Network) n
              (matrix_arc locations client
                 match client with
                 | Some c =>
                     match token c with Some _ => true | None => false end
                 | None => false
                 end)
              (fun s => dims (fst s) = repeat n n /\ snd s = net)
              (fun i j old new =>
                 if Nat.eqb i j then new = old
                 else forall li lj,
                     nth_error locations i = Some li ->
                     nth_error locations j = Some lj ->
                     new = Some (analytic_entry li lj))
              (fun i j s Hi Hj Hinv =>
                 matrix_arc_fallback locations client net i j s Hc Hi Hj Hinv)
              (zeros n n, net))
    as [[m net'] [Hrun [[Hd Hnet] [Hq _]]]].
  { cbn [fst snd]. split; [apply dims_zeros|reflexivity]. }
  cbn [fst snd] in *. subst net'.
  exists m. split; [exact Hrun|].
  assert (Hlen : List.length m = n).
  { apply (f_equal (@List.length nat)) in Hd.
    unfold dims in Hd. rewrite length_map, repeat_length in Hd. exact Hd. }
  split; [exact Hlen|]. split; [|split].
  - intros row Hrow. apply In_nth_error in Hrow. destruct Hrow as [k Hk].
    assert (Hk' : nth_error (dims m) k = Some (List.length row)).
    { unfold dims. rewrite nth_error_map, Hk. reflexivity. }
    rewrite Hd in Hk'.
    assert (Hkn : k < n).
    { rewrite <- Hlen. apply nth_error_Some. congruence. }
    rewrite (nth_error_repeat _ Hkn) in Hk'. congruence.
  - intros i Hi. apply get_cell_cell.
    specialize (Hq i i Hi Hi). rewrite Nat.eqb_refl in Hq.
    rewrite Hq. apply cell_zeros; assumption.
  - intros i j li lj Hne Hli Hlj.
    exists (haversine_km (loc_of li) (loc_of lj)).
    split; [apply get_haversine_distance_total|].
    apply get_cell_cell.
    assert (Hi : i < n) by (apply nth_error_Some; congruence).
    assert (Hj : j < n) by (apply nth_error_Some; congruence).
    specialize (Hq i j Hi Hj).
    apply Nat.eqb_neq in Hne. rewrite Hne in Hq.
    exact (Hq li lj Hli Hlj).
Qed.

Lemma fallback_matrix_witness :
  exists m,
    generate_distance_matrix
      [mkLocDict (-34) 150 0; mkLocDict (-35) 151 3]
      (Some (mkTfNSWClient None)) (mkNetwork [] [] [])
    = Py.Return (m, mkNetwork [] [] [])
    /\ List.length m = 2.
Proof.
  destruct (fallback_matrix
              [mkLocDict (-34) 150 0; mkLocDict (-35) 151 3]
              (Some (mkTfNSWClient None)) (mkNetwork [] [] [])
              eq_refl) as [m [Hrun [Hlen _]]].
  exists m. split; [exact Hrun|exact Hlen].
Defined.

End matrix_props.

(* ================================================================== *)
(** * Route fetch: totality and the fallback record                    *)
(* ================================================================== *)

Module route_props.
Import distance_matrix geo_props geo_terms route_terms.

Lemma near_point_scan_total (idxs : list nat) (origin dest : Location)
    (plat plon radius : R) :
  exists b, near_point_scan idxs origin dest plat plon radius = Py.Return b.
Proof.
  induction idxs as [|i rest IH]; cbn [near_point_scan].
  - exists false. reflexivity.
  - rewrite get_haversine_distance_total. cbn [Py.bind].
    destruct (Rlt_dec _ radius); [exists true; reflexivity|exact IH].
Qed.

Lemma detour_waypoint_total (origin dest : Location) (alat alon : R) :
  exists wp, _calculate_detour_waypoint origin dest alat alon = Py.Return wp.
Proof.
  unfold _calculate_detour_waypoint.
  rewrite py_sqrt_nonneg
    by (apply Rplus_le_le_0_compat; apply Rle_0_sqr). cbn [Py.bind].
  destruct (Req_dec_T _ 0); [eexists; reflexivity|].
  rewrite !get_haversine_distance_total. cbn [Py.bind].
  eexists; reflexivity.
Qed.

Lemma try_success_reply_ok (origin dest : Location)
    (avoid_point : option Location) (net net' : Network) (r : route_data) :
  fetch_osrm_try origin dest avoid_point net = (Py.Return (Some r), net') ->
  reply_ok (next_reply net) = true.
Proof.
  unfold fetch_osrm_try, next_reply, osrm_get.
  match goal with
  | |- context [match ?d with Py.Return _ => _ | Py.Raise _ => _ end] =>
      destruct d as [wp|e]
  end; [|discriminate].
  destruct (osrm_replies net) as [|rep rest]; [discriminate|].
  destruct rep as [|status code routes]; [discriminate|].
  cbn [reply_ok].
  destruct (Z.eqb status 200); [|discriminate].
  destruct (String.eqb code "Ok"); [|discriminate].
  destruct routes; [discriminate|reflexivity].
Qed.

Lemma fetch_osrm_route_data_returns (origin dest : Location)
    (avoid_point : option Location) (net : Network) :
  exists r net',
    fetch_osrm_route_data origin dest avoid_point net = Py.Return (r, net').
Proof.
  unfold fetch_osrm_route_data.
  destruct (fetch_osrm_try origin dest avoid_point net) as [[[r|]|e] net'];
    rewrite ?get_haversine_distance_total; cbn [Py.bind]; eauto.
Qed.

(** In exact arithmetic, where the haversine term stays within [0, 1],
    [fetch_osrm_route_data] returns for every origin, destination, optional
    avoid-point and network behaviour.  Whenever its [try] block does not
    return a route (the request raised, or the response is not a 200 with
    code 'Ok' and a route), the result is the fallback record: its duration
    is the analytic fallback, at tier 1, of the haversine distance from
    origin to destination, and so is not negative; its geometry is exactly
    [origin, dest]; it is not detoured.  (On doubles the haversine term can
    round above 1 and the fallback raise: see [binary64_props].) *)
Lemma fetch_osrm_route_data_total (origin dest : Location)
    (avoid_point : option Location) (net : Network) :
  exists r net',
    fetch_osrm_route_data origin dest avoid_point net = Py.Return (r, net')
    /\ ((reply_ok (next_reply net) = false
         \/ forall x, fst (fetch_osrm_try origin dest avoid_point net)
                      <> Py.Return (Some x)) ->
        exists dist,
          get_haversine_distance origin dest = Py.Return dist
          /\ r = fallback_record origin dest dist
          /\ duration_min r = calculate_duration_fallback dist 1
          /\ 0 <= duration_min r
          /\ rd_geometry r = [(lat origin, lon origin); (lat dest, lon dest)]
          /\ detoured r = false).
Proof.
  unfold fetch_osrm_route_data.
  destruct (fetch_osrm_try origin dest avoid_point net) as [out net'] eqn:Htry.
  assert (Hfb : exists dist,
             get_haversine_distance origin dest = Py.Return dist
             /\ fallback_record origin dest (haversine_km origin dest)
                = fallback_record origin dest dist
             /\ duration_min
                  (fallback_record origin dest (haversine_km origin dest))
                = calculate_duration_fallback dist 1
             /\ 0 <= duration_min
                       (fallback_record origin dest (haversine_km origin dest))
             /\ rd_geometry
                  (fallback_record origin dest (haversine_km origin dest))
                = [(lat origin, lon origin); (lat dest, lon dest)]
             /\ detoured
                  (fallback_record origin dest (haversine_km origin dest))
                = false).
  { exists (haversine_km origin dest).
    split; [apply get_haversine_distance_total|].
    repeat split. unfold fallback_record. cbn [duration_min].
    apply calculate_duration_fallback_nonneg, haversine_km_nonneg. }
  destruct out as [[r|]|e].
  - exists r, net'. split; [reflexivity|].
    intros [Hbad|Hbad].
    + rewrite (try_success_reply_ok _ _ _ _ _ _ Htry) in Hbad. discriminate.
    + exfalso. apply (Hbad r). reflexivity.
  - rewrite get_haversine_distance_total. cbn [Py.bind].
    exists (fallback_record origin dest (haversine_km origin dest)), net'.
    split; [reflexivity|]. intros _.
    rewrite get_haversine_distance_total in Hfb. exact Hfb.
  - rewrite get_haversine_distance_total. cbn [Py.bind].
    exists (fallback_record origin dest (haversine_km origin dest)), net'.
    split; [reflexivity|]. intros _.
    rewrite get_haversine_distance_total in Hfb. exact Hfb.
Qed.

End route_props.

(* ================================================================== *)
(** * Disruption injector: the matrix only gets worse                  *)
(* ================================================================== *)

Module injector_props.
Import optimizer loop_props geo_props route_props plan_example loop_terms
       geo_terms route_terms injector_terms.
#[local] Open Scope nat_scope.

Lemma max_ge_left (a b : R) : (a <= Py.max a b)%R.
Proof.
  unfold Py.max. destruct (Rlt_dec a b); lra.
Qed.

Lemma location_eta (l : dm.Location) : dm.mkLocation (dm.lat l) (dm.lon l) = l.
Proof. destruct l. reflexivity. Qed.

Lemma impacted_scan_total (idxs : list nat) (loc1 loc2 : dm.Location)
    (lat lon radius : R) :
  exists b, impacted_scan idxs loc1 loc2 lat lon radius = Py.Return b.
Proof.
  induction idxs as [|i rest IH]; cbn [impacted_scan].
  - exists false. reflexivity.
  - rewrite get_haversine_distance_total. cbn [Py.bind].
    destruct (Rlt_dec _ radius); [exists true; reflexivity|exact IH].
Qed.

Lemma lt_true (x y : R) : Py.lt x y = true <-> (x < y)%R.
Proof.
  unfold Py.lt. destruct (Rlt_dec x y); split; intros; try assumption;
    try reflexivity; try discriminate; contradiction.
Qed.

Lemma detour_arc_spec (hs : list dl.Hospital) (ap : dm.Location)
    (i j : nat) (s : detour_state) :
  i < List.length hs -> j < List.length hs ->
  covers (List.length hs) (ds_matrix s) ->
  exists s',
    detour_arc hs ap i j s = Py.Return s'
    /\ covers (List.length hs) (ds_matrix s')
    /\ arc_change hs ap i j (ds_net s)
         (cell (ds_matrix s) i j) (cell (ds_matrix s') i j)
    /\ forall i' j', i' <> i \/ j' <> j ->
         cell (ds_matrix s') i' j' = cell (ds_matrix s) i' j'.
Proof.
  intros Hi Hj Hcov.
  destruct (Hcov i j Hi Hj) as [x Hx].
  assert (Hkeep : forall (Hno : ~ arc_rewritten hs ap i j),
             exists s',
               Py.Return s = Py.Return s'
               /\ covers (List.length hs) (ds_matrix s')
               /\ arc_change hs ap i j (ds_net s) (cell (ds_matrix s) i j)
                                       (cell (ds_matrix s') i j)
               /\ forall i' j', i' <> i \/ j' <> j ->
                    cell (ds_matrix s') i' j' = cell (ds_matrix s) i' j').
  { intros Hno. exists s. split; [reflexivity|]. split; [exact Hcov|].
    split; [|reflexivity].
    exists x. split; [exact Hx|]. right. split; [exact Hno|exact Hx]. }
  unfold detour_arc.
  destruct (Nat.eqb i j) eqn:Hij.
  { apply Hkeep. apply Nat.eqb_eq in Hij. intros [Hne _]. contradiction. }
  apply Nat.eqb_neq in Hij.
  destruct (getitem_in_range hs i Hi) as [hi [Hhi ->]].
  destruct (getitem_in_range hs j Hj) as [hj [Hhj ->]].
  cbn [Py.bind]. rewrite location_eta.
  fold (hospital_loc hi). fold (hospital_loc hj).
  rewrite !get_haversine_distance_total. cbn [Py.bind].
  destruct (Py.lt 50 (haversine_km (hospital_loc hi) ap)
            && Py.lt 50 (haversine_km (hospital_loc hj) ap)) eqn:Hpre.
  { apply Hkeep. intros [_ [hi' [hj' [d1 [d2 [H1 [H2 [H3 [H4 [H5 _]]]]]]]]]].
    assert (hi' = hi) by congruence. assert (hj' = hj) by congruence.
    subst hi' hj'.
    rewrite get_haversine_distance_total in H3, H4.
    injection H3 as <-. injection H4 as <-.
    apply andb_true_iff in Hpre. destruct Hpre as [Ha Hb].
    apply lt_true in Ha. apply lt_true in Hb. tauto. }
  destruct (impacted_scan_total (Py.range 11) (hospital_loc hi)
              (hospital_loc hj) (dm.lat ap) (dm.lon ap) 2) as [hit Hhit].
  fold (is_segment_impacted (hospital_loc hi) (hospital_loc hj)
          (dm.lat ap) (dm.lon ap) 2) in Hhit.
  rewrite Hhit. cbn [Py.bind].
  destruct hit.
  2:{ apply Hkeep. intros [_ [hi' [hj' [d1 [d2 [H1 [H2 [_ [_ [_ H6]]]]]]]]]].
      assert (hi' = hi) by congruence. assert (hj' = hj) by congruence.
      subst hi' hj'. congruence. }
  destruct (fetch_osrm_route_data_returns (hospital_loc hi) (hospital_loc hj)
              (Some ap) (ds_net s)) as [r [net' Hfetch]].
  rewrite Hfetch. cbn [Py.bind].
  assert (Hget : dm.get_cell (ds_matrix s) i j = Py.Return x)
    by (apply get_cell_cell; exact Hx).
  rewrite Hget. cbn [Py.bind].
  destruct (set_cell_spec (ds_matrix s) i j x
              (Py.max x (dm.duration_min r)) Hx) as [m' [Hs [_ [Hc' Hu]]]].
  rewrite Hs. cbn [Py.bind].
  eexists. split; [reflexivity|]. cbn [ds_matrix].
  split; [|split; [|exact Hu]].
  - intros i' j' Hi' Hj'.
    destruct (Nat.eq_dec i' i) as [->|Hne].
    + destruct (Nat.eq_dec j' j) as [->|Hne'].
      * eauto.
      * rewrite Hu by (right; exact Hne'). apply Hcov; assumption.
    + rewrite Hu by (left; exact Hne). apply Hcov; assumption.
  - exists x. split; [exact Hx|]. left. split.
    + split; [exact Hij|].
      exists hi, hj, (haversine_km (hospital_loc hi) ap),
        (haversine_km (hospital_loc hj) ap).
      repeat split; try assumption; try apply get_haversine_distance_total.
      intros [Ha Hb]. apply lt_true in Ha. apply lt_true in Hb.
      rewrite Ha, Hb in Hpre. discriminate.
    + exists (dm.duration_min r). split; [|exact Hc'].
      exists hi, hj, r, net'. repeat split; assumption.
Qed.

Lemma arcs_around (n i j : nat) :
  i < n -> j < n ->
  flat_map (fun i' => map (pair i') (Py.range n)) (Py.range n)
  = arcs_before n i j ++ (i, j) :: arcs_after n i j.
Proof.
  intros Hi Hj. unfold arcs_before, arcs_after.
  set (row := fun i' : nat => map (pair i') (Py.range n)).
  rewrite (range_around n i Hi) at 1.
  rewrite flat_map_app. cbn [flat_map]. unfold row at 2.
  rewrite (range_around n j Hj) at 1.
  rewrite map_app. cbn [map].
  rewrite <- !app_assoc. reflexivity.
Qed.

Lemma arcs_before_spec (n i j : nat) (a : nat * nat) :
  i < n -> j < n -> In a (arcs_before n i j) ->
  fst a < n /\ snd a < n /\ a <> (i, j).
Proof.
  intros Hi Hj Hin. unfold arcs_before in Hin.
  apply in_app_or in Hin. destruct Hin as [Hin|Hin].
  - apply in_flat_map in Hin. destruct Hin as [i' [Hi' Hin]].
    apply in_map_iff in Hin. destruct Hin as [j' [<- Hj']].
    apply in_seq in Hi'. apply in_seq in Hj'. cbn [fst snd].
    repeat split; try lia. intros [= -> _]. lia.
  - apply in_map_iff in Hin. destruct Hin as [j' [<- Hj']].
    apply in_seq in Hj'. cbn [fst snd].
    repeat split; try lia. intros [= ->]. lia.
Qed.

Lemma arcs_after_spec (n i j : nat) (a : nat * nat) :
  i < n -> j < n -> In a (arcs_after n i j) ->
  fst a < n /\ snd a < n /\ a <> (i, j).
Proof.
  intros Hi Hj Hin. unfold arcs_after in Hin.
  apply in_app_or in Hin. destruct Hin as [Hin|Hin].
  - apply in_map_iff in Hin. destruct Hin as [j' [<- Hj']].
    apply in_seq in Hj'. cbn [fst snd].
    repeat split; try lia. intros [= ->]. lia.
  - apply in_flat_map in Hin. destruct Hin as [i' [Hi' Hin]].
    apply in_map_iff in Hin. destruct Hin as [j' [<- Hj']].
    apply in_seq in Hi'. apply in_seq in Hj'. cbn [fst snd].
    repeat split; try lia. intros [= -> _]. lia.
Qed.

(** The loop body, run on arcs other than [(i, j)], returns and leaves the
    cell [(i, j)] as it was. *)
Lemma visit_frame (hs : list dl.Hospital) (ap : dm.Location) (i j : nat)
    (arcs : list (nat * nat)) (s : detour_state) :
  (forall a, In a arcs ->
     fst a < List.length hs /\ snd a < List.length hs /\ a <> (i, j)) ->
  covers (List.length hs) (ds_matrix s) ->
  exists s',
    Py.for_ arcs (fun a st => detour_arc hs ap (fst a) (snd a) st) s
    = Py.Return s'
    /\ covers (List.length hs) (ds_matrix s')
    /\ cell (ds_matrix s') i j = cell (ds_matrix s) i j.
Proof.
  revert s. induction arcs as [|a arcs IH]; intros s Harcs Hcov.
  - exists s. repeat split. exact Hcov.
  - destruct (Harcs a (or_introl eq_refl)) as [Ha1 [Ha2 Hne]].
    destruct (detour_arc_spec hs ap (fst a) (snd a) s Ha1 Ha2 Hcov)
      as [s1 [Hrun [Hcov1 [_ Hu]]]].
    destruct (IH s1) as [s' [Hrun' [Hcov' Hcell]]].
    + intros b Hb. apply Harcs. right. exact Hb.
    + exact Hcov1.
    + exists s'. cbn [Py.for_]. rewrite Hrun.
      split; [exact Hrun'|]. split; [exact Hcov'|].
      rewrite Hcell. apply Hu.
      destruct a as [a1 a2]. cbn [fst snd] in *.
      destruct (Nat.eq_dec i a1) as [->|Hi]; [|left; exact Hi].
      right. intros ->. apply Hne. reflexivity.
Qed.

(** The cell of an arc at the end of the run, from the state in which the
    run reaches the arc. *)
Lemma run_cell (self : IsotopeOptimizer) (ap : dm.Location)
    (net : dm.Network) (i j : nat) :
  let n := List.length (hospitals self) in
  i < n -> j < n ->
  covers n (distance_matrix self) ->
  exists st s',
    state_at self ap net i j = Py.Return st
    /\ Py.for_ (Py.range n) (fun i st =>
         Py.for_ (Py.range n) (fun j st =>
           detour_arc (hospitals self) ap i j st) st)
         (mkDetourState (distance_matrix self) net 0 0)
       = Py.Return s'
    /\ arc_change (hospitals self) ap i j (ds_net st)
         (cell (distance_matrix self) i j) (cell (ds_matrix s') i j).
Proof.
  intros n Hi Hj Hcov.
  destruct (visit_frame (hospitals self) ap i j (arcs_before n i j)
              (mkDetourState (distance_matrix self) net 0 0))
    as [st [Hbefore [Hcov1 Hcell1]]].
  { intros a Ha. exact (arcs_before_spec n i j a Hi Hj Ha). }
  { exact Hcov. }
  destruct (detour_arc_spec (hospitals self) ap i j st Hi Hj Hcov1)
    as [s1 [Harc [Hcov2 [Hchange _]]]].
  destruct (visit_frame (hospitals self) ap i j (arcs_after n i j) s1)
    as [s' [Hafter [_ Hcell2]]].
  { intros a Ha. exact (arcs_after_spec n i j a Hi Hj Ha). }
  { exact Hcov2. }
  exists st, s'. split; [exact Hbefore|]. split.
  - rewrite for_nested, (arcs_around n i j Hi Hj), for_app.
    fold n in Hbefore. rewrite Hbefore. cbn [Py.bind Py.for_ fst snd].
    rewrite Harc. exact Hafter.
  - rewrite Hcell2. cbn [ds_matrix] in Hcell1. rewrite <- Hcell1.
    exact Hchange.
Qed.

(** A run fetches one duration for an arc, and no other. *)
Lemma detour_duration_unique (self : IsotopeOptimizer) (ap : dm.Location)
    (net : dm.Network) (i j : nat) (d d' : R) :
  detour_duration self ap net i j d ->
  detour_duration self ap net i j d' ->
  d = d'.
Proof.
  intros [st [Hst [hi [hj [r [net1 [Hi [Hj [Hf ->]]]]]]]]]
         [st' [Hst' [hi' [hj' [r' [net1' [Hi' [Hj' [Hf' ->]]]]]]]]].
  assert (st' = st) by congruence. subst st'.
  assert (hi' = hi) by congruence. assert (hj' = hj) by congruence.
  subst hi' hj'. congruence.
Qed.

(** C1. On a time matrix that has a cell for every ordered pair of
    hospitals, the disruption injector returns (in exact arithmetic) for
    every avoid-point and every behaviour of the router, and no cell of the
    matrix decreases.  A cell whose arc is off the diagonal, passes the
    50 km pre-filter and is impacted becomes [max(original, d)], where [d]
    is the detour duration of the run: the [duration_min] of the record the
    route fetch returns for that arc on the network as the run has left it
    when it reaches the arc.  Every other cell is unchanged. *)
Theorem detour_never_decreases (self : IsotopeOptimizer) (ap : dm.Location)
    (net : dm.Network) :
  (forall i j,
      i < List.length (hospitals self) ->
      j < List.length (hospitals self) ->
      exists x, dm.get_cell (distance_matrix self) i j = Py.Return x) ->
  exists self' net',
    _apply_osrm_detour_durations self ap net = Py.Return (self', net')
    /\ hospitals self' = hospitals self
    /\ forall i j x,
         dm.get_cell (distance_matrix self) i j = Py.Return x ->
         exists y,
           dm.get_cell (distance_matrix self') i j = Py.Return y
           /\ (x <= y)%R
           /\ ((arc_rewritten (hospitals self) ap i j
                /\ exists d, detour_duration self ap net i j d
                             /\ y = Py.max x d)
               \/ (~ arc_rewritten (hospitals self) ap i j /\ y = x)).
Proof.
  intros Hsq. set (n := List.length (hospitals self)).
  assert (Hcov : covers n (distance_matrix self)).
  { intros i j Hi Hj. destruct (Hsq i j Hi Hj) as [x Hx].
    exists x. apply get_cell_cell. exact Hx. }
  destruct (outer_loop ds_matrix n (detour_arc (hospitals self) ap)
              (fun s => covers n (ds_matrix s))
              (fun _ _ _ _ => True)) with
    (s := mkDetourState (distance_matrix self) net 0 0)
    as [s' [Hrun [_ [_ Hu]]]].
  { intros i j s Hi Hj Hinv.
    destruct (detour_arc_spec (hospitals self) ap i j s Hi Hj Hinv)
      as [s1 [H1 [H2 [_ H3]]]].
    exists s1. repeat split; assumption. }
  { exact Hcov. }
  cbn [ds_matrix] in Hu.
  unfold _apply_osrm_detour_durations. fold n. rewrite Hrun. cbn [Py.bind].
  eexists. eexists. split; [reflexivity|]. split; [reflexivity|].
  cbn [distance_matrix set_distance_matrix].
  intros i j x Hx. apply get_cell_cell in Hx.
  destruct (lt_dec i n) as [Hi|Hi]; [destruct (lt_dec j n) as [Hj|Hj]|].
  - destruct (run_cell self ap net i j Hi Hj Hcov)
      as [st [s'' [Hst [Hrun' [x' [Hx' Hcase]]]]]].
    fold n in Hrun'. assert (s'' = s') by congruence. subst s''.
    assert (x' = x) by congruence. subst x'.
    destruct Hcase as [[Hrw [d [Hd Hnew]]]|[Hno Hnew]].
    + exists (Py.max x d). split; [apply get_cell_cell; exact Hnew|].
      split; [apply max_ge_left|]. left. split; [exact Hrw|].
      exists d. split; [|reflexivity].
      exists st. split; [exact Hst|exact Hd].
    + exists x. split; [apply get_cell_cell; exact Hnew|].
      split; [lra|]. right. split; [exact Hno|reflexivity].
  - exists x. split.
    + apply get_cell_cell. rewrite Hu by (right; lia). exact Hx.
    + split; [lra|]. right. split; [|reflexivity].
      intros [_ [hi [hj [d1 [d2 [_ [H2 _]]]]]]].
      apply Hj. apply nth_error_Some. fold n in H2 |- *.
      unfold n. congruence.
  - exists x. split.
    + apply get_cell_cell. rewrite Hu by (left; lia). exact Hx.
    + split; [lra|]. right. split; [|reflexivity].
      intros [_ [hi [hj [d1 [d2 [H1 _]]]]]].
      apply Hi. unfold n. apply nth_error_Some. congruence.
Qed.

(** On the two-node fleet a closure at the depot reaches the assignment
    for the arc from the depot to the hospital. *)
Lemma closure_at_depot_rewrites :
  arc_rewritten (hospitals two_node_fleet) (dm.mkLocation (-34) 150) 0 1.
Proof.
  split; [discriminate|].
  eexists. eexists. eexists. eexists.
  split; [reflexivity|]. split; [reflexivity|].
  split; [apply get_haversine_distance_total|].
  split; [apply get_haversine_distance_total|]. split.
  - unfold hospital_loc. cbn [dl.lat dl.lon]. rewrite haversine_km_refl.
    intros [H _]. lra.
  - unfold is_segment_impacted, Py.range. cbn [seq impacted_scan].
    rewrite get_haversine_distance_total. cbn [Py.bind].
    unfold hospital_loc. cbn [dl.lat dl.lon dm.lat dm.lon INR].
    replace (-34 + (-341 / 10 - -34) * (0 / 10))%R with (-34)%R by lra.
    replace (150 + (1501 / 10 - 150) * (0 / 10))%R with 150%R by lra.
    rewrite haversine_km_refl.
    destruct (Rlt_dec 0 2) as [_|Hn]; [reflexivity|exfalso; lra].
Qed.

End injector_props.

(* ================================================================== *)
(** * Solver callbacks: the arc cost                                   *)
(* ================================================================== *)

Module callback_props.
Import optimizer plan_example callback_terms.

Lemma int_nonneg (x : R) (z : Z) :
  IZR z <= x < IZR z + 1 -> 0 <= x -> Py.int x = z.
Proof.
  intros Hz Hx. unfold Py.int.
  destruct (Rle_dec 0 x); [|contradiction].
  apply Zfloor_eq. exact Hz.
Qed.

Lemma int_nonneg_bounds (x : R) :
  0 <= x -> IZR (Py.int x) <= x < IZR (Py.int x) + 1.
Proof.
  intros Hx. unfold Py.int.
  destruct (Rle_dec 0 x); [|contradiction].
  apply Zfloor_bound.
Qed.

Lemma round_half_even_up (x : R) (z : Z) :
  IZR z + 1 / 2 < x < IZR z + 1 -> Py.round_half_even x = (z + 1)%Z.
Proof.
  intros Hz. unfold Py.round_half_even.
  assert (Hf : Zfloor x = z) by (apply Zfloor_eq; lra).
  rewrite Hf.
  destruct (Rlt_dec (x - IZR z) (1 / 2)); [lra|].
  destruct (Rlt_dec (1 / 2) (x - IZR z)); [reflexivity|lra].
Qed.

Lemma five_minute_metro_cost :
  cost_callback two_node_fleet (create_data_model two_node_fleet)
                single_van_manager 0 1 = Py.Return 166%Z.
Proof.
  unfold cost_callback, single_van_manager. cbn. f_equal.
  apply int_nonneg; lra.
Qed.

(** C2, as stated, fails: for the five-minute arc into a tier-1 hospital the
    callback returns 166 while the product 500/3 rounds to 167. *)
Lemma cost_callback_not_rounded :
  exists dest,
    Py.getitem (hospitals two_node_fleet) 1 = Py.Return dest
    /\ rounded_cost 5 dest = Py.Return 167%Z
    /\ cost_callback two_node_fleet (create_data_model two_node_fleet)
                     single_van_manager 0 1
       <> rounded_cost 5 dest.
Proof.
  eexists. split; [reflexivity|].
  assert (Hr : rounded_cost 5
                 (dl.mkHospital "Dest1" (-341 / 10) (1501 / 10) 1 "Metro")
               = Py.Return 167%Z).
  { unfold rounded_cost. cbn. f_equal.
    apply (round_half_even_up _ 166). lra. }
  split; [exact Hr|].
  rewrite five_minute_metro_cost, Hr. discriminate.
Qed.

(** C2, amended. For a destination of tier 0 to 3 the cost callback returns
    [int(travel_minutes * (1 / w) * 100)], the product truncated toward
    zero, where [w] is 1 for a tier-0 destination and the priority weight
    otherwise; for a travel time that is not negative this is the floor of
    the product, not its nearest integer. *)
Theorem cost_callback_truncates (self : IsotopeOptimizer) (data : data_model)
    (manager : RoutingIndexManager) (from_index to_index : Z)
    (tt : R) (dest : dl.Hospital) :
  dm.get_cell (time_matrix data) (IndexToNode manager from_index)
              (IndexToNode manager to_index) = Py.Return tt ->
  Py.getitem (hospitals self) (IndexToNode manager to_index)
  = Py.Return dest ->
  (0 <= dl.tier dest <= 3)%Z ->
  exists pw c,
    (if Z.eqb (dl.tier dest) 0 then Py.Return 1
     else dl.get_priority_weight dest) = Py.Return pw
    /\ (pw = 1 \/ pw = 2 \/ pw = 3)
    /\ cost_callback self data manager from_index to_index = Py.Return c
    /\ c = Py.int (tt * (1 / pw) * 100)
    /\ (0 <= tt -> IZR c <= tt * (1 / pw) * 100 < IZR c + 1).
Proof.
  intros Hcell Hdest Htier.
  assert (Hpw : exists pw,
             (if Z.eqb (dl.tier dest) 0 then Py.Return 1
              else dl.get_priority_weight dest) = Py.Return pw
             /\ (pw = 1 \/ pw = 2 \/ pw = 3)).
  { unfold dl.get_priority_weight.
    assert (Hcases : (dl.tier dest = 0 \/ dl.tier dest = 1
                      \/ dl.tier dest = 2 \/ dl.tier dest = 3)%Z) by lia.
    destruct Hcases as [-> | [-> | [-> | ->]]]; cbn; eauto. }
  destruct Hpw as [pw [Hpw Hval]].
  exists pw, (Py.int (tt * (1 / pw) * 100)).
  split; [exact Hpw|]. split; [exact Hval|]. split; [|split].
  - unfold cost_callback. rewrite Hcell. cbn [Py.bind].
    rewrite Hdest. cbn [Py.bind]. rewrite Hpw. reflexivity.
  - reflexivity.
  - intros Htt. apply int_nonneg_bounds.
    destruct Hval as [-> | [-> | ->]]; lra.
Qed.

Lemma cost_callback_truncates_witness :
  exists pw c,
    cost_callback two_node_fleet (create_data_model two_node_fleet)
                  single_van_manager 0 1 = Py.Return c
    /\ c = Py.int (5 * (1 / pw) * 100).
Proof.
  destruct (cost_callback_truncates two_node_fleet
              (create_data_model two_node_fleet) single_van_manager 0 1 5
              (dl.mkHospital "Dest1" (-341 / 10) (1501 / 10) 1 "Metro")
              eq_refl eq_refl)
    as [pw [c [_ [_ [Hc [Hint _]]]]]].
  - cbn [dl.tier]. lia.
  - exists pw, c. split; [exact Hc|exact Hint].
Defined.

End callback_props.

(* ================================================================== *)
(** * Plan materializer: structure of the exported plan                *)
(* ================================================================== *)

Module export_props.
Import optimizer loop_props route_props loop_terms route_terms export_terms.
#[local] Open Scope nat_scope.

Lemma for_returns {A S : Type} (body : A -> S -> Py.result S)
    (xs : list A) (s : S) :
  (forall x s1, In x xs -> exists s2, body x s1 = Py.Return s2) ->
  exists s', Py.for_ xs body s = Py.Return s'.
Proof.
  intros Hbody.
  destruct (for_invariant (fun _ _ => True) body xs s I) as [s' [Hrun _]].
  - intros done x rest s1 Hsplit _.
    destruct (Hbody x s1) as [s2 Hs2].
    + rewrite Hsplit. apply in_or_app. right. left. reflexivity.
    + exists s2. split; [exact Hs2|exact I].
  - exists s'. exact Hrun.
Qed.

Lemma split_step_viable (all_steps : list step) (st : split_state) :
  viable (fold_left split_step all_steps st)
  = viable st ++ filter (fun s => negb (futile s)) all_steps.
Proof.
  revert st. induction all_steps as [|s rest IH]; intros st;
    cbn [fold_left filter].
  - rewrite app_nil_r. reflexivity.
  - rewrite IH. unfold split_step. fold (futile s).
    destruct (futile s); cbn [negb viable].
    + reflexivity.
    + rewrite <- app_assoc. reflexivity.
Qed.

Lemma split_step_canceled (all_steps : list step) (st : split_state) :
  canceled (fold_left split_step all_steps st)
  = canceled st ++ map cancel (filter futile all_steps).
Proof.
  revert st. induction all_steps as [|s rest IH]; intros st;
    cbn [fold_left filter].
  - rewrite app_nil_r. reflexivity.
  - rewrite IH. unfold split_step. fold (futile s).
    destruct (futile s); cbn [canceled map].
    + rewrite <- app_assoc. reflexivity.
    + reflexivity.
Qed.

Lemma build_all_steps_spec (self : IsotopeOptimizer)
    (manager : RoutingIndexManager) (solution : Assignment) (vid : nat) :
  walk_in_range self manager solution vid ->
  exists body e,
    build_all_steps self manager solution vid = Py.Return (body ++ [e])
    /\ walk_steps self manager solution vid body e.
Proof.
  intros Hwf. unfold build_all_steps.
  destruct (for_invariant
              (fun done acc =>
                 Forall2 (fun index s =>
                            walk_step self manager solution index = Py.Return s)
                         done acc)
              (fun index all_steps =>
                 s <- walk_step self manager solution index ;;
                 Py.Return (all_steps ++ [s]))
              (route_walk solution vid) [])
    as [body [Hrun Hbody]].
  - constructor.
  - intros done x rest acc Hsplit Hacc.
    assert (Hx : IndexToNode manager x < List.length (hospitals self)).
    { apply Hwf. rewrite Hsplit. apply in_or_app. left.
      apply in_or_app. right. left. reflexivity. }
    destruct (getitem_in_range _ _ Hx) as [h [_ Hh]].
    unfold walk_step at 1. rewrite Hh. cbn [Py.bind].
    eexists. split; [reflexivity|].
    apply Forall2_app; [exact Hacc|].
    constructor; [|constructor].
    unfold walk_step. rewrite Hh. reflexivity.
  - rewrite Hrun. cbn [Py.bind].
    assert (He : IndexToNode manager (route_end solution vid)
                 < List.length (hospitals self)).
    { apply Hwf. apply in_or_app. right. left. reflexivity. }
    destruct (getitem_in_range _ _ He) as [h [_ Hh]].
    unfold end_step. rewrite Hh. cbn [Py.bind].
    eexists. eexists. split; [reflexivity|].
    split; [exact Hbody|]. unfold end_step. rewrite Hh. reflexivity.
Qed.

Lemma fetch_viable_geometry_returns (self : IsotopeOptimizer)
    (viable : list step) (net : dm.Network) :
  exists g, fetch_viable_geometry self viable net = Py.Return g.
Proof.
  unfold fetch_viable_geometry.
  destruct (Nat.ltb 1 (List.length viable)); [|eauto].
  apply for_returns. intros i [geom net1] Hi.
  apply in_seq in Hi.
  destruct (getitem_in_range viable i) as [vi [_ ->]]; [lia|].
  destruct (getitem_in_range viable (i + 1)) as [vj [_ ->]]; [lia|].
  cbn [Py.bind].
  destruct (fetch_osrm_route_data_returns
              (dm.mkLocation (lat vi) (lon vi))
              (dm.mkLocation (lat vj) (lon vj)) (avoid_point self) net1)
    as [r [net2 ->]].
  cbn [Py.bind]. eauto.
Qed.

Lemma export_vehicle_spec (self : IsotopeOptimizer)
    (manager : RoutingIndexManager) (solution : Assignment) (vid : nat)
    (output_data : list route_out) (fl : fleet_state) (net : dm.Network) :
  walk_in_range self manager solution vid ->
  exists r fl' net',
    export_vehicle self manager solution vid (output_data, fl, net)
    = Py.Return (output_data ++ [r], fl', net')
    /\ vehicle_id r = vid
    /\ route_of self manager solution r.
Proof.
  intros Hwf. unfold export_vehicle.
  destruct (build_all_steps_spec self manager solution vid Hwf)
    as [body [e [-> Hwalk]]].
  cbn [Py.bind].
  destruct (fetch_viable_geometry_returns self
              (viable (split_steps (body ++ [e]) fl)) net) as [[geom net'] ->].
  cbn [Py.bind].
  eexists. eexists. eexists. split; [reflexivity|].
  split; [reflexivity|].
  exists body, e. cbn [vehicle_id steps route_canceled financial].
  split; [exact Hwalk|].
  unfold split_steps. rewrite split_step_viable, split_step_canceled.
  cbn [viable canceled app]. repeat split.
Qed.

(** Under a solution whose indices name hospitals, the materializer returns
    a payload with one route per vehicle, in order, each made of the walk of
    its vehicle. *)
Lemma export_solution_spec (self : IsotopeOptimizer)
    (manager : RoutingIndexManager) (solution : Assignment)
    (data : data_model) (net : dm.Network) :
  solution_in_range self manager solution data ->
  exists p net',
    _export_solution self manager solution data net = Py.Return (p, net')
    /\ map vehicle_id (routes p) = Py.range (data_num_vehicles data)
    /\ Forall (route_of self manager solution) (routes p).
Proof.
  intros Hwf. unfold _export_solution.
  destruct (for_invariant
              (fun done (st : list route_out * fleet_state * dm.Network) =>
                 map vehicle_id (fst (fst st)) = done
                 /\ Forall (route_of self manager solution) (fst (fst st)))
              (export_vehicle self manager solution)
              (Py.range (data_num_vehicles data))
              ([], mkFleet 0 0 [], net))
    as [[[out fl] net'] [Hrun [Hids Hroutes]]].
  - split; [reflexivity|constructor].
  - intros done vid rest [[out fl] net1] Hsplit [Hids Hroutes].
    cbn [fst] in Hids, Hroutes.
    destruct (range_split_fresh _ _ _ _ Hsplit) as [Hvid _].
    destruct (export_vehicle_spec self manager solution vid out fl net1
                (Hwf vid Hvid)) as [r [fl' [net2 [Hrun [Hid Hr]]]]].
    eexists. split; [exact Hrun|]. cbn [fst]. split.
    + rewrite map_app, Hids. cbn [map]. rewrite Hid. reflexivity.
    + apply Forall_app. split; [exact Hroutes|].
      constructor; [exact Hr|constructor].
  - rewrite Hrun. cbn [Py.bind fst] in *.
    eexists. eexists. split; [reflexivity|].
    cbn [routes]. split; assumption.
Qed.

Lemma Forall2_in_right {A B : Type} (P : A -> B -> Prop)
    (xs : list A) (ys : list B) (y : B) :
  Forall2 P xs ys -> In y ys -> exists x, In x xs /\ P x y.
Proof.
  induction 1 as [|x y' xs ys Hxy _ IH]; intros Hin; [contradiction|].
  destruct Hin as [<-|Hin].
  - exists x. split; [left; reflexivity|exact Hxy].
  - destruct (IH Hin) as [x' [Hx' Hp]]. exists x'.
    split; [right; exact Hx'|exact Hp].
Qed.

Lemma futile_spec (s : step) :
  futile s = true <-> (tier s <> 0%Z /\ (potency s < 35)%R).
Proof.
  unfold futile, FUTILITY_THRESHOLD, Py.lt.
  destruct (Z.eqb_spec (tier s) 0) as [Ht|Ht]; cbn [negb andb].
  - split; [discriminate|]. intros [Hne _]. contradiction.
  - destruct (Rlt_dec (potency s) 35); split; intros H;
      try discriminate; try tauto.
Qed.

(** C3. For a solver solution whose indices name hospitals the plan is
    exported, and in every route of it: each stop of the viable list other
    than a depot (tier 0) step has potency at least 35; each stop of the
    canceled list has potency below 35; and the two lists are the split of
    the solver's step sequence by that test, in order, the canceled steps
    relabelled CANCELED. *)
Theorem viable_canceled_partition (self : IsotopeOptimizer)
    (manager : RoutingIndexManager) (solution : Assignment)
    (data : data_model) (net : dm.Network) :
  solution_in_range self manager solution data ->
  exists p net',
    _export_solution self manager solution data net = Py.Return (p, net')
    /\ forall r, In r (routes p) ->
         (forall s, In s (steps r) -> tier s <> 0%Z -> (35 <= potency s)%R)
         /\ (forall s, In s (route_canceled r) ->
               (potency s < 35)%R /\ triage s = "CANCELED"%string)
         /\ exists body e,
              walk_steps self manager solution (vehicle_id r) body e
              /\ steps r = filter (fun s => negb (futile s)) (body ++ [e])
              /\ route_canceled r = map cancel (filter futile (body ++ [e])).
Proof.
  intros Hwf.
  destruct (export_solution_spec self manager solution data net Hwf)
    as [p [net' [Hrun [_ Hroutes]]]].
  exists p, net'. split; [exact Hrun|].
  intros r Hr. rewrite Forall_forall in Hroutes.
  destruct (Hroutes r Hr) as [body [e [Hwalk [Hsteps [Hcanc _]]]]].
  split; [|split].
  - intros s Hs Htier. rewrite Hsteps in Hs.
    apply filter_In in Hs. destruct Hs as [_ Hkeep].
    apply Rnot_lt_le. intros Hlt.
    assert (Hf : futile s = true) by (apply futile_spec; split; assumption).
    rewrite Hf in Hkeep. discriminate.
  - intros s Hs. rewrite Hcanc in Hs.
    apply in_map_iff in Hs. destruct Hs as [s0 [<- Hs0]].
    apply filter_In in Hs0. destruct Hs0 as [_ Hf].
    apply futile_spec in Hf. destruct Hf as [_ Hlt].
    split; [exact Hlt|reflexivity].
  - exists body, e. split; [exact Hwalk|]. split; assumption.
Qed.

End export_props.

(* ================================================================== *)
(** * Plan materializer: financial roll-up and depot labels            *)
(* ================================================================== *)

Module financial_props.
Import optimizer loop_props export_props loop_terms export_terms.
#[local] Open Scope R_scope.

Lemma fold_left_Rplus_acc (xs : list R) (a : R) :
  fold_left Rplus xs a = a + fold_left Rplus xs 0.
Proof.
  revert a. induction xs as [|x xs IH]; intros a; cbn [fold_left].
  - lra.
  - rewrite (IH (a + x)), (IH (0 + x)). lra.
Qed.

Lemma sum_cons (x : R) (xs : list R) : sum (x :: xs) = x + sum xs.
Proof.
  unfold sum. cbn [fold_left]. rewrite fold_left_Rplus_acc. lra.
Qed.

Lemma preserved_plus_waste (van_stops : list step) :
  sum (map (fun s => (potency s / 100) * IZR DOSE_VALUE_AUD) van_stops)
  + sum (map (fun s => ((100 - potency s) / 100) * IZR DOSE_VALUE_AUD)
             van_stops)
  = INR (List.length van_stops) * IZR DOSE_VALUE_AUD.
Proof.
  induction van_stops as [|s vs IH].
  - cbn. unfold sum. cbn. lra.
  - cbn [map]. rewrite !sum_cons.
    change (List.length (s :: vs)) with (S (List.length vs)).
    rewrite S_INR. unfold DOSE_VALUE_AUD in *. lra.
Qed.

Lemma van_sums_balance (van_stops canceled : list step) :
  van_preserved_of van_stops + van_waste_of van_stops canceled
  = IZR (van_mission_of van_stops canceled).
Proof.
  unfold van_preserved_of, van_waste_of, van_mission_of.
  rewrite !mult_IZR, plus_IZR, <- !INR_IZR_INZ.
  pose proof (preserved_plus_waste van_stops) as H. lra.
Qed.

Lemma round0_whole (x : R) : Py.round x 0 = IZR (Py.round_half_even x).
Proof.
  unfold Py.round. cbn [pow]. rewrite Rmult_1_r. field.
Qed.

(** Rounding to the nearest integer, ties to even, commutes with taking the
    complement to an even integer. *)
Lemma round_half_even_complement (m : Z) (a : R) :
  Z.even m = true ->
  Py.round_half_even (IZR m - a) = (m - Py.round_half_even a)%Z.
Proof.
  intros Hm. pose proof (Zfloor_bound a) as [Hlo Hhi].
  remember (Zfloor a) as f eqn:Hf.
  destruct (Req_dec_T a (IZR f)) as [Heq|Hne].
  - assert (Hfl : Zfloor (IZR m - a) = (m - f)%Z).
    { apply Zfloor_eq. rewrite minus_IZR. split; lra. }
    unfold Py.round_half_even. rewrite Hfl, <- Hf, minus_IZR.
    destruct (Rlt_dec (IZR m - a - (IZR m - IZR f)) (1 / 2)); [|lra].
    destruct (Rlt_dec (a - IZR f) (1 / 2)); [reflexivity|lra].
  - assert (Hfl : Zfloor (IZR m - a) = (m - f - 1)%Z).
    { apply Zfloor_eq. rewrite !minus_IZR. split; lra. }
    assert (Hodd : Z.even (m - f - 1) = negb (Z.even f)).
    { rewrite !Z.even_sub, Hm. cbn [Z.even].
      destruct (Z.even f); reflexivity. }
    unfold Py.round_half_even. rewrite Hfl, <- Hf, !minus_IZR, Hodd.
    destruct (Rlt_dec (a - IZR f) (1 / 2)) as [Hlt|Hge].
    + destruct (Rlt_dec (IZR m - a - (IZR m - IZR f - 1)) (1 / 2)); [lra|].
      destruct (Rlt_dec (1 / 2) (IZR m - a - (IZR m - IZR f - 1)));
        [lia|lra].
    + destruct (Rlt_dec (1 / 2) (a - IZR f)) as [Hgt|Hle].
      * destruct (Rlt_dec (IZR m - a - (IZR m - IZR f - 1)) (1 / 2));
          [lia|lra].
      * destruct (Rlt_dec (IZR m - a - (IZR m - IZR f - 1)) (1 / 2)); [lra|].
        destruct (Rlt_dec (1 / 2) (IZR m - a - (IZR m - IZR f - 1))); [lra|].
        destruct (Z.even f); cbn [negb]; lia.
Qed.

(** Two amounts that add up to an even whole number still add up to it
    after each is rounded to a whole number. *)
Lemma rounded_parts_balance (m : Z) (a b : R) :
  Z.even m = true -> a + b = IZR m ->
  Py.round a 0 + Py.round b 0 = IZR m.
Proof.
  intros Hm Hab. rewrite !round0_whole.
  replace b with (IZR m - a) by lra.
  rewrite (round_half_even_complement m a Hm), minus_IZR. lra.
Qed.

Lemma van_mission_even (van_stops canceled : list step) :
  Z.even (van_mission_of van_stops canceled) = true.
Proof.
  unfold van_mission_of, DOSE_VALUE_AUD. rewrite Z.even_mul.
  apply orb_true_r.
Qed.

(** The roll-up in exact arithmetic.  For a solver solution whose indices
    name hospitals the plan is exported, and in every route of it:
    [mission_value] is (viable non-depot stops + canceled stops) x 1500;
    [preserved_value] and [waste_value] are the two sums of the roll-up,
    each rounded to a whole number; the preserved sum plus the waste sum is
    the mission value, and so is the sum of the two rounded fields, a tie of
    one sum being a tie of the other and the mission value being even.  On
    doubles the two sums carry rounding error and the fields can miss the
    mission value by one: see [binary64_props]. *)
Lemma financial_rollup_balances (self : IsotopeOptimizer)
    (manager : RoutingIndexManager) (solution : Assignment)
    (data : data_model) (net : dm.Network) :
  solution_in_range self manager solution data ->
  exists p net',
    _export_solution self manager solution data net = Py.Return (p, net')
    /\ forall r, In r (routes p) ->
         let van_stops := van_stops_of (steps r) in
         let f := financial r in
         mission_value f
         = ((Z.of_nat (List.length van_stops)
             + Z.of_nat (List.length (route_canceled r))) * 1500)%Z
         /\ preserved_value f = Py.round (van_preserved_of van_stops) 0
         /\ waste_value f
            = Py.round (van_waste_of van_stops (route_canceled r)) 0
         /\ van_preserved_of van_stops
            + van_waste_of van_stops (route_canceled r)
            = IZR (mission_value f)
         /\ preserved_value f + waste_value f = IZR (mission_value f).
Proof.
  intros Hwf.
  destruct (export_solution_spec self manager solution data net Hwf)
    as [p [net' [Hrun [_ Hroutes]]]].
  exists p, net'. split; [exact Hrun|].
  intros r Hr. rewrite Forall_forall in Hroutes.
  destruct (Hroutes r Hr) as [body [e [_ [_ [_ Hfin]]]]].
  cbn zeta. rewrite Hfin. unfold van_financial.
  cbn [mission_value preserved_value waste_value].
  split; [reflexivity|]. split; [reflexivity|]. split; [reflexivity|].
  split; [apply van_sums_balance|].
  apply rounded_parts_balance;
    [apply van_mission_even|apply van_sums_balance].
Qed.

End financial_props.

(* ================================================================== *)
(** * Plan materializer: the label of the departure step               *)
(* ================================================================== *)

Module depot_props.
Import optimizer loop_props export_props loop_terms export_terms.
#[local] Open Scope R_scope.

Lemma round_half_even_IZR (z : Z) : Py.round_half_even (IZR z) = z.
Proof.
  unfold Py.round_half_even. rewrite ZfloorZ.
  destruct (Rlt_dec (IZR z - IZR z) (1 / 2)); [reflexivity|lra].
Qed.

Lemma round_hundred : Py.round 100 1 = 100.
Proof.
  unfold Py.round.
  replace (100 * 10 ^ 1) with (IZR 1000) by (simpl; lra).
  rewrite round_half_even_IZR. simpl. lra.
Qed.

(** A step of the walk reached at minute 0 carries potency 100 and the
    label the thresholds give it. *)
Lemma walk_step_departure (self : IsotopeOptimizer)
    (manager : RoutingIndexManager) (solution : Assignment) (index : Z)
    (h : dl.Hospital) :
  cumul_min solution index = 0%Z ->
  Py.getitem (hospitals self) (IndexToNode manager index) = Py.Return h ->
  walk_step self manager solution index
  = Py.Return (mkStep (dl.name h) (dl.tier h) 0 (dl.lat h) (dl.lon h)
                      100 "OPTIMAL").
Proof.
  intros Hzero Hh. unfold walk_step. rewrite Hh, Hzero. cbn [Py.bind].
  replace (INITIAL_ACTIVITY * exp (- LAMBDA * (0 / 60))) with 100.
  - rewrite round_hundred.
    destruct (Rle_dec 70 100); [reflexivity|lra].
  - replace (- LAMBDA * (0 / 60)) with 0 by lra.
    rewrite exp_0. unfold INITIAL_ACTIVITY. lra.
Qed.

Lemma end_step_not_futile (self : IsotopeOptimizer)
    (manager : RoutingIndexManager) (solution : Assignment) (index : Z)
    (e : step) :
  end_step self manager solution index = Py.Return e ->
  potency e = 100 /\ triage e = "DEPOT"%string /\ futile e = false.
Proof.
  unfold end_step, Py.getitem.
  destruct (nth_error (hospitals self) (IndexToNode manager index));
    [|discriminate].
  cbn [Py.bind]. intros [= <-]. cbn [potency triage].
  repeat split. unfold futile, Py.lt, FUTILITY_THRESHOLD. cbn [potency].
  destruct (Rlt_dec 100 35); [lra|]. apply andb_false_r.
Qed.

(** When the walk of a vehicle starts at a tier-0 node reached at minute 0,
    its exported route starts with a tier-0 step of potency 100 labelled
    OPTIMAL and ends with the return step, of potency 100, labelled DEPOT. *)
Lemma route_departure_and_return (self : IsotopeOptimizer)
    (manager : RoutingIndexManager) (solution : Assignment) (r : route_out)
    (start : Z) (rest : list Z) (h : dl.Hospital) :
  route_of self manager solution r ->
  route_walk solution (vehicle_id r) = start :: rest ->
  cumul_min solution start = 0%Z ->
  Py.getitem (hospitals self) (IndexToNode manager start) = Py.Return h ->
  dl.tier h = 0%Z ->
  exists s mid e,
    steps r = s :: mid ++ [e]
    /\ tier s = 0%Z /\ potency s = 100 /\ triage s = "OPTIMAL"%string
    /\ potency e = 100 /\ triage e = "DEPOT"%string.
Proof.
  intros [body [e [[Hbody Hend] [Hsteps _]]]] Hwalk Hzero Hh Htier.
  rewrite Hwalk in Hbody.
  inversion Hbody as [|? s0 ? body' Hs0 Hrest]; subst.
  rewrite (walk_step_departure self manager solution start h Hzero Hh) in Hs0.
  injection Hs0 as <-.
  destruct (end_step_not_futile _ _ _ _ _ Hend) as [Hpe [Hte Hfe]].
  exists (mkStep (dl.name h) (dl.tier h) 0 (dl.lat h) (dl.lon h) 100 "OPTIMAL"),
    (filter (fun s => negb (futile s)) body'), e.
  split.
  - rewrite Hsteps. cbn [app filter].
    assert (Hf0 : futile (mkStep (dl.name h) (dl.tier h) 0 (dl.lat h)
                                 (dl.lon h) 100 "OPTIMAL") = false).
    { unfold futile. cbn [tier]. rewrite Htier. reflexivity. }
    rewrite Hf0. cbn [negb]. f_equal.
    rewrite filter_app. cbn [filter]. rewrite Hfe. reflexivity.
  - cbn [tier potency triage]. repeat split; assumption.
Qed.

End depot_props.

(* ================================================================== *)
(** * Dynamic simulator: the target search on an exported plan         *)
(* ================================================================== *)

Module simulator_props.
Import optimizer simulator_dynamic simulator_terms.

(** C9. On the document the materializer writes, [run_m5_scenario] does not
    select a vehicle: the document is a dict with the keys 'routes' and
    'analytics', the search iterates over it as over a list of routes, and
    its first subscript [r['steps']] raises [TypeError] on the key
    'routes'. *)
Theorem target_search_raises_on_payload (p : payload) :
  identify_target_van (payload_json p) = Py.Raise Py.TypeError.
Proof.
  unfold identify_target_van, payload_json.
  cbn [json.iter map fst Py.bind strict_scan json.getitem_str].
  reflexivity.
Qed.

Lemma steps_of_route_json (r : route_out) :
  json.getitem_str (route_json r) "steps"
  = Py.Return (json.List (map step_json (steps r))).
Proof. reflexivity. Qed.

Lemma vehicle_id_of_route_json (r : route_out) :
  json.getitem_str (route_json r) "vehicle_id"
  = Py.Return (json.Int (Z.of_nat (vehicle_id r))).
Proof. reflexivity. Qed.

Lemma strict_scan_skips_depot (rs : list route_out) (t : target) :
  Forall starts_at_depot rs ->
  strict_scan (map route_json rs) t = Py.Return t.
Proof.
  induction 1 as [|r rs [s [rest [Hsteps [_ Hname]]]] _ IH]; [reflexivity|].
  cbn [map strict_scan]. rewrite steps_of_route_json. cbn [Py.bind json.len].
  rewrite Hsteps. cbn [map List.length].
  destruct (Nat.ltb 1 (S (List.length (map step_json rest)))).
  - cbn [json.getitem_int Py.getitem nth_error Py.bind].
    change (json.getitem_str (step_json s) "name")
      with (@Py.Return json.value (json.Str (name s))).
    cbn [Py.bind json.contains_str]. rewrite Hname. exact IH.
  - cbn [Py.bind]. exact IH.
Qed.

Lemma metro_scan_skips_depot (rs : list route_out) (t : target) :
  Forall starts_at_depot rs ->
  metro_scan (map route_json rs) t = Py.Return t.
Proof.
  induction 1 as [|r rs [s [rest [Hsteps [Htier _]]]] _ IH]; [reflexivity|].
  cbn [map metro_scan]. rewrite !steps_of_route_json. cbn [Py.bind json.len].
  rewrite Hsteps. cbn [map List.length Nat.ltb Nat.leb].
  cbn [Py.bind json.getitem_int Py.getitem nth_error].
  change (json.getitem_str (step_json s) "tier")
    with (@Py.Return json.value (json.Int (tier s))).
  cbn [Py.bind json.eq_int]. rewrite Htier. cbn [Z.eqb]. exact IH.
Qed.

(** Even on the bare list of routes, the search looks at [steps[0]], which
    the materializer makes the departure from the depot: no route is ever
    selected. *)
Lemma target_search_sees_depot_first (rs : list route_out) :
  Forall starts_at_depot rs ->
  identify_target_van (json.List (map route_json rs)) = Py.Return None.
Proof.
  intros Hrs. unfold identify_target_van. cbn [json.iter Py.bind].
  rewrite (strict_scan_skips_depot rs _ Hrs).
  cbn [Py.bind target_vid json.is_none].
  rewrite (metro_scan_skips_depot rs _ Hrs). reflexivity.
Qed.

Lemma st_george_route_not_selected :
  identify_target_van (json.List [route_json st_george_route])
  = Py.Return None.
Proof.
  apply (target_search_sees_depot_first [st_george_route]).
  constructor; [|constructor].
  exists (mkStep "ANSTO Lucas Heights" 0 0 (-3405 / 100) (15098 / 100) 100
                 "OPTIMAL").
  eexists. split; [reflexivity|]. split; reflexivity.
Qed.

End simulator_props.

(* ================================================================== *)
(** * Detour waypoint                                                  *)
(* ================================================================== *)

Module waypoint_props.
Import distance_matrix geo_props route_props geo_terms route_terms
       waypoint_terms.

(** On a meridian the haversine distance is the arc of the latitude
    difference. *)
Lemma haversine_km_meridian (p1 p2 l : R) :
  -180 < p2 - p1 < 180 ->
  haversine_km (mkLocation p1 l) (mkLocation p2 l)
  = 6371 * (Rabs (p2 - p1) * (PI / 180)).
Proof.
  intros Hrange. pose proof PI_RGT_0 as Hpi.
  unfold haversine_km, haversine_a, Py.radians. cbn [lat lon].
  set (x := (p2 - p1) * (PI / 180) / 2).
  assert (Hx : - (PI / 2) < x < PI / 2) by (unfold x; split; nra).
  assert (Hcos : 0 < cos x) by (apply cos_gt_0; lra).
  replace ((l - l) * (PI / 180) / 2) with 0 by lra.
  rewrite sin_0.
  replace (sin x ^ 2 + cos (p1 * (PI / 180)) * cos (p2 * (PI / 180)) * 0 ^ 2)
    with (Rsqr (sin x)) by (unfold Rsqr; ring).
  replace (1 - Rsqr (sin x)) with (Rsqr (cos x))
    by (pose proof (sin2_cos2 x); lra).
  rewrite !sqrt_Rsqr_abs.
  rewrite (Rabs_pos_eq (cos x)) by lra.
  unfold Py.atan2. destruct (Rlt_dec 0 (cos x)) as [_|Hn]; [|contradiction].
  assert (Htan : Rabs (sin x) / cos x = tan (Rabs x)).
  { unfold tan. destruct (Rle_lt_dec 0 x) as [Hpos|Hneg].
    - rewrite (Rabs_pos_eq x) by exact Hpos.
      rewrite Rabs_pos_eq; [reflexivity|]. apply sin_ge_0; lra.
    - rewrite (Rabs_left x) by exact Hneg.
      rewrite sin_neg, cos_neg.
      rewrite Rabs_left; [reflexivity|]. apply sin_lt_0_var; lra. }
  rewrite Htan, atan_tan.
  - unfold x. unfold Rdiv at 1.
    rewrite !Rabs_mult.
    rewrite (Rabs_pos_eq (PI / 180)) by lra.
    rewrite (Rabs_pos_eq (/ 2)) by lra. lra.
  - unfold Rabs. destruct (Rcase_abs x); lra.
Qed.

Lemma near_point_scan_hit (idxs : list nat) (origin dest : Location)
    (plat plon radius : R) (i : nat) :
  In i idxs ->
  haversine_km
    (mkLocation (lat origin + (lat dest - lat origin) * (INR i / 10))
                (lon origin + (lon dest - lon origin) * (INR i / 10)))
    (mkLocation plat plon) < radius ->
  near_point_scan idxs origin dest plat plon radius = Py.Return true.
Proof.
  intros Hin Hd. induction idxs as [|j rest IH]; [contradiction|].
  cbn [near_point_scan]. rewrite get_haversine_distance_total.
  cbn [Py.bind].
  destruct (Rlt_dec _ radius) as [_|Hfar]; [reflexivity|].
  destruct Hin as [->|Hin]; [contradiction|]. exact (IH Hin).
Qed.

Lemma detour_waypoint_chosen (origin dest : Location)
    (avoid_lat avoid_lon : R) :
  _calculate_detour_waypoint origin dest avoid_lat avoid_lon
  = Py.Return (chosen_waypoint origin dest avoid_lat avoid_lon).
Proof.
  unfold _calculate_detour_waypoint, chosen_waypoint, perp_mag.
  rewrite py_sqrt_nonneg
    by (apply Rplus_le_le_0_compat; apply Rle_0_sqr).
  cbn [Py.bind].
  set (dx := lat dest - lat origin). set (dy := lon dest - lon origin).
  set (mag := sqrt (- dy * - dy + dx * dx)).
  destruct (Req_dec_T mag 0) as [Hz|Hnz]; [reflexivity|].
  rewrite !get_haversine_distance_total. cbn [Py.bind].
  fold (midpoint origin dest).
  replace (mkLocation (avoid_lat + - dy / mag * (45 / 1000))
                      (avoid_lon + dx / mag * (45 / 1000)))
    with (offset_point avoid_lat avoid_lon (- dy / mag) (dx / mag) 1)
    by (unfold offset_point; f_equal; ring).
  replace (mkLocation (avoid_lat - - dy / mag * (45 / 1000))
                      (avoid_lon - dx / mag * (45 / 1000)))
    with (offset_point avoid_lat avoid_lon (- dy / mag) (dx / mag) (-1))
    by (unfold offset_point; f_equal; ring).
  reflexivity.
Qed.

Lemma perp_mag_zero (origin dest : Location) :
  perp_mag origin dest = 0
  <-> (lat origin = lat dest /\ lon origin = lon dest).
Proof.
  unfold perp_mag.
  set (dx := lat dest - lat origin). set (dy := lon dest - lon origin).
  assert (Hnn : 0 <= - dy * - dy + dx * dx)
    by (apply Rplus_le_le_0_compat; apply Rle_0_sqr).
  split.
  - intros Hz. apply sqrt_eq_0 in Hz; [|exact Hnn].
    assert (dx = 0 /\ dy = 0) by (split; nra). unfold dx, dy in *. lra.
  - intros [Hlat Hlon].
    replace (- dy * - dy + dx * dx) with 0
      by (unfold dx, dy; rewrite Hlat, Hlon; ring).
    apply sqrt_0.
Qed.

Lemma perp_is_unit (origin dest : Location) :
  perp_mag origin dest <> 0 ->
  unit_perpendicular origin dest
    (- (lon dest - lon origin) / perp_mag origin dest)
    ((lat dest - lat origin) / perp_mag origin dest).
Proof.
  intros Hnz. unfold unit_perpendicular.
  assert (Hsq : perp_mag origin dest * perp_mag origin dest
                = - (lon dest - lon origin) * - (lon dest - lon origin)
                  + (lat dest - lat origin) * (lat dest - lat origin)).
  { unfold perp_mag. apply sqrt_sqrt.
    apply Rplus_le_le_0_compat; apply Rle_0_sqr. }
  set (m := perp_mag origin dest) in *.
  set (dx := lat dest - lat origin) in *.
  set (dy := lon dest - lon origin) in *.
  split.
  - replace (- dy / m * (- dy / m) + dx / m * (dx / m))
      with ((- dy * - dy + dx * dx) / (m * m)) by (field; exact Hnz).
    rewrite <- Hsq. field. exact Hnz.
  - field. exact Hnz.
Qed.

(** C4, amended. The detour waypoint is always computed.  When origin and
    destination coincide it is the avoid-point moved 0.04 degrees north.
    Otherwise it is one of the two candidates at +-0.045 degrees from the
    avoid-point along the unit perpendicular [(-dy, dx) / mag] to
    origin -> dest, and the other candidate is never farther from the
    midpoint of origin -> dest than the one returned: the code returns the
    candidate farther from the midpoint, the first one (offset added) on a
    tie. *)
Theorem detour_waypoint_choice (origin dest : Location)
    (avoid_lat avoid_lon : R) :
  exists w,
    _calculate_detour_waypoint origin dest avoid_lat avoid_lon = Py.Return w
    /\ ((lat origin = lat dest /\ lon origin = lon dest) ->
        w = mkLocation (avoid_lat + 4 / 100) avoid_lon)
    /\ (~ (lat origin = lat dest /\ lon origin = lon dest) ->
        exists ux uy k d_w d_other,
          ux = - (lon dest - lon origin) / perp_mag origin dest
          /\ uy = (lat dest - lat origin) / perp_mag origin dest
          /\ unit_perpendicular origin dest ux uy
          /\ (k = 1 \/ k = -1)
          /\ w = offset_point avoid_lat avoid_lon ux uy k
          /\ get_haversine_distance w (midpoint origin dest) = Py.Return d_w
          /\ get_haversine_distance
               (offset_point avoid_lat avoid_lon ux uy (- k))
               (midpoint origin dest) = Py.Return d_other
          /\ d_other <= d_w
          /\ (d_other = d_w -> k = 1)).
Proof.
  exists (chosen_waypoint origin dest avoid_lat avoid_lon).
  split; [apply detour_waypoint_chosen|].
  unfold chosen_waypoint.
  destruct (Req_dec_T (perp_mag origin dest) 0) as [Hz|Hnz].
  - split; [reflexivity|]. intros Hne. exfalso. apply Hne.
    apply perp_mag_zero. exact Hz.
  - split.
    { intros Heq. exfalso. apply Hnz. apply perp_mag_zero. exact Heq. }
    intros _.
    set (ux := - (lon dest - lon origin) / perp_mag origin dest).
    set (uy := (lat dest - lat origin) / perp_mag origin dest).
    set (d1 := haversine_km (offset_point avoid_lat avoid_lon ux uy 1)
                            (midpoint origin dest)).
    set (d2 := haversine_km (offset_point avoid_lat avoid_lon ux uy (-1))
                            (midpoint origin dest)).
    destruct (Rlt_dec d1 d2) as [Hlt|Hge].
    + exists ux, uy, (-1), d2, d1.
      split; [reflexivity|]. split; [reflexivity|].
      split; [apply perp_is_unit; exact Hnz|].
      split; [right; reflexivity|]. split; [reflexivity|].
      split; [apply get_haversine_distance_total|].
      replace (- -1) with 1 by lra.
      split; [apply get_haversine_distance_total|].
      split; [lra|]. intros Heq. lra.
    + exists ux, uy, 1, d1, d2.
      split; [reflexivity|]. split; [reflexivity|].
      split; [apply perp_is_unit; exact Hnz|].
      split; [left; reflexivity|]. split; [reflexivity|].
      split; [apply get_haversine_distance_total|].
      split; [apply get_haversine_distance_total|].
      split; [lra|]. intros _. reflexivity.
Qed.

Lemma closure_on_equator_impacts :
  _is_segment_near_point west_end east_end (1 / 100) 0 2 = Py.Return true.
Proof.
  unfold _is_segment_near_point.
  apply (near_point_scan_hit _ _ _ _ _ _ 5%nat).
  - unfold Py.range. apply in_seq. split; [apply Nat.le_0_l|].
    repeat constructor.
  - cbn [lat lon west_end east_end].
    replace (0 + (0 - 0) * (INR 5 / 10)) with 0 by lra.
    replace (-1 + (1 - -1) * (INR 5 / 10)) with 0 by (simpl; lra).
    rewrite haversine_km_meridian by lra.
    rewrite Rabs_pos_eq by lra.
    pose proof PI_4. pose proof PI_RGT_0. nra.
Qed.

Lemma closure_on_equator_waypoint :
  chosen_waypoint west_end east_end (1 / 100) 0 = mkLocation (55 / 1000) 0.
Proof.
  pose proof PI_RGT_0 as Hpi.
  unfold chosen_waypoint.
  assert (Hm : perp_mag west_end east_end = 2).
  { unfold perp_mag. cbn [lat lon west_end east_end].
    replace (- (1 - -1) * - (1 - -1) + (0 - 0) * (0 - 0)) with (2 * 2) by ring.
    apply sqrt_square. lra. }
  rewrite Hm. cbn [lat lon west_end east_end].
  destruct (Req_dec_T 2 0) as [H|_]; [lra|].
  replace (offset_point (1 / 100) 0 (- (1 - -1) / 2) ((0 - 0) / 2) 1)
    with (mkLocation (-35 / 1000) 0)
    by (unfold offset_point; f_equal; lra).
  replace (offset_point (1 / 100) 0 (- (1 - -1) / 2) ((0 - 0) / 2) (-1))
    with (mkLocation (55 / 1000) 0)
    by (unfold offset_point; f_equal; lra).
  replace (midpoint west_end east_end) with (mkLocation 0 0)
    by (unfold midpoint; cbn [lat lon west_end east_end]; f_equal; lra).
  rewrite !haversine_km_meridian by lra.
  rewrite (Rabs_pos_eq (0 - -35 / 1000)) by lra.
  rewrite (Rabs_left (0 - 55 / 1000)) by lra.
  destruct (Rlt_dec _ _) as [_|Hn]; [reflexivity|].
  exfalso. apply Hn. nra.
Qed.

(** C4, as stated, fails: for an impacted segment the code returns the
    candidate that is farther from the midpoint, not the closer one. *)
Lemma detour_waypoint_not_closer :
  _is_segment_near_point west_end east_end (1 / 100) 0 2 = Py.Return true
  /\ _calculate_detour_waypoint west_end east_end (1 / 100) 0
     = Py.Return (mkLocation (55 / 1000) 0)
  /\ ~ closer_candidate west_end east_end (1 / 100) 0
         (mkLocation (55 / 1000) 0).
Proof.
  split; [apply closure_on_equator_impacts|]. split.
  - rewrite detour_waypoint_chosen, closure_on_equator_waypoint. reflexivity.
  - intros [ux [uy [k [d_w [d_other
             [[Hunit Hperp] [Hk [Hw [Hdw [Hdo Hle]]]]]]]]]].
    pose proof PI_RGT_0 as Hpi.
    cbn [lat lon west_end east_end] in Hperp.
    assert (Huy : uy = 0) by lra. subst uy.
    unfold offset_point in Hw. injection Hw as Hlat _.
    assert (Hkux : k * ux = 1) by lra.
    replace (offset_point (1 / 100) 0 ux 0 (- k))
      with (mkLocation (-35 / 1000) 0) in Hdo
      by (unfold offset_point; f_equal; nra).
    replace (midpoint west_end east_end) with (mkLocation 0 0) in Hdw, Hdo
      by (unfold midpoint; cbn [lat lon west_end east_end]; f_equal; lra).
    rewrite get_haversine_distance_total in Hdw, Hdo.
    injection Hdw as <-. injection Hdo as <-.
    rewrite !haversine_km_meridian in Hle by lra.
    rewrite (Rabs_pos_eq (0 - -35 / 1000)) in Hle by lra.
    rewrite (Rabs_left (0 - 55 / 1000)) in Hle by lra.
    nra.
Qed.

(** With origin and destination at the same point there is no perpendicular
    and the offset is 0.04 degrees of latitude. *)
Lemma detour_waypoint_same_point (p : Location) (avoid_lat avoid_lon : R) :
  _calculate_detour_waypoint p p avoid_lat avoid_lon
  = Py.Return (mkLocation (avoid_lat + 4 / 100) avoid_lon).
Proof.
  rewrite detour_waypoint_chosen. unfold chosen_waypoint.
  destruct (Req_dec_T (perp_mag p p) 0) as [_|Hnz]; [reflexivity|].
  exfalso. apply Hnz. apply perp_mag_zero. split; reflexivity.
Qed.

End waypoint_props.

(* ================================================================== *)
(** * Plan materializer on the two-node plan                           *)
(* ================================================================== *)

Module plan_props.
Import optimizer loop_props export_props financial_props depot_props
       plan_example loop_terms export_terms.

Lemma single_van_in_range :
  solution_in_range two_node_fleet single_van_manager single_van_solution
                    (create_data_model two_node_fleet).
Proof.
  intros vid _ index Hin. cbn in Hin.
  destruct Hin as [<-|[<-|[<-|[]]]]; cbn; lia.
Qed.

(** C6. The plan exported for the two-node solution starts with the depot
    step (tier 0, potency 100) labelled OPTIMAL by the potency thresholds;
    only the return step at the end is labelled DEPOT. *)
Theorem departure_step_labelled_optimal :
  exists p net',
    _export_solution two_node_fleet single_van_manager single_van_solution
                     (create_data_model two_node_fleet) silent_network
    = Py.Return (p, net')
    /\ exists r s mid e,
         routes p = [r]
         /\ steps r = s :: mid ++ [e]
         /\ tier s = 0%Z
         /\ potency s = 100
         /\ triage s = "OPTIMAL"%string
         /\ triage s <> "DEPOT"%string
         /\ triage e = "DEPOT"%string.
Proof.
  destruct (export_solution_spec two_node_fleet single_van_manager
              single_van_solution (create_data_model two_node_fleet)
              silent_network single_van_in_range)
    as [p [net' [Hrun [Hids Hroutes]]]].
  exists p, net'. split; [exact Hrun|].
  destruct (routes p) as [|r [|r' rs]]; try discriminate Hids.
  inversion Hroutes as [|? ? Hr _]; subst.
  destruct (route_departure_and_return two_node_fleet single_van_manager
              single_van_solution r 0%Z [1%Z]
              (dl.mkHospital "Source" (-34) 150 0 "Source") Hr)
    as [s [mid [e [Hsteps [Ht [Hp [Hl [_ Hle]]]]]]]]; try reflexivity.
  exists r, s, mid, e. repeat split; try assumption.
  rewrite Hl. discriminate.
Qed.

Lemma viable_canceled_partition_witness :
  exists p net',
    _export_solution two_node_fleet single_van_manager single_van_solution
                     (create_data_model two_node_fleet) silent_network
    = Py.Return (p, net')
    /\ forall r, In r (routes p) ->
         forall s, In s (route_canceled r) -> potency s < 35.
Proof.
  destruct (viable_canceled_partition two_node_fleet single_van_manager
              single_van_solution (create_data_model two_node_fleet)
              silent_network)
    as [p [net' [Hrun Hall]]].
  - intros vid _ index Hin. cbn in Hin.
    destruct Hin as [<-|[<-|[<-|[]]]]; cbn; lia.
  - exists p, net'. split; [exact Hrun|].
    intros r Hr s Hs.
    exact (proj1 (proj1 (proj2 (Hall r Hr)) s Hs)).
Defined.

End plan_props.

(* ================================================================== *)
(** * Evaluation on IEEE doubles                                       *)
(* ================================================================== *)

Module binary64_props.
Import Floats binary64.
#[local] Open Scope float_scope.

(** The five-minute arc into a tier-1 hospital (weight 3.0) costs 166 on
    doubles as well. *)
Lemma five_minute_metro_cost_on_doubles : arc_cost 5 3 = Some 166%Z.
Proof. vm_compute. reflexivity. Qed.

Lemma one_stop_at_minute_ten_summary :
  van_financial one_stop_at_minute_ten [] = mkFinancial 1500 1472 29.
Proof. vm_compute. reflexivity. Qed.

(** C5. On doubles the exported fields of a van need not add up: for a van
    whose one stop arrives at potency 98.1 the preserved sum is 1471.5 and
    the waste sum 28.50000000000009, so the summary has preserved_value
    1472 and waste_value 29 against a mission_value of 1500. *)
Theorem exported_fields_do_not_add_up :
  let f := van_financial one_stop_at_minute_ten [] in
  mission_value f = 1500%Z
  /\ preserved_value f = 1472
  /\ waste_value f = 29
  /\ PrimFloat.eqb (preserved_value f + waste_value f)
                   (of_int (mission_value f)) = false.
Proof.
  rewrite one_stop_at_minute_ten_summary.
  cbn [mission_value preserved_value waste_value].
  split; [reflexivity|]. split; [reflexivity|]. split; [reflexivity|].
  vm_compute. reflexivity.
Qed.

(** The haversine term of the route from (2.5, 0) to (-2.5, 180) rounds
    above 1. *)
Lemma haversine_term_above_one :
  0x1.f2c4be7ea5e1ep-10
  + 0x1.ff833f9da45f7p-1 * 0x1.ff833f9da45f7p-1 * 1
  = 0x1.0000000000001p+0.
Proof. vm_compute. reflexivity. Qed.

(** C10. On doubles [fetch_osrm_route_data] raises between the antipodal
    points (2.5, 0) and (-2.5, 180) whenever its [try] block has not
    returned a route: the fallback calls [get_haversine_distance], whose
    term [a] rounds to 1.0000000000000002, and [math.sqrt(1 - a)] is a
    [ValueError] outside the [try].  The hypotheses give the values of the
    C library at the arguments reached (those of glibc). *)
Theorem fetch_raises_between_antipodes (c : libm) :
  m_sin c (radians (-2.5 - 2.5) / 2) = -0x1.65547c4694e11p-5 ->
  m_pow c (-0x1.65547c4694e11p-5) 2 = 0x1.f2c4be7ea5e1ep-10 ->
  m_cos c (radians 2.5) = 0x1.ff833f9da45f7p-1 ->
  m_cos c (radians (-2.5)) = 0x1.ff833f9da45f7p-1 ->
  m_sin c (radians (180 - 0) / 2) = 1 ->
  m_pow c 1 2 = 1 ->
  fetch_osrm_route_data c (mkLocation 2.5 0) (mkLocation (-2.5) 180) None
  = Py.Raise Py.ValueError.
Proof.
  intros Hs1 Hp1 Hc1 Hc2 Hs2 Hp2.
  unfold fetch_osrm_route_data, get_haversine_distance.
  cbn [lat lon]. rewrite Hs1, Hp1, Hc1, Hc2, Hs2, Hp2.
  rewrite haversine_term_above_one.
  vm_compute. reflexivity.
Qed.

Lemma fetch_raises_between_antipodes_witness :
  fetch_osrm_route_data glibc_between_antipodes
    (mkLocation 2.5 0) (mkLocation (-2.5) 180) None
  = Py.Raise Py.ValueError.
Proof.
  apply (fetch_raises_between_antipodes glibc_between_antipodes);
    vm_compute; reflexivity.
Defined.

End binary64_props.

(* ================================================================== *)
(** * Decay model: composition and half-life marks                     *)
(* ================================================================== *)

Module halving_props.
Import decay_calculator decay_props.

Lemma exp_neg_ln2_pow (n : nat) : exp (- (INR n * ln 2)) = / 2 ^ n.
Proof.
  induction n as [|n IH].
  - cbn [INR pow]. replace (- (0 * ln 2)) with 0 by lra.
    rewrite exp_0. lra.
  - rewrite S_INR.
    replace (- ((INR n + 1) * ln 2)) with (- (INR n * ln 2) + - ln 2) by lra.
    rewrite exp_plus, IH, exp_neg_ln2. cbn [pow].
    assert (Hp : 2 ^ n <> 0) by (apply pow_nonzero; lra).
    field. exact Hp.
Qed.

(** X1. Decay composes: for a positive half-life, letting an activity decay
    for [t1] hours and the result for [t2] more hours gives what one call
    gives for [t1 + t2] hours. *)
Theorem decay_composes (A0 H t1 t2 : R) :
  0 < H -> 0 <= t1 -> 0 <= t2 ->
  exists a1,
    calculate_remaining_activity A0 t1 H = Py.Return a1
    /\ calculate_remaining_activity a1 t2 H
       = calculate_remaining_activity A0 (t1 + t2) H.
Proof.
  intros HH H1 H2.
  exists (A0 * exp (- (ln 2 / H) * t1)).
  rewrite !activity_defined by lra.
  split; [reflexivity|]. f_equal.
  replace (- (ln 2 / H) * (t1 + t2))
    with (- (ln 2 / H) * t1 + - (ln 2 / H) * t2) by ring.
  rewrite exp_plus. ring.
Qed.

Lemma decay_composes_witness :
  exists a1,
    calculate_remaining_activity 100 2 6 = Py.Return a1
    /\ calculate_remaining_activity a1 4 6
       = calculate_remaining_activity 100 (2 + 4) 6.
Proof.
  apply (decay_composes 100 6 2 4); lra.
Defined.

(** X2. After [n] half-lives the activity is the initial activity halved
    [n] times, for every [n] and every initial activity. *)
Theorem decay_after_half_lives (A0 H : R) (n : nat) :
  0 < H ->
  calculate_remaining_activity A0 (INR n * H) H = Py.Return (A0 / 2 ^ n).
Proof.
  intros HH.
  rewrite activity_defined;
    [|exact HH|apply Rmult_le_pos; [apply pos_INR|lra]].
  replace (- (ln 2 / H) * (INR n * H)) with (- (INR n * ln 2))
    by (field; lra).
  rewrite exp_neg_ln2_pow. reflexivity.
Qed.

Lemma decay_after_half_lives_witness :
  calculate_remaining_activity 100 (INR 3 * 6) 6 = Py.Return (100 / 2 ^ 3).
Proof.
  apply (decay_after_half_lives 100 6 3). lra.
Defined.

(** X3. The activity stays between the half-life marks around it, in exact
    arithmetic: for an initial activity that is not negative, a positive
    half-life and times [m * H <= t1 <= t2 <= n * H], both results are
    defined and [A0 / 2^n <= a2 <= a1 <= A0 / 2^m].  With [m = 0] the upper
    mark is the initial activity; within the first half-life at least half
    of the dose is left. *)
Theorem decay_between_half_lives (A0 H t1 t2 : R) (m n : nat) :
  0 <= A0 -> 0 < H ->
  INR m * H <= t1 -> t1 <= t2 -> t2 <= INR n * H ->
  exists a1 a2,
    calculate_remaining_activity A0 t1 H = Py.Return a1
    /\ calculate_remaining_activity A0 t2 H = Py.Return a2
    /\ A0 / 2 ^ n <= a2 /\ a2 <= a1 /\ a1 <= A0 / 2 ^ m.
Proof.
  intros HA HH Hm H12 Hn.
  assert (Hm0 : 0 <= INR m * H)
    by (apply Rmult_le_pos; [apply pos_INR|lra]).
  exists (A0 * exp (- (ln 2 / H) * t1)), (A0 * exp (- (ln 2 / H) * t2)).
  rewrite !activity_defined by lra.
  assert (Hk : 0 < ln 2 / H).
  { apply Rdiv_lt_0_compat; [|exact HH].
    rewrite <- ln_1. apply ln_increasing; lra. }
  assert (Hmark : forall k : nat,
             exp (- (ln 2 / H) * (INR k * H)) = / 2 ^ k).
  { intros k. rewrite <- exp_neg_ln2_pow. f_equal. field. lra. }
  assert (Hmono : forall x y, x <= y ->
             exp (- (ln 2 / H) * y) <= exp (- (ln 2 / H) * x)).
  { intros x y [Hlt| ->]; [|lra]. left. apply exp_increasing. nra. }
  split; [reflexivity|]. split; [reflexivity|]. split; [|split].
  - unfold Rdiv. rewrite <- (Hmark n).
    apply Rmult_le_compat_l; [exact HA|]. apply Hmono. exact Hn.
  - apply Rmult_le_compat_l; [exact HA|]. apply Hmono. exact H12.
  - unfold Rdiv. rewrite <- (Hmark m).
    apply Rmult_le_compat_l; [exact HA|]. apply Hmono. exact Hm.
Qed.

Lemma decay_between_half_lives_witness :
  exists a1 a2,
    calculate_remaining_activity 100 7 6 = Py.Return a1
    /\ calculate_remaining_activity 100 11 6 = Py.Return a2
    /\ 100 / 2 ^ 2 <= a2 /\ a2 <= a1 /\ a1 <= 100 / 2 ^ 1.
Proof.
  apply (decay_between_half_lives 100 6 7 11 1 2); simpl; lra.
Defined.

End halving_props.

(* ================================================================== *)
(** * Geography: symmetry and range of the haversine distance          *)
(* ================================================================== *)

Module sphere_props.
Import distance_matrix geo_props geo_terms geo_terms.

Lemma haversine_a_sym (p q : Location) : haversine_a p q = haversine_a q p.
Proof.
  unfold haversine_a, Py.radians.
  replace ((lat p - lat q) * (PI / 180) / 2)
    with (- ((lat q - lat p) * (PI / 180) / 2)) by lra.
  replace ((lon p - lon q) * (PI / 180) / 2)
    with (- ((lon q - lon p) * (PI / 180) / 2)) by lra.
  rewrite !sin_neg. ring.
Qed.

Lemma haversine_km_sym (p q : Location) : haversine_km p q = haversine_km q p.
Proof.
  unfold haversine_km. rewrite (haversine_a_sym p q). reflexivity.
Qed.

Lemma atan2_quadrant1_le (y x : R) :
  0 <= y -> 0 <= x -> Py.atan2 y x <= PI / 2.
Proof.
  intros Hy Hx. pose proof PI_RGT_0 as Hpi. unfold Py.atan2.
  destruct (Rlt_dec 0 x) as [Hpos|Hnpos].
  - pose proof (atan_bound (y / x)). lra.
  - destruct (Rlt_dec x 0); [lra|].
    destruct (Rlt_dec 0 y); [lra|].
    destruct (Rlt_dec y 0); lra.
Qed.

Lemma haversine_km_le (p q : Location) : haversine_km p q <= 6371 * PI.
Proof.
  unfold haversine_km.
  pose proof (atan2_quadrant1_le _ _
                (sqrt_pos (haversine_a p q))
                (sqrt_pos (1 - haversine_a p q))).
  lra.
Qed.

(** X4. The haversine distance, computed in exact arithmetic, is defined
    for every pair of points, is the same in both directions, lies between
    0 and half the circumference of the sphere of radius 6371 km, and is 0
    from a point to itself. *)
Theorem haversine_symmetric_bounded (p q : Location) :
  exists d,
    get_haversine_distance p q = Py.Return d
    /\ get_haversine_distance q p = Py.Return d
    /\ 0 <= d <= 6371 * PI
    /\ get_haversine_distance p p = Py.Return 0.
Proof.
  exists (haversine_km p q).
  rewrite !get_haversine_distance_total.
  split; [reflexivity|]. split; [rewrite haversine_km_sym; reflexivity|].
  split; [split; [apply haversine_km_nonneg|apply haversine_km_le]|].
  rewrite haversine_km_refl. reflexivity.
Qed.

End sphere_props.

(* ================================================================== *)
(** * Matrix builder with a trip-planner client                        *)
(* ================================================================== *)

Module trip_props.
Import distance_matrix loop_props geo_props sphere_props matrix_props
       loop_terms geo_terms matrix_terms trip_terms.
#[local] Open Scope nat_scope.

Lemma client_live_unavailable (client : option TfNSWClient) :
  client_unavailable client <-> client_live client = false.
Proof.
  destruct client as [c|]; cbn; [|tauto].
  destruct (token_falsy c); cbn; split; congruence.
Qed.

Lemma get_trip_duration_cases (c : TfNSWClient) (o d : Location)
    (net : Network) :
  exists dur net',
    get_trip_duration c o d net = (dur, net')
    /\ (dur = None \/ (token_falsy c = false /\ dur = Some 45%R))
    /\ same_router net net'
    /\ (token_falsy c = true -> net' = net).
Proof.
  unfold get_trip_duration, same_router.
  destruct (token_falsy c) eqn:Htok.
  - exists None, net. repeat split. left. reflexivity.
  - unfold tfnsw_get.
    destruct (tfnsw_replies net) as [|r rs].
    + exists None, net. repeat split; try discriminate. left. reflexivity.
    + destruct r as [|status [len|]].
      * eexists. eexists. split; [reflexivity|].
        repeat split; try discriminate. left. reflexivity.
      * destruct (Z.eqb status 200); [destruct (Nat.ltb 0 len)|];
          eexists; eexists; (split; [reflexivity|]);
          repeat split; try discriminate; auto.
      * eexists. eexists. split; [reflexivity|].
        repeat split; try discriminate. left. reflexivity.
Qed.

Lemma trip_lookup_cases (client : option TfNSWClient) (o d : Location)
    (net : Network) :
  exists dur net',
    match
      match client with
      | Some c => match token c with Some _ => true | None => false end
      | None => false
      end, client
    with
    | true, Some c => get_trip_duration c o d net
    | _, _ => (None, net)
    end = (dur, net')
    /\ (dur = None \/ (client_live client = true /\ dur = Some 45%R))
    /\ same_router net net'
    /\ (client_live client = false -> net' = net).
Proof.
  destruct client as [c|].
  - destruct (get_trip_duration_cases c o d net)
      as [dur [net' [Hrun [Hdur [Hsame Hnet]]]]].
    destruct (token c) eqn:Htok.
    + exists dur, net'. split; [exact Hrun|]. split; [|split].
      * destruct Hdur as [Hn|[Hlive Hs]]; [left; exact Hn|right].
        split; [|exact Hs]. cbn. rewrite Hlive. reflexivity.
      * exact Hsame.
      * cbn. intros Hl. apply Hnet.
        destruct (token_falsy c); [reflexivity|discriminate].
    + exists None, net. split; [reflexivity|].
      split; [left; reflexivity|]. split; [split; reflexivity|].
      reflexivity.
  - exists None, net. split; [reflexivity|].
    split; [left; reflexivity|]. split; [split; reflexivity|]. reflexivity.
Qed.

Lemma matrix_arc_any (locations : list loc_dict)
    (client : option TfNSWClient) (net : Network) (i j : nat)
    (s : matrix * Network) :
  let n := List.length locations in
  let use_api :=
    match client with
    | Some c => match token c with Some _ => true | None => false end
    | None => false
    end in
  i < n -> j < n ->
  dims (fst s) = repeat n n
  /\ same_router net (snd s)
  /\ (client_live client = false -> snd s = net) ->
  exists s', matrix_arc locations client use_api i j s = Py.Return s'
    /\ (dims (fst s') = repeat n n
        /\ same_router net (snd s')
        /\ (client_live client = false -> snd s' = net))
    /\ (if Nat.eqb i j then cell (fst s') i j = cell (fst s) i j
        else forall li lj,
            nth_error locations i = Some li ->
            nth_error locations j = Some lj ->
            entry_ok client li lj (cell (fst s') i j))
    /\ forall i' j', i' <> i \/ j' <> j ->
         cell (fst s') i' j' = cell (fst s) i' j'.
Proof.
  intros n use_api Hi Hj [Hd [Hsame Hnet]]. destruct s as [m net0].
  cbn [fst snd] in *. unfold matrix_arc.
  destruct (Nat.eqb i j) eqn:Hij.
  - exists (m, net0). cbn [fst snd]. repeat split; try assumption;
      apply Hsame.
  - destruct (getitem_in_range locations i Hi) as [li [Hli ->]].
    destruct (getitem_in_range locations j Hj) as [lj [Hlj ->]].
    cbn [Py.bind]. unfold use_api.
    destruct (trip_lookup_cases client
                (mkLocation (d_lat li) (d_lon li))
                (mkLocation (d_lat lj) (d_lon lj)) net0)
      as [dur [net1 [-> [Hdur [[Hr1 Hr2] Hn1]]]]].
    destruct (dims_cell m n i j Hd Hi Hj) as [x Hx].
    assert (Hinv : same_router net net1
                   /\ (client_live client = false -> net1 = net)).
    { destruct Hsame as [Hs1 Hs2]. split; [split; congruence|].
      intros Hl. rewrite (Hn1 Hl). apply Hnet. exact Hl. }
    destruct Hdur as [->|[Hlive ->]].
    + rewrite get_haversine_distance_total. cbn [Py.bind].
      destruct (set_cell_spec m i j x
                  (calculate_duration_fallback
                     (haversine_km (mkLocation (d_lat li) (d_lon li))
                                   (mkLocation (d_lat lj) (d_lon lj)))
                     (d_tier lj)) Hx) as [m' [Hs [Hd' [Hc' Hu]]]].
      rewrite Hs. cbn [Py.bind].
      exists (m', net1). cbn [fst snd]. split; [reflexivity|].
      split; [split; [congruence|exact Hinv]|]. split; [|exact Hu].
      intros li' lj' Hli' Hlj'.
      assert (li' = li) by congruence. assert (lj' = lj) by congruence.
      subst li' lj'. right. exact Hc'.
    + cbn [Py.bind].
      destruct (set_cell_spec m i j x 45%R Hx) as [m' [Hs [Hd' [Hc' Hu]]]].
      rewrite Hs. cbn [Py.bind].
      exists (m', net1). cbn [fst snd]. split; [reflexivity|].
      split; [split; [congruence|exact Hinv]|]. split; [|exact Hu].
      intros li' lj' _ _. left. split; assumption.
Qed.

(** The matrix builder on any client and network, cell by cell. *)
Lemma generate_distance_matrix_cells (locations : list loc_dict)
    (client : option TfNSWClient) (net : Network) :
  let n := List.length locations in
  exists m net',
    generate_distance_matrix locations client net = Py.Return (m, net')
    /\ dims m = repeat n n
    /\ same_router net net'
    /\ (client_live client = false -> net' = net)
    /\ (forall i, i < n -> cell m i i = Some 0%R)
    /\ (forall i j li lj,
          i <> j ->
          nth_error locations i = Some li ->
          nth_error locations j = Some lj ->
          entry_ok client li lj (cell m i j)).
Proof.
  intros n.
  destruct (outer_loop (@fst matrix Network) n
              (matrix_arc locations client
                 match client with
                 | Some c =>
                     match token c with Some _ => true | None => false end
                 | None => false
                 end)
              (fun s => dims (fst s) = repeat n n
                        /\ same_router net (snd s)
                        /\ (client_live client = false -> snd s = net))
              (fun i j old new =>
                 if Nat.eqb i j then new = old
                 else forall li lj,
                     nth_error locations i = Some li ->
                     nth_error locations j = Some lj ->
                     entry_ok client li lj new)
              (fun i j s Hi Hj Hinv =>
                 matrix_arc_any locations client net i j s Hi Hj Hinv)
              (zeros n n, net))
    as [[m net'] [Hrun [[Hd [Hsame Hnet]] [Hq _]]]].
  { cbn [fst snd]. split; [apply dims_zeros|].
    split; [split; reflexivity|reflexivity]. }
  cbn [fst snd] in *.
  exists m, net'. split; [exact Hrun|]. split; [exact Hd|].
  split; [exact Hsame|]. split; [exact Hnet|]. split.
  - intros i Hi. specialize (Hq i i Hi Hi). rewrite Nat.eqb_refl in Hq.
    rewrite Hq. apply cell_zeros; assumption.
  - intros i j li lj Hne Hli Hlj.
    assert (Hi : i < n) by (apply nth_error_Some; congruence).
    assert (Hj : j < n) by (apply nth_error_Some; congruence).
    specialize (Hq i j Hi Hj).
    apply Nat.eqb_neq in Hne. rewrite Hne in Hq.
    exact (Hq li lj Hli Hlj).
Qed.

Lemma dims_square (m : matrix) (n : nat) :
  dims m = repeat n n ->
  List.length m = n /\ forall row, In row m -> List.length row = n.
Proof.
  intros Hd.
  assert (Hlen : List.length m = n).
  { apply (f_equal (@List.length nat)) in Hd.
    unfold dims in Hd. rewrite length_map, repeat_length in Hd. exact Hd. }
  split; [exact Hlen|].
  intros row Hrow. apply In_nth_error in Hrow. destruct Hrow as [k Hk].
  assert (Hk' : nth_error (dims m) k = Some (List.length row)).
  { unfold dims. rewrite nth_error_map, Hk. reflexivity. }
  rewrite Hd in Hk'.
  assert (Hkn : k < n).
  { rewrite <- Hlen. apply nth_error_Some. congruence. }
  rewrite (nth_error_repeat _ Hkn) in Hk'. congruence.
Qed.

(** X5. For every list of locations, every client and every behaviour of
    the trip planner, [generate_distance_matrix] (in exact arithmetic)
    returns an N x N matrix with a zero diagonal and leaves the route
    service untouched; each entry off the diagonal is either the constant
    45.0, which only a live client (a token that is neither [None] nor empty)
    can produce, or the analytic fallback for the haversine distance at the
    tier of the destination.  Whatever the planner answers, no other value
    is stored. *)
Theorem matrix_entries_planner_or_fallback (locations : list loc_dict)
    (client : option TfNSWClient) (net : Network) :
  let n := List.length locations in
  exists m net',
    generate_distance_matrix locations client net = Py.Return (m, net')
    /\ List.length m = n
    /\ (forall row, In row m -> List.length row = n)
    /\ osrm_replies net' = osrm_replies net
    /\ osrm_sent net' = osrm_sent net
    /\ (forall i, i < n -> get_cell m i i = Py.Return 0%R)
    /\ (forall i j li lj,
          i <> j ->
          nth_error locations i = Some li ->
          nth_error locations j = Some lj ->
          (client_live client = true /\ get_cell m i j = Py.Return 45%R)
          \/ get_cell m i j
             = Py.Return (calculate_duration_fallback
                            (haversine_km (loc_of li) (loc_of lj))
                            (d_tier lj))).
Proof.
  intros n.
  destruct (generate_distance_matrix_cells locations client net)
    as [m [net' [Hrun [Hd [[Hs1 Hs2] [_ [Hdiag Hoff]]]]]]].
  destruct (dims_square m n Hd) as [Hlen Hrows].
  exists m, net'. split; [exact Hrun|]. split; [exact Hlen|].
  split; [exact Hrows|]. split; [exact Hs1|]. split; [exact Hs2|]. split.
  - intros i Hi. apply get_cell_cell. apply Hdiag. exact Hi.
  - intros i j li lj Hne Hli Hlj.
    destruct (Hoff i j li lj Hne Hli Hlj) as [[Hlive Hc]|Hc].
    + left. split; [exact Hlive|]. apply get_cell_cell. exact Hc.
    + right. apply get_cell_cell. exact Hc.
Qed.

Lemma fallback_urban (d : R) (t : Z) :
  calculate_duration_fallback d t
  = if urban t then (168 / 100 * d)%R else (75 / 100 * d)%R.
Proof.
  unfold calculate_duration_fallback, urban.
  destruct (Z.eqb t 1 || Z.eqb t 2); lra.
Qed.

(** X6. Without a trip-planner client the matrix is symmetric between two
    locations of the same speed class (both of tier 1 or 2, or both of
    another tier), and otherwise not: the leg into a tier-1 or tier-2
    location takes 2.24 times the leg back to a location of another tier
    (a depot, say), the distance being the same in both directions. *)
Theorem fallback_matrix_direction (locations : list loc_dict)
    (client : option TfNSWClient) (net : Network)
    (i j : nat) (li lj : loc_dict) :
  client_unavailable client ->
  i <> j ->
  nth_error locations i = Some li ->
  nth_error locations j = Some lj ->
  exists m a b,
    generate_distance_matrix locations client net = Py.Return (m, net)
    /\ get_cell m i j = Py.Return a
    /\ get_cell m j i = Py.Return b
    /\ (urban (d_tier li) = urban (d_tier lj) -> a = b)
    /\ (urban (d_tier lj) = true -> urban (d_tier li) = false ->
        a = (224 / 100 * b)%R).
Proof.
  intros Hc Hne Hli Hlj.
  apply client_live_unavailable in Hc.
  destruct (generate_distance_matrix_cells locations client net)
    as [m [net' [Hrun [_ [_ [Hnet [_ Hoff]]]]]]].
  rewrite (Hnet Hc) in Hrun.
  assert (Hij : cell m i j = Some (analytic_entry li lj)).
  { destruct (Hoff i j li lj Hne Hli Hlj) as [[Hlive _]|H]; [congruence|].
    exact H. }
  assert (Hji : cell m j i = Some (analytic_entry lj li)).
  { destruct (Hoff j i lj li (not_eq_sym Hne) Hlj Hli) as [[Hlive _]|H];
      [congruence|]. exact H. }
  exists m, (analytic_entry li lj), (analytic_entry lj li).
  split; [exact Hrun|].
  split; [apply get_cell_cell; exact Hij|].
  split; [apply get_cell_cell; exact Hji|].
  unfold analytic_entry. rewrite !fallback_urban.
  rewrite (haversine_km_sym (loc_of lj) (loc_of li)).
  split.
  - intros ->. reflexivity.
  - intros -> ->. lra.
Qed.

Lemma fallback_matrix_direction_witness :
  exists m a b,
    generate_distance_matrix
      [mkLocDict (-34) 150 0; mkLocDict (-35) 151 1] None
      (mkNetwork [] [] [])
    = Py.Return (m, mkNetwork [] [] [])
    /\ get_cell m 1 0 = Py.Return a
    /\ get_cell m 0 1 = Py.Return b
    /\ b = (224 / 100 * a)%R.
Proof.
  destruct (fallback_matrix_direction
              [mkLocDict (-34) 150 0; mkLocDict (-35) 151 1] None
              (mkNetwork [] [] []) 0 1
              (mkLocDict (-34) 150 0) (mkLocDict (-35) 151 1)
              I (Nat.neq_0_succ 0) eq_refl eq_refl)
    as [m [a [b [Hrun [Ha [Hb [_ Hdir]]]]]]].
  exists m, b, a. split; [exact Hrun|]. split; [exact Hb|].
  split; [exact Ha|]. apply Hdir; reflexivity.
Defined.

End trip_props.

(* ================================================================== *)
(** * Route fetch: the request it sends and the record of a success    *)
(* ================================================================== *)

Module request_props.
Import distance_matrix geo_props route_props geo_terms route_terms
       request_terms.

Lemma osrm_get_after (req : osrm_request) (net : Network) :
  osrm_get req net = (next_reply net, after_request net req).
Proof.
  unfold osrm_get, next_reply, after_request.
  destruct (osrm_replies net); reflexivity.
Qed.

(** The request of a call, from the detour it decided on. *)
Lemma fetch_with_request (origin dest : Location)
    (avoid_point : option Location) (net : Network)
    (detour_wp : option Location) :
  match avoid_point with
  | Some ap =>
      near <- _is_segment_near_point origin dest (lat ap) (lon ap) 2 ;;
      if (near : bool) then
        wp <- _calculate_detour_waypoint origin dest (lat ap) (lon ap) ;;
        Py.Return (Some wp)
      else Py.Return None
  | None => Py.Return None
  end = Py.Return detour_wp ->
  let req := match detour_wp with
             | Some wp => detour_request origin wp dest
             | None => direct_request origin dest
             end in
  exists r,
    fetch_osrm_route_data origin dest avoid_point net
    = Py.Return (r, after_request net req)
    /\ (forall status code route routes,
          next_reply net = OsrmResponse status code (route :: routes) ->
          status = 200%Z -> code = "Ok"%string ->
          r = route_record route (with_waypoint req))
    /\ (detoured r = true ->
        with_waypoint req = true /\ reply_ok (next_reply net) = true).
Proof.
  intros Hdet req.
  unfold fetch_osrm_route_data, fetch_osrm_try. rewrite Hdet.
  fold (direct_request origin dest).
  replace (match detour_wp with
           | Some wp =>
               mkOsrmRequest [origin; wp; dest]
                             (Some "unlimited;50;unlimited"%string)
           | None => direct_request origin dest
           end) with req by (destruct detour_wp; reflexivity).
  replace (match detour_wp with Some _ => true | None => false end)
    with (with_waypoint req) by (destruct detour_wp; reflexivity).
  rewrite osrm_get_after.
  assert (Hfb : forall (Hbad : forall status code route routes,
                          next_reply net
                          = OsrmResponse status code (route :: routes) ->
                          status = 200%Z -> code = "Ok"%string -> False),
             exists r,
               (dist <- get_haversine_distance origin dest ;;
                Py.Return
                  (mkRouteData (calculate_duration_fallback dist 1) dist
                     [(lat origin, lon origin); (lat dest, lon dest)] false,
                   after_request net req))
               = Py.Return (r, after_request net req)
               /\ (forall status code route routes,
                     next_reply net
                     = OsrmResponse status code (route :: routes) ->
                     status = 200%Z -> code = "Ok"%string ->
                     r = route_record route (with_waypoint req))
               /\ (detoured r = true ->
                   with_waypoint req = true
                   /\ reply_ok (next_reply net) = true)).
  { intros Hbad. rewrite get_haversine_distance_total. cbn [Py.bind].
    eexists. split; [reflexivity|]. split.
    - intros status code route routes H1 H2 H3. exfalso.
      exact (Hbad _ _ _ _ H1 H2 H3).
    - cbn [detoured]. discriminate. }
  destruct (next_reply net) as [|status code routes] eqn:Hrep.
  { apply Hfb. intros; discriminate. }
  destruct (Z.eqb_spec status 200) as [Hst|Hst].
  2:{ apply Hfb. intros s c r0 rs [= <- _ _] Hs. contradiction. }
  destruct (String.eqb_spec code "Ok") as [Hcode|Hcode].
  2:{ apply Hfb. intros s c r0 rs [= _ <- _] _ Hc. contradiction. }
  destruct routes as [|route routes].
  { apply Hfb. intros; discriminate. }
  eexists. split; [reflexivity|]. split.
  - intros s c r0 rs [= _ _ <- _] _ _. reflexivity.
  - cbn [detoured]. intros Hw. split; [exact Hw|].
    cbn [reply_ok]. subst status code. reflexivity.
Qed.

(** The duration of the record, when the router answers with a route. *)
Lemma fetch_duration_of_route (origin dest : Location)
    (avoid_point : option Location) (net net' : Network) (r : route_data)
    (route : osrm_route) (routes : list osrm_route) :
  fetch_osrm_route_data origin dest avoid_point net = Py.Return (r, net') ->
  next_reply net = OsrmResponse 200 "Ok" (route :: routes) ->
  duration_min r = duration route / 60.
Proof.
  intros Hrun Hrep.
  assert (Hdet : exists detour_wp,
             match avoid_point with
             | Some ap =>
                 near <- _is_segment_near_point origin dest
                           (lat ap) (lon ap) 2 ;;
                 if (near : bool) then
                   wp <- _calculate_detour_waypoint origin dest
                           (lat ap) (lon ap) ;;
                   Py.Return (Some wp)
                 else Py.Return None
             | None => Py.Return None
             end = Py.Return detour_wp).
  { destruct avoid_point as [ap|]; [|eexists; reflexivity].
    destruct (near_point_scan_total (Py.range 11) origin dest
                (lat ap) (lon ap) 2) as [near Hnear].
    fold (_is_segment_near_point origin dest (lat ap) (lon ap) 2) in Hnear.
    rewrite Hnear. cbn [Py.bind].
    destruct near; [|eexists; reflexivity].
    destruct (detour_waypoint_total origin dest (lat ap) (lon ap))
      as [wp Hwp].
    rewrite Hwp. eexists; reflexivity. }
  destruct Hdet as [detour_wp Hdw].
  destruct (fetch_with_request origin dest avoid_point net detour_wp Hdw)
    as [r0 [Hrun0 [Hok _]]].
  rewrite Hrun in Hrun0. injection Hrun0 as -> _.
  rewrite (Hok _ _ _ _ Hrep eq_refl eq_refl). reflexivity.
Qed.

(** X7. Every call of [fetch_osrm_route_data] (in exact arithmetic) sends
    exactly one route request and uses up at most one reply.  Without an
    avoid-point, or with one the segment does not pass, the request is the
    direct one, origin to destination.  With an avoid-point the segment
    passes within 2 km of, the request goes through the detour waypoint and
    carries the radiuses [unlimited;50;unlimited].  When the reply is a 200
    with code 'Ok' and a route, the result is made of the first route:
    seconds / 60, metres / 1000, its geometry, and [detoured] set exactly
    when the request went through a waypoint; [detoured] is never set on
    the fallback record. *)
Theorem fetch_sends_one_request (origin dest : Location)
    (avoid_point : option Location) (net : Network) :
  exists r req,
    fetch_osrm_route_data origin dest avoid_point net
    = Py.Return (r, after_request net req)
    /\ match avoid_point with
       | None => req = direct_request origin dest
       | Some ap =>
           exists near,
             _is_segment_near_point origin dest (lat ap) (lon ap) 2
             = Py.Return near
             /\ if (near : bool) then
                  exists wp,
                    _calculate_detour_waypoint origin dest (lat ap) (lon ap)
                    = Py.Return wp
                    /\ req = detour_request origin wp dest
                else req = direct_request origin dest
       end
    /\ (forall route routes,
          next_reply net = OsrmResponse 200 "Ok" (route :: routes) ->
          r = route_record route (with_waypoint req))
    /\ (detoured r = true ->
        with_waypoint req = true /\ reply_ok (next_reply net) = true).
Proof.
  destruct avoid_point as [ap|].
  - destruct (near_point_scan_total (Py.range 11) origin dest
                (lat ap) (lon ap) 2) as [near Hnear].
    fold (_is_segment_near_point origin dest (lat ap) (lon ap) 2) in Hnear.
    destruct near.
    + destruct (detour_waypoint_total origin dest (lat ap) (lon ap))
        as [wp Hwp].
      destruct (fetch_with_request origin dest (Some ap) net (Some wp))
        as [r [Hrun [Hok Hdet]]].
      { rewrite Hnear. cbn [Py.bind]. rewrite Hwp. reflexivity. }
      exists r, (detour_request origin wp dest).
      split; [exact Hrun|]. split; [|split; [|exact Hdet]].
      * exists true. split; [exact Hnear|]. exists wp. split;
          [exact Hwp|reflexivity].
      * intros route routes Hrep. eapply Hok; eauto.
    + destruct (fetch_with_request origin dest (Some ap) net None)
        as [r [Hrun [Hok Hdet]]].
      { rewrite Hnear. reflexivity. }
      exists r, (direct_request origin dest).
      split; [exact Hrun|]. split; [|split; [|exact Hdet]].
      * exists false. split; [exact Hnear|reflexivity].
      * intros route routes Hrep. eapply Hok; eauto.
  - destruct (fetch_with_request origin dest None net None)
      as [r [Hrun [Hok Hdet]]]; [reflexivity|].
    exists r, (direct_request origin dest).
    split; [exact Hrun|]. split; [reflexivity|]. split; [|exact Hdet].
    intros route routes Hrep. eapply Hok; eauto.
Qed.

End request_props.

(* ================================================================== *)
(** * Snapping an incident to the road network                         *)
(* ================================================================== *)

Module snap_props.
Import distance_matrix snap_terms.

Lemma getitem_str_lookup (v x : json.value) (k : string) :
  json.getitem_str v k = Py.Return x ->
  exists kvs, v = json.Dict kvs /\ json.lookup kvs k = Some x.
Proof.
  destruct v as [| | | | |xs|kvs]; cbn; try discriminate.
  destruct (json.lookup kvs k) as [y|] eqn:Hy; [|discriminate].
  intros [= <-]. exists kvs. split; [reflexivity|exact Hy].
Qed.

Lemma eq_str_true (v : json.value) (s : string) :
  json.eq_str v s = true -> v = json.Str s.
Proof.
  destruct v; cbn; try discriminate.
  intros H. apply String.eqb_eq in H. congruence.
Qed.

Lemma snap_try_success (reply : nearest_reply) (r : snap_result) :
  snap_try reply = Py.Return (Some r) -> snaps_to reply r.
Proof.
  unfold snap_try.
  destruct reply as [|status [data|]]; [discriminate| |].
  2:{ destruct (Z.eqb status 200); discriminate. }
  destruct (Z.eqb_spec status 200) as [->|_]; [|discriminate].
  destruct (json.getitem_str data "code") as [code|e] eqn:Hcode;
    [|discriminate].
  cbn [Py.bind].
  destruct (getitem_str_lookup _ _ _ Hcode) as [kvs [-> Hc]].
  destruct (json.eq_str code "Ok") eqn:Hok; [|discriminate].
  apply eq_str_true in Hok. subst code.
  destruct (json.truthy (json.get kvs "waypoints" json.Null));
    [|discriminate].
  cbn [andb].
  destruct (json.getitem_str (json.Dict kvs) "waypoints") as [wps|e] eqn:Hw;
    [|discriminate].
  cbn [Py.bind].
  destruct (getitem_str_lookup _ _ _ Hw) as [kvs' [[= <-] Hwps]].
  destruct (json.getitem_int wps 0) as [wp|e] eqn:Hwp; [|discriminate].
  cbn [Py.bind].
  destruct (json.getitem_str wp "location") as [loc|e] eqn:Hloc;
    [|discriminate].
  cbn [Py.bind].
  destruct (getitem_str_lookup _ _ _ Hloc) as [wkvs [-> Hl]].
  destruct (json.getitem_int loc 1) as [la|e] eqn:Hla; [|discriminate].
  cbn [Py.bind].
  destruct (json.getitem_int loc 0) as [lo|e] eqn:Hlo; [|discriminate].
  cbn [Py.bind].
  destruct (json.getitem_str (json.Dict wkvs) "distance") as [dist|e] eqn:Hd;
    [|discriminate].
  cbn [Py.bind].
  destruct (getitem_str_lookup _ _ _ Hd) as [wkvs' [[= <-] Hdist]].
  intros [= <-].
  exists kvs, wps, wkvs, loc, la, lo, dist. repeat split; assumption.
Qed.

Lemma snap_try_complete (reply : nearest_reply) (r : snap_result) :
  snaps_to reply r -> snap_try reply = Py.Return (Some r).
Proof.
  intros [kvs [wps [wkvs [loc [la [lo [dist
            [-> [Hc [Hw [Hwp [Hl [Hla [Hlo [Hd ->]]]]]]]]]]]]]]].
  unfold snap_try. cbn [Z.eqb Pos.eqb json.getitem_str].
  rewrite Hc. cbn [Py.bind json.eq_str]. rewrite String.eqb_refl.
  unfold json.get at 1. rewrite Hw.
  assert (Ht : json.truthy wps = true).
  { destruct wps as [| | | |s|xs|ws]; cbn in Hwp; try discriminate.
    - destruct s; [discriminate|reflexivity].
    - destruct xs; [discriminate|reflexivity]. }
  rewrite Ht. cbn [andb Py.bind]. rewrite Hwp. cbn [Py.bind json.getitem_str].
  rewrite Hl. cbn [Py.bind]. rewrite Hla. cbn [Py.bind]. rewrite Hlo.
  cbn [Py.bind]. rewrite Hd. reflexivity.
Qed.

(** X8. [snap_to_road] never raises and returns one of two things.  When
    the nearest service answers 200 with a body that is a dict with code
    'Ok' whose first waypoint is a dict with a 'location' and a 'distance',
    the result is made of that waypoint: latitude from item 1 of the
    location, longitude from item 0, the distance, and the name or the
    empty string.  In every other case (the request raises, another
    status, a body that does not decode, another code, no waypoint, a
    waypoint of another shape) the result is the point as given, with
    distance 0 and an empty name. *)
Theorem snap_to_road_snaps_or_echoes (lat lon : R) (reply : nearest_reply) :
  (forall r, snaps_to reply r -> snap_to_road lat lon reply = r)
  /\ ((forall r, ~ snaps_to reply r) ->
      snap_to_road lat lon reply = unsnapped lat lon)
  /\ (snap_to_road lat lon reply = unsnapped lat lon
      \/ snaps_to reply (snap_to_road lat lon reply)).
Proof.
  unfold snap_to_road. split; [|split].
  - intros r Hr. rewrite (snap_try_complete reply r Hr). reflexivity.
  - intros Hno.
    destruct (snap_try reply) as [[r|]|e] eqn:Htry; try reflexivity.
    exfalso. exact (Hno r (snap_try_success reply r Htry)).
  - destruct (snap_try reply) as [[r|]|e] eqn:Htry;
      [right|left; reflexivity|left; reflexivity].
    exact (snap_try_success reply r Htry).
Qed.

Lemma snap_to_road_snaps_or_echoes_witness :
  snap_to_road (-34) 151 NearestRaised = unsnapped (-34) 151.
Proof.
  apply (proj1 (proj2 (snap_to_road_snaps_or_echoes (-34) 151 NearestRaised))).
  intros r [kvs [wps [wkvs [loc [la [lo [dist [Hreply _]]]]]]]].
  discriminate Hreply.
Defined.

End snap_props.

(* ================================================================== *)
(** * The impact test: eleven sample points                            *)
(* ================================================================== *)

Module impact_props.
Import optimizer loop_props geo_props sphere_props route_props
       waypoint_props request_props injector_props loop_terms geo_terms
       route_terms waypoint_terms request_terms injector_terms impact_terms.

Lemma impacted_scan_within (idxs : list nat) (loc1 loc2 : dm.Location)
    (lat lon radius : R) :
  impacted_scan idxs loc1 loc2 lat lon radius
  = Py.Return (sample_within idxs loc1 loc2 lat lon radius).
Proof.
  induction idxs as [|i rest IH]; [reflexivity|].
  cbn [impacted_scan sample_within existsb].
  rewrite get_haversine_distance_total. cbn [Py.bind].
  fold (sample loc1 loc2 i). unfold Py.lt at 1.
  destruct (Rlt_dec _ radius); [reflexivity|]. exact IH.
Qed.

Lemma near_point_scan_impacted (idxs : list nat) (loc1 loc2 : dm.Location)
    (lat lon radius : R) :
  dm.near_point_scan idxs loc1 loc2 lat lon radius
  = impacted_scan idxs loc1 loc2 lat lon radius.
Proof.
  induction idxs as [|i rest IH]; [reflexivity|].
  cbn [dm.near_point_scan impacted_scan]. rewrite IH. reflexivity.
Qed.

Lemma sample_within_spec (n : nat) (loc1 loc2 : dm.Location)
    (lat lon radius : R) :
  sample_within (Py.range n) loc1 loc2 lat lon radius = true
  <-> exists i, (i < n)%nat
                /\ haversine_km (sample loc1 loc2 i) (dm.mkLocation lat lon)
                   < radius.
Proof.
  unfold sample_within. rewrite existsb_exists. split.
  - intros [i [Hin Hlt]]. apply in_seq in Hin. apply lt_true in Hlt.
    exists i. split; [lia|exact Hlt].
  - intros [i [Hi Hlt]]. exists i. split.
    + apply in_seq. lia.
    + apply lt_true. exact Hlt.
Qed.

(** X9. The impact test of the optimizer and the proximity test of the
    route fetch are the same function: on every input both return, with the
    same answer, and the answer is [True] exactly when one of the eleven
    sample points at [t = 0, 0.1, ..., 1] of the straight segment is less
    than the radius away (haversine, exact arithmetic) from the point. *)
Theorem impact_tests_agree (loc1 loc2 : dm.Location) (lat lon radius : R) :
  exists b,
    is_segment_impacted loc1 loc2 lat lon radius = Py.Return b
    /\ dm._is_segment_near_point loc1 loc2 lat lon radius = Py.Return b
    /\ (b = true
        <-> exists i d,
              (i <= 10)%nat
              /\ dm.get_haversine_distance (sample loc1 loc2 i)
                   (dm.mkLocation lat lon) = Py.Return d
              /\ d < radius).
Proof.
  exists (sample_within (Py.range 11) loc1 loc2 lat lon radius).
  split; [apply impacted_scan_within|]. split.
  { unfold dm._is_segment_near_point. rewrite near_point_scan_impacted.
    apply impacted_scan_within. }
  rewrite sample_within_spec. split.
  - intros [i [Hi Hlt]]. exists i, (haversine_km (sample loc1 loc2 i)
                                     (dm.mkLocation lat lon)).
    split; [lia|]. split; [apply get_haversine_distance_total|exact Hlt].
  - intros [i [d [Hi [Hd Hlt]]]]. exists i. split; [lia|].
    rewrite get_haversine_distance_total in Hd. injection Hd as <-.
    exact Hlt.
Qed.

Lemma sample_reverse (loc1 loc2 : dm.Location) (i : nat) :
  (i <= 10)%nat -> sample loc2 loc1 (10 - i) = sample loc1 loc2 i.
Proof.
  intros Hi. unfold sample. rewrite minus_INR by exact Hi.
  replace (INR 10) with 10 by (simpl; lra).
  f_equal; field.
Qed.

Lemma sample_within_reverse (loc1 loc2 : dm.Location) (lat lon radius : R) :
  sample_within (Py.range 11) loc1 loc2 lat lon radius = true ->
  sample_within (Py.range 11) loc2 loc1 lat lon radius = true.
Proof.
  rewrite !sample_within_spec. intros [i [Hi Hlt]].
  exists (10 - i)%nat. split; [lia|].
  rewrite sample_reverse by lia. exact Hlt.
Qed.

(** The impact test does not depend on the direction of the segment
    (in exact arithmetic the sample points of the reversed segment are the
    same eleven points): a closure impacts the arc from [loc1] to [loc2]
    exactly when it impacts the arc back. *)
Lemma impact_test_symmetric (loc1 loc2 : dm.Location)
    (lat lon radius : R) :
  is_segment_impacted loc1 loc2 lat lon radius
  = is_segment_impacted loc2 loc1 lat lon radius.
Proof.
  unfold is_segment_impacted. rewrite !impacted_scan_within. f_equal.
  destruct (sample_within (Py.range 11) loc1 loc2 lat lon radius) eqn:H12;
    destruct (sample_within (Py.range 11) loc2 loc1 lat lon radius) eqn:H21;
    try reflexivity.
  - apply sample_within_reverse in H12. congruence.
  - apply sample_within_reverse in H21. congruence.
Qed.

Lemma sample_first (loc1 loc2 : dm.Location) : sample loc1 loc2 0 = loc1.
Proof.
  unfold sample. cbn [INR]. destruct loc1 as [a b]. cbn [dm.lat dm.lon].
  f_equal; lra.
Qed.

Lemma sample_last (loc1 loc2 : dm.Location) : sample loc1 loc2 10 = loc2.
Proof.
  unfold sample. replace (INR 10) with 10 by (simpl; lra).
  destruct loc2 as [a b]. cbn [dm.lat dm.lon]. f_equal; lra.
Qed.

(** X10. A closure less than the radius away from either end of a segment
    impacts the segment, the two ends being the first and the last sample
    point; in particular a closure at a hospital impacts every arc from and
    to that hospital, for every positive radius. *)
Theorem impact_test_endpoints (loc1 loc2 : dm.Location)
    (lat lon radius d : R) :
  dm.get_haversine_distance loc1 (dm.mkLocation lat lon) = Py.Return d
  \/ dm.get_haversine_distance loc2 (dm.mkLocation lat lon) = Py.Return d ->
  d < radius ->
  is_segment_impacted loc1 loc2 lat lon radius = Py.Return true.
Proof.
  intros Hd Hlt. unfold is_segment_impacted.
  rewrite impacted_scan_within. f_equal. apply sample_within_spec.
  rewrite !get_haversine_distance_total in Hd.
  destruct Hd as [[= <-]|[= <-]].
  - exists 0%nat. split; [lia|]. rewrite sample_first. exact Hlt.
  - exists 10%nat. split; [lia|]. rewrite sample_last. exact Hlt.
Qed.

Lemma impact_test_endpoints_witness :
  is_segment_impacted (dm.mkLocation (-34) 151) (dm.mkLocation (-33) 150)
    (-34) 151 2 = Py.Return true.
Proof.
  apply (impact_test_endpoints (dm.mkLocation (-34) 151)
           (dm.mkLocation (-33) 150) (-34) 151 2 0).
  - left. rewrite get_haversine_distance_total, haversine_km_refl.
    reflexivity.
  - lra.
Defined.

(** X11. The impact test has blind spots.  On a meridian segment whose
    sample points are [s] degrees of latitude apart, a closure lying on the
    segment half-way between two consecutive sample points is [6371 * (s /
    2) * pi / 180] km away from the nearest of them; when the radius is not
    larger than that, the test answers [False] although the segment runs
    through the closure.  For the radius of 2 km the code uses, this is
    every meridian segment longer than about 0.36 degrees (40 km). *)
Theorem impact_test_blind_spot (p0 l s radius : R) (k : nat) :
  0 < s -> s < 18 ->
  (k < 10)%nat ->
  radius <= 6371 * (s / 2 * (PI / 180)) ->
  is_segment_impacted (dm.mkLocation p0 l) (dm.mkLocation (p0 + 10 * s) l)
    (p0 + (INR k + 1 / 2) * s) l radius
  = Py.Return false.
Proof.
  intros Hs Hs18 Hk Hr. pose proof PI_RGT_0 as Hpi.
  unfold is_segment_impacted. rewrite impacted_scan_within. f_equal.
  destruct (sample_within _ _ _ _ _ _) eqn:Hw; [|reflexivity].
  exfalso. apply sample_within_spec in Hw. destruct Hw as [i [Hi Hlt]].
  unfold sample in Hlt. cbn [dm.lat dm.lon] in Hlt.
  replace (l + (l - l) * (INR i / 10)) with l in Hlt by lra.
  replace (p0 + (p0 + 10 * s - p0) * (INR i / 10)) with (p0 + INR i * s)
    in Hlt by lra.
  assert (Hi10 : INR i <= 10).
  { replace 10 with (INR 10) by (simpl; lra). apply le_INR. lia. }
  assert (Hk9 : INR k <= 9).
  { replace 9 with (INR 9) by (simpl; lra). apply le_INR. lia. }
  pose proof (pos_INR i) as Hi0. pose proof (pos_INR k) as Hk0.
  rewrite haversine_km_meridian in Hlt by (split; nra).
  assert (Hgap : s / 2 <= Rabs (p0 + (INR k + 1 / 2) * s - (p0 + INR i * s))).
  { replace (p0 + (INR k + 1 / 2) * s - (p0 + INR i * s))
      with ((INR k + 1 / 2 - INR i) * s) by ring.
    destruct (le_lt_dec i k) as [Hle|Hgt].
    - apply le_INR in Hle. rewrite Rabs_pos_eq by nra. nra.
    - assert (Hgt' : (S k <= i)%nat) by lia.
      apply le_INR in Hgt'. rewrite S_INR in Hgt'.
      rewrite Rabs_left by nra. nra. }
  assert (Hmul : 6371 * (s / 2 * (PI / 180))
                 <= 6371 * (Rabs (p0 + (INR k + 1 / 2) * s
                                  - (p0 + INR i * s)) * (PI / 180))).
  { apply Rmult_le_compat_l; [lra|].
    apply Rmult_le_compat_r; [lra|exact Hgap]. }
  lra.
Qed.

Lemma impact_test_blind_spot_witness :
  is_segment_impacted (dm.mkLocation (-34) 151)
    (dm.mkLocation (-34 + 10 * (1 / 10)) 151)
    (-34 + (INR 4 + 1 / 2) * (1 / 10)) 151 2
  = Py.Return false.
Proof.
  apply (impact_test_blind_spot (-34) 151 (1 / 10) 2 4); try lra.
  - repeat constructor.
  - pose proof PI2_3_2. lra.
Defined.

(* ------------------------------------------------------------------ *)
(** ** The requests of the disruption injector                         *)
(* ------------------------------------------------------------------ *)

Lemma detour_arc_net (hs : list dl.Hospital) (ap : dm.Location)
    (i j : nat) (s s' : detour_state) :
  detour_arc hs ap i j s = Py.Return s' ->
  ds_net s' = ds_net s
  \/ exists req, injector_request hs ap req
                 /\ ds_net s' = after_request (ds_net s) req.
Proof.
  unfold detour_arc.
  destruct (Nat.eqb i j); [intros [= <-]; left; reflexivity|].
  unfold Py.getitem.
  destruct (nth_error hs i) as [hi|] eqn:Hhi; [|discriminate].
  destruct (nth_error hs j) as [hj|] eqn:Hhj; [|discriminate].
  cbn [Py.bind]. rewrite location_eta.
  fold (hospital_loc hi). fold (hospital_loc hj).
  rewrite !get_haversine_distance_total. cbn [Py.bind].
  destruct (Py.lt 50 _ && Py.lt 50 _); [intros [= <-]; left; reflexivity|].
  unfold is_segment_impacted.
  destruct (impacted_scan (Py.range 11) (hospital_loc hi) (hospital_loc hj)
              (dm.lat ap) (dm.lon ap) 2) as [hit|e] eqn:Hhit; [|discriminate].
  cbn [Py.bind].
  destruct hit; [|intros [= <-]; left; reflexivity].
  destruct (detour_waypoint_total (hospital_loc hi) (hospital_loc hj)
              (dm.lat ap) (dm.lon ap)) as [wp Hwp].
  destruct (fetch_with_request (hospital_loc hi) (hospital_loc hj)
              (Some ap) (ds_net s) (Some wp)) as [r [Hrun _]].
  { unfold dm._is_segment_near_point.
    rewrite near_point_scan_impacted, Hhit. cbn [Py.bind].
    rewrite Hwp. reflexivity. }
  rewrite Hrun. cbn [Py.bind].
  destruct (dm.get_cell (ds_matrix s) i j) as [x|e]; [|discriminate].
  cbn [Py.bind].
  destruct (dm.set_cell (ds_matrix s) i j _) as [m'|e]; [|discriminate].
  cbn [Py.bind]. intros [= <-]. cbn [ds_net]. right.
  eexists. split; [|reflexivity].
  exists hi, hj, wp.
  split; [eapply nth_error_In; exact Hhi|].
  split; [eapply nth_error_In; exact Hhj|].
  split; [exact Hwp|reflexivity].
Qed.

(** X12. Every route request the disruption injector sends is a detour
    request: from one hospital to another through the detour waypoint
    computed for that pair, with the radiuses [unlimited;50;unlimited].  The
    injector never asks for a direct route (its impact test and the fetch's
    proximity test agree), and it leaves the trip planner alone. *)
Theorem injector_sends_detour_requests (self : IsotopeOptimizer)
    (ap : dm.Location) (net : dm.Network) :
  (forall i j,
      (i < List.length (hospitals self))%nat ->
      (j < List.length (hospitals self))%nat ->
      exists x, dm.get_cell (distance_matrix self) i j = Py.Return x) ->
  exists self' net' reqs,
    _apply_osrm_detour_durations self ap net = Py.Return (self', net')
    /\ dm.osrm_sent net' = dm.osrm_sent net ++ reqs
    /\ dm.tfnsw_replies net' = dm.tfnsw_replies net
    /\ Forall (injector_request (hospitals self) ap) reqs.
Proof.
  intros Hsq. set (n := List.length (hospitals self)).
  assert (Hcov : covers n (distance_matrix self)).
  { intros i j Hi Hj. destruct (Hsq i j Hi Hj) as [x Hx].
    exists x. apply get_cell_cell. exact Hx. }
  pose (Inv := fun s : detour_state =>
                 covers n (ds_matrix s)
                 /\ exists reqs,
                      dm.osrm_sent (ds_net s) = dm.osrm_sent net ++ reqs
                      /\ dm.tfnsw_replies (ds_net s) = dm.tfnsw_replies net
                      /\ Forall (injector_request (hospitals self) ap) reqs).
  destruct (outer_loop ds_matrix n (detour_arc (hospitals self) ap)
              Inv (fun _ _ _ _ => True)) with
    (s := mkDetourState (distance_matrix self) net 0 0)
    as [s' [Hrun [[_ [reqs [Hsent [Htf Hall]]]] _]]].
  - intros i j s Hi Hj [Hc [reqs [Hsent [Htf Hall]]]].
    destruct (detour_arc_spec (hospitals self) ap i j s Hi Hj Hc)
      as [s1 [Hrun [Hc1 [_ Hu]]]].
    exists s1. split; [exact Hrun|]. split; [|split; [exact I|exact Hu]].
    split; [exact Hc1|].
    destruct (detour_arc_net _ _ _ _ _ _ Hrun) as [->|[req [Hreq ->]]].
    + exists reqs. repeat split; assumption.
    + exists (reqs ++ [req]). cbn [after_request dm.osrm_sent
                                   dm.tfnsw_replies].
      split; [rewrite Hsent, app_assoc; reflexivity|].
      split; [exact Htf|].
      apply Forall_app. split; [exact Hall|].
      constructor; [exact Hreq|constructor].
  - split; [exact Hcov|]. exists []. cbn [ds_net].
    rewrite app_nil_r. repeat split. constructor.
  - unfold _apply_osrm_detour_durations. fold n. rewrite Hrun.
    cbn [Py.bind]. eexists. eexists. exists reqs.
    split; [reflexivity|]. repeat split; assumption.
Qed.

Lemma injector_sends_detour_requests_witness :
  exists self' net' reqs,
    _apply_osrm_detour_durations plan_example.two_node_fleet
      (dm.mkLocation (-34) 150) plan_example.silent_network
    = Py.Return (self', net')
    /\ dm.osrm_sent net' = reqs.
Proof.
  destruct (injector_sends_detour_requests plan_example.two_node_fleet
              (dm.mkLocation (-34) 150) plan_example.silent_network)
    as [self' [net' [reqs [Hrun [Hsent _]]]]].
  - intros i j Hi Hj. cbn in Hi, Hj.
    destruct i as [|[|i]]; destruct j as [|[|j]]; try lia;
      eexists; reflexivity.
  - exists self', net', reqs. split; [exact Hrun|exact Hsent].
Defined.

(** The network after the loop body has run over some arcs: each impacted
    arc among them has sent one detour request and used up one reply. *)
Lemma visit_network (hs : list dl.Hospital) (ap : dm.Location)
    (arcs : list (nat * nat)) (s s' : detour_state) :
  Py.for_ arcs (fun a st => detour_arc hs ap (fst a) (snd a) st) s
  = Py.Return s' ->
  exists reqs,
    ds_net s' = fold_left after_request reqs (ds_net s)
    /\ Forall (injector_request hs ap) reqs.
Proof.
  revert s. induction arcs as [|a arcs IH]; intros s Hrun.
  - injection Hrun as <-. exists []. split; [reflexivity|constructor].
  - cbn [Py.for_] in Hrun.
    destruct (detour_arc hs ap (fst a) (snd a) s) as [s1|e] eqn:Harc;
      [|discriminate].
    destruct (IH s1 Hrun) as [reqs [Hnet Hall]].
    destruct (detour_arc_net _ _ _ _ _ _ Harc) as [Hsame|[req [Hreq Hnext]]].
    + exists reqs. rewrite Hnet, Hsame. split; [reflexivity|exact Hall].
    + exists (req :: reqs). rewrite Hnet, Hnext.
      split; [reflexivity|]. constructor; assumption.
Qed.

Lemma replies_after_requests (reqs : list dm.osrm_request)
    (net : dm.Network) :
  dm.osrm_replies (fold_left after_request reqs net)
  = skipn (List.length reqs) (dm.osrm_replies net).
Proof.
  revert net. induction reqs as [|req reqs IH]; intros net.
  - reflexivity.
  - cbn [fold_left List.length]. rewrite IH.
    unfold after_request. cbn [dm.osrm_replies].
    destruct (dm.osrm_replies net) as [|r rs]; cbn [tl skipn].
    + apply skipn_nil.
    + reflexivity.
Qed.

(** The network on which a run fetches the detour duration of an arc: the
    detour requests of the impacted arcs visited before have been sent, and
    as many replies of the router's script are used up, so that the k-th
    impacted arc of a run is answered by the k-th reply. *)
Lemma state_at_network (self : IsotopeOptimizer) (ap : dm.Location)
    (net : dm.Network) (i j : nat) (st : detour_state) :
  state_at self ap net i j = Py.Return st ->
  exists reqs,
    Forall (injector_request (hospitals self) ap) reqs
    /\ dm.osrm_sent (ds_net st) = dm.osrm_sent net ++ reqs
    /\ dm.osrm_replies (ds_net st)
       = skipn (List.length reqs) (dm.osrm_replies net).
Proof.
  intros Hst. unfold state_at in Hst.
  destruct (visit_network _ _ _ _ _ Hst) as [reqs [Hnet Hall]].
  cbn [ds_net] in Hnet. exists reqs. split; [exact Hall|].
  rewrite Hnet. split; [|apply replies_after_requests].
  clear. revert net. induction reqs as [|req reqs IH]; intros net.
  - cbn [fold_left]. rewrite app_nil_r. reflexivity.
  - cbn [fold_left]. rewrite IH. unfold after_request.
    cbn [dm.osrm_sent]. rewrite <- app_assoc. reflexivity.
Qed.

(* ------------------------------------------------------------------ *)
(** ** The injector on the two-node fleet                              *)
(* ------------------------------------------------------------------ *)

(** With the closure at the depot and a router that answers 6000 seconds
    for the first impacted arc, the five-minute arc out of the depot
    becomes a hundred-minute arc. *)
Lemma detour_never_decreases_witness :
  exists self' net',
    _apply_osrm_detour_durations plan_example.two_node_fleet
      (dm.mkLocation (-34) 150) one_route_network
    = Py.Return (self', net')
    /\ dm.get_cell (distance_matrix self') 0 1 = Py.Return 100.
Proof.
  destruct (detour_never_decreases plan_example.two_node_fleet
              (dm.mkLocation (-34) 150) one_route_network)
    as [self' [net' [Hrun [_ Hcells]]]].
  - intros i j Hi Hj. cbn in Hi, Hj.
    destruct i as [|[|i]]; destruct j as [|[|j]]; try lia;
      eexists; reflexivity.
  - exists self', net'. split; [exact Hrun|].
    destruct (Hcells 0%nat 1%nat 5 eq_refl)
      as [y [Hy [_ [[_ [d [Hd Hmax]]]|[Hno _]]]]].
    + destruct Hd as [st [Hst [hi [hj [r [net1 [_ [_ [Hfetch Hdur]]]]]]]]].
      injection Hst as <-. cbn [ds_net] in Hfetch.
      rewrite (fetch_duration_of_route _ _ _ _ _ _ _ [] Hfetch eq_refl)
        in Hdur.
      cbn [dm.duration] in Hdur.
      rewrite Hy, Hmax, Hdur. unfold Py.max.
      destruct (Rlt_dec 5 (6000 / 60)) as [_|Hn]; [f_equal; lra|].
      exfalso. lra.
    + exfalso. apply Hno. exact closure_at_depot_rewrites.
Defined.

End impact_props.

(* ================================================================== *)
(** * Potency and triage by arrival minute                             *)
(* ================================================================== *)

Module triage_props.
Import optimizer loop_props export_props depot_props decay_props
       halving_props loop_terms export_terms triage_terms.
#[local] Open Scope R_scope.

(* ------------------------------------------------------------------ *)
(** ** Rounding                                                        *)
(* ------------------------------------------------------------------ *)

Lemma round_half_even_bounds (y : R) :
  (Zfloor y <= Py.round_half_even y <= Zfloor y + 1)%Z.
Proof.
  unfold Py.round_half_even.
  destruct (Rlt_dec _ _); [lia|].
  destruct (Rlt_dec _ _); [lia|].
  destruct (Z.even _); lia.
Qed.

Lemma round_half_even_ge (y : R) (z : Z) :
  IZR z <= y -> (z <= Py.round_half_even y)%Z.
Proof.
  intros Hz. pose proof (Zfloor_lub z y Hz).
  pose proof (round_half_even_bounds y). lia.
Qed.

Lemma round_half_even_below_half (y : R) (z : Z) :
  y < IZR z + 1 / 2 -> (Py.round_half_even y <= z)%Z.
Proof.
  intros Hy. pose proof (Zfloor_bound y) as [Hlo Hhi].
  assert (Hf : (Zfloor y <= z)%Z).
  { apply le_IZR. apply Rnot_lt_le. intros Hlt.
    apply lt_IZR in Hlt.
    assert (Hstep : (z + 1 <= Zfloor y)%Z) by lia.
    apply IZR_le in Hstep. rewrite plus_IZR in Hstep. lra. }
  destruct (Z.eq_dec (Zfloor y) z) as [Heq|Hne].
  - unfold Py.round_half_even. rewrite Heq in *.
    destruct (Rlt_dec (y - IZR z) (1 / 2)); [lia|lra].
  - pose proof (round_half_even_bounds y). lia.
Qed.

Lemma round1_ge (x : R) (z : Z) :
  IZR z / 10 <= x -> IZR z / 10 <= Py.round x 1.
Proof.
  intros Hx. unfold Py.round.
  replace (10 ^ 1) with 10 by (simpl; lra).
  assert (Hz : (z <= Py.round_half_even (x * 10))%Z)
    by (apply round_half_even_ge; lra).
  apply IZR_le in Hz. lra.
Qed.

Lemma round1_lt (x : R) (z : Z) :
  x < (IZR z + 1 / 2) / 10 -> Py.round x 1 <= IZR z / 10.
Proof.
  intros Hx. unfold Py.round.
  replace (10 ^ 1) with 10 by (simpl; lra).
  assert (Hz : (Py.round_half_even (x * 10) <= z)%Z)
    by (apply round_half_even_below_half; lra).
  apply IZR_le in Hz. lra.
Qed.

(* ------------------------------------------------------------------ *)
(** ** The decay curve at whole minutes                                *)
(* ------------------------------------------------------------------ *)

Lemma pow_lt_strict (x y : R) (n : nat) :
  0 <= x -> x < y -> (0 < n)%nat -> x ^ n < y ^ n.
Proof.
  intros Hx Hxy Hn. destruct n as [|n]; [lia|]. clear Hn.
  induction n as [|n IH].
  - simpl. lra.
  - change (x ^ S (S n)) with (x * x ^ S n).
    change (y ^ S (S n)) with (y * y ^ S n).
    apply Rmult_le_0_lt_compat; try assumption.
    apply pow_le. exact Hx.
Qed.

Lemma exp_pow_nat (y : R) (n : nat) : exp y ^ n = exp (INR n * y).
Proof.
  induction n as [|n IH].
  - cbn [pow INR]. rewrite Rmult_0_l, exp_0. reflexivity.
  - rewrite S_INR. cbn [pow]. rewrite IH, <- exp_plus. f_equal. ring.
Qed.

(** The decay factor after [k] minutes, raised to the power 360, is
    [2 ^ -k]: the half-life is 360 minutes. *)
Lemma decay_factor_pow (k : nat) :
  exp (- LAMBDA * (INR k / 60)) ^ 360 = / 2 ^ k.
Proof.
  rewrite exp_pow_nat, <- exp_neg_ln2_pow. f_equal.
  unfold LAMBDA, HALF_LIFE_TC99M.
  replace (INR 360) with 360 by (rewrite INR_IZR_INZ; reflexivity).
  field.
Qed.

Lemma IZR_pow_pos (q : Z) (n : nat) :
  0 < IZR q -> 0 < IZR (q ^ Z.of_nat n).
Proof.
  intros Hq. rewrite <- pow_IZR. apply pow_lt. exact Hq.
Qed.

Lemma ratio_not_below (a b c x : R) :
  0 < a -> 0 < c -> x = / a -> a * b <= c -> ~ x < b * / c.
Proof.
  intros Ha Hc -> Hle Hlt.
  apply (Rmult_lt_compat_l a) in Hlt; [|exact Ha].
  apply (Rmult_lt_compat_l c) in Hlt; [|exact Hc].
  replace (c * (a * / a)) with c in Hlt by (field; lra).
  replace (c * (a * (b * / c))) with (a * b) in Hlt by (field; lra).
  lra.
Qed.

Lemma ratio_not_above (a b c x : R) :
  0 < a -> 0 < c -> x = / a -> c < a * b -> ~ b * / c <= x.
Proof.
  intros Ha Hc -> Hlt Hle.
  apply (Rmult_le_compat_l a) in Hle; [|lra].
  apply (Rmult_le_compat_l c) in Hle; [|lra].
  replace (c * (a * / a)) with c in Hle by (field; lra).
  replace (c * (a * (b * / c))) with (a * b) in Hle by (field; lra).
  lra.
Qed.

(** A rational bound [p / q] on the decay factor after [k] minutes is
    settled by comparing integers: [2 ^ k * p ^ 360] with [q ^ 360]. *)
Lemma decay_factor_ge (k : nat) (p q : Z) :
  (0 < p)%Z -> (0 < q)%Z ->
  (2 ^ Z.of_nat k * p ^ Z.of_nat 360 <= q ^ Z.of_nat 360)%Z ->
  IZR p / IZR q <= exp (- LAMBDA * (INR k / 60)).
Proof.
  intros Hp Hq Hz. apply Rnot_lt_le. intros Hlt.
  apply IZR_lt in Hp, Hq.
  assert (Hpos : 0 <= exp (- LAMBDA * (INR k / 60))) by (left; apply exp_pos).
  assert (H360 : (0 < 360)%nat) by lia.
  pose proof (pow_lt_strict _ _ 360 Hpos Hlt H360) as Hpow.
  unfold Rdiv in Hpow. rewrite Rpow_mult_distr, pow_inv, !pow_IZR in Hpow.
  apply IZR_le in Hz. rewrite mult_IZR in Hz.
  revert Hpow.
  apply (ratio_not_below (IZR (2 ^ Z.of_nat k))).
  - apply IZR_pow_pos. lra.
  - apply IZR_pow_pos. exact Hq.
  - rewrite <- pow_IZR. apply decay_factor_pow.
  - exact Hz.
Qed.

Lemma decay_factor_lt (k : nat) (p q : Z) :
  (0 < p)%Z -> (0 < q)%Z ->
  (q ^ Z.of_nat 360 < 2 ^ Z.of_nat k * p ^ Z.of_nat 360)%Z ->
  exp (- LAMBDA * (INR k / 60)) < IZR p / IZR q.
Proof.
  intros Hp Hq Hz. apply Rnot_le_lt. intros Hle.
  apply IZR_lt in Hp, Hq.
  assert (Hpos : 0 <= IZR p / IZR q).
  { left. apply Rdiv_lt_0_compat; assumption. }
  pose proof (pow_incr _ _ 360 (conj Hpos Hle)) as Hpow.
  unfold Rdiv in Hpow. rewrite Rpow_mult_distr, pow_inv, !pow_IZR in Hpow.
  apply IZR_lt in Hz. rewrite mult_IZR in Hz.
  revert Hpow.
  apply (ratio_not_above (IZR (2 ^ Z.of_nat k))).
  - apply IZR_pow_pos. lra.
  - apply IZR_pow_pos. exact Hq.
  - rewrite <- pow_IZR. apply decay_factor_pow.
  - exact Hz.
Qed.

Lemma raw_potency_antitone (m1 m2 : Z) :
  (m1 <= m2)%Z -> raw_potency m2 <= raw_potency m1.
Proof.
  intros Hm. unfold raw_potency, INITIAL_ACTIVITY.
  apply Rmult_le_compat_l; [lra|].
  assert (Hl : 0 < LAMBDA).
  { unfold LAMBDA, HALF_LIFE_TC99M. apply Rdiv_lt_0_compat; [|lra].
    rewrite <- ln_1. apply ln_increasing; lra. }
  apply IZR_le in Hm.
  destruct Hm as [Hlt|Heq].
  - left. apply exp_increasing. nra.
  - rewrite Heq. right. reflexivity.
Qed.

Lemma raw_potency_nat (k : nat) :
  raw_potency (Z.of_nat k) = 100 * exp (- LAMBDA * (INR k / 60)).
Proof.
  unfold raw_potency, INITIAL_ACTIVITY. rewrite <- INR_IZR_INZ. reflexivity.
Qed.

(** The four values of the curve the thresholds fall between. *)
Lemma raw_potency_185 : 70 <= raw_potency 185.
Proof.
  change 185%Z with (Z.of_nat 185). rewrite raw_potency_nat.
  pose proof (decay_factor_ge 185 7 10) as H.
  assert (Hz : (2 ^ Z.of_nat 185 * 7 ^ Z.of_nat 360 <= 10 ^ Z.of_nat 360)%Z)
    by (apply Z.leb_le; vm_compute; reflexivity).
  specialize (H eq_refl eq_refl Hz). lra.
Qed.

Lemma raw_potency_186 : raw_potency 186 < 6995 / 100.
Proof.
  change 186%Z with (Z.of_nat 186). rewrite raw_potency_nat.
  pose proof (decay_factor_lt 186 6995 10000) as H.
  assert (Hz : (10000 ^ Z.of_nat 360 < 2 ^ Z.of_nat 186 * 6995 ^ Z.of_nat 360)%Z)
    by (apply Z.ltb_lt; vm_compute; reflexivity).
  specialize (H eq_refl eq_refl Hz). lra.
Qed.

Lemma raw_potency_545 : 35 <= raw_potency 545.
Proof.
  change 545%Z with (Z.of_nat 545). rewrite raw_potency_nat.
  pose proof (decay_factor_ge 545 7 20) as H.
  assert (Hz : (2 ^ Z.of_nat 545 * 7 ^ Z.of_nat 360 <= 20 ^ Z.of_nat 360)%Z)
    by (apply Z.leb_le; vm_compute; reflexivity).
  specialize (H eq_refl eq_refl Hz). lra.
Qed.

Lemma raw_potency_546 : raw_potency 546 < 3495 / 100.
Proof.
  change 546%Z with (Z.of_nat 546). rewrite raw_potency_nat.
  pose proof (decay_factor_lt 546 3495 10000) as H.
  assert (Hz : (10000 ^ Z.of_nat 360 < 2 ^ Z.of_nat 546 * 3495 ^ Z.of_nat 360)%Z)
    by (apply Z.ltb_lt; vm_compute; reflexivity).
  specialize (H eq_refl eq_refl Hz). lra.
Qed.

Lemma raw_potency_windows (m : Z) :
  ((m <= 185)%Z -> 70 <= raw_potency m)
  /\ ((186 <= m)%Z -> raw_potency m < 6995 / 100)
  /\ ((m <= 545)%Z -> 35 <= raw_potency m)
  /\ ((546 <= m)%Z -> raw_potency m < 3495 / 100).
Proof.
  pose proof raw_potency_185. pose proof raw_potency_186.
  pose proof raw_potency_545. pose proof raw_potency_546.
  repeat split; intros Hm.
  - pose proof (raw_potency_antitone m 185 Hm). lra.
  - pose proof (raw_potency_antitone 186 m Hm). lra.
  - pose proof (raw_potency_antitone m 545 Hm). lra.
  - pose proof (raw_potency_antitone 546 m Hm). lra.
Qed.

(* ------------------------------------------------------------------ *)
(** ** Steps of the walk                                               *)
(* ------------------------------------------------------------------ *)

Lemma walk_step_fields (self : IsotopeOptimizer)
    (manager : RoutingIndexManager) (solution : Assignment) (index : Z)
    (s : step) :
  walk_step self manager solution index = Py.Return s ->
  exists h,
    Py.getitem (hospitals self) (IndexToNode manager index) = Py.Return h
    /\ tier s = dl.tier h
    /\ arrival_time_min s = cumul_min solution index
    /\ potency s = Py.round (raw_potency (cumul_min solution index)) 1
    /\ triage s
       = if Rle_dec 70 (raw_potency (cumul_min solution index))
         then "OPTIMAL"%string
         else if Rle_dec FUTILITY_THRESHOLD
                         (raw_potency (cumul_min solution index))
              then "DEGRADED"%string
              else "FUTILE"%string.
Proof.
  unfold walk_step.
  destruct (Py.getitem (hospitals self) (IndexToNode manager index))
    as [h|e]; [|discriminate].
  cbn [Py.bind]. intros [= <-]. exists h. repeat split.
Qed.

Lemma walk_step_label (self : IsotopeOptimizer)
    (manager : RoutingIndexManager) (solution : Assignment) (index : Z)
    (s : step) :
  walk_step self manager solution index = Py.Return s ->
  triage s = label_of_minute (arrival_time_min s).
Proof.
  intros Hs.
  destruct (walk_step_fields _ _ _ _ _ Hs) as [h [_ [_ [-> [_ ->]]]]].
  set (m := cumul_min solution index).
  destruct (raw_potency_windows m) as [H185 [H186 [H545 H546]]].
  unfold label_of_minute, FUTILITY_THRESHOLD.
  destruct (Z.leb_spec m 185) as [Hm|Hm].
  - destruct (Rle_dec 70 (raw_potency m)) as [_|Hn]; [reflexivity|].
    exfalso. apply Hn. apply H185. exact Hm.
  - assert (Hlt : raw_potency m < 6995 / 100) by (apply H186; lia).
    destruct (Rle_dec 70 (raw_potency m)) as [Hge|_]; [lra|].
    destruct (Z.leb_spec m 545) as [Hm'|Hm'].
    + destruct (Rle_dec 35 (raw_potency m)) as [_|Hn]; [reflexivity|].
      exfalso. apply Hn. apply H545. exact Hm'.
    + assert (Hlt' : raw_potency m < 3495 / 100) by (apply H546; lia).
      destruct (Rle_dec 35 (raw_potency m)) as [Hge|_]; [lra|reflexivity].
Qed.

Lemma walk_step_potency_window (self : IsotopeOptimizer)
    (manager : RoutingIndexManager) (solution : Assignment) (index : Z)
    (s : step) :
  walk_step self manager solution index = Py.Return s ->
  ((arrival_time_min s <= 185)%Z -> 70 <= potency s)
  /\ ((186 <= arrival_time_min s)%Z -> potency s < 70)
  /\ ((arrival_time_min s <= 545)%Z -> 35 <= potency s)
  /\ ((546 <= arrival_time_min s)%Z -> potency s < 35).
Proof.
  intros Hs.
  destruct (walk_step_fields _ _ _ _ _ Hs) as [h [_ [_ [-> [-> _]]]]].
  set (m := cumul_min solution index).
  destruct (raw_potency_windows m) as [H185 [H186 [H545 H546]]].
  repeat split; intros Hm.
  - pose proof (round1_ge (raw_potency m) 700) as H.
    specialize (H185 Hm). lra.
  - pose proof (round1_lt (raw_potency m) 699) as H.
    specialize (H186 Hm). lra.
  - pose proof (round1_ge (raw_potency m) 350) as H.
    specialize (H545 Hm). lra.
  - pose proof (round1_lt (raw_potency m) 349) as H.
    specialize (H546 Hm). lra.
Qed.

Lemma walk_step_futile (self : IsotopeOptimizer)
    (manager : RoutingIndexManager) (solution : Assignment) (index : Z)
    (s : step) :
  walk_step self manager solution index = Py.Return s ->
  futile s = true <-> (tier s <> 0%Z /\ (546 <= arrival_time_min s)%Z).
Proof.
  intros Hs.
  destruct (walk_step_potency_window _ _ _ _ _ Hs) as [_ [_ [H545 H546]]].
  rewrite futile_spec. split; intros [Ht Hp]; (split; [exact Ht|]).
  - destruct (Z_le_gt_dec 546 (arrival_time_min s)) as [Hm|Hm];
      [exact Hm|].
    assert (35 <= potency s) by (apply H545; lia). lra.
  - apply H546. exact Hp.
Qed.

(** X13. The potency the materializer gives a step is the decay model's:
    for a step of the walk reached at a minute that is not negative, the
    exported potency is [calculate_remaining_activity(100, minute / 60, 6)]
    rounded to one decimal.  (The materializer computes the formula inline,
    with its own constant [LAMBDA]; the two agree.) *)
Theorem walk_step_potency_is_decay (self : IsotopeOptimizer)
    (manager : RoutingIndexManager) (solution : Assignment) (index : Z)
    (s : step) :
  walk_step self manager solution index = Py.Return s ->
  (0 <= cumul_min solution index)%Z ->
  exists a,
    decay_calculator.calculate_remaining_activity
      INITIAL_ACTIVITY (IZR (arrival_time_min s) / 60) HALF_LIFE_TC99M
    = Py.Return a
    /\ potency s = Py.round a 1.
Proof.
  intros Hs Hm.
  destruct (walk_step_fields _ _ _ _ _ Hs) as [h [_ [_ [-> [-> _]]]]].
  apply IZR_le in Hm.
  exists (raw_potency (cumul_min solution index)).
  split; [|reflexivity].
  rewrite activity_defined; [|unfold HALF_LIFE_TC99M; lra|lra].
  reflexivity.
Qed.

Lemma walk_step_potency_is_decay_witness :
  exists s a,
    walk_step plan_example.two_node_fleet plan_example.single_van_manager
              plan_example.single_van_solution 1 = Py.Return s
    /\ decay_calculator.calculate_remaining_activity
         INITIAL_ACTIVITY (IZR (arrival_time_min s) / 60) HALF_LIFE_TC99M
       = Py.Return a
    /\ potency s = Py.round a 1.
Proof.
  eexists.
  destruct (walk_step_potency_is_decay plan_example.two_node_fleet
              plan_example.single_van_manager
              plan_example.single_van_solution 1 _ eq_refl)
    as [a [Ha Hp]].
  - cbn. lia.
  - exists a. split; [reflexivity|]. split; [exact Ha|exact Hp].
Defined.

(** X14. The triage label of a step of the walk is a function of its
    arrival minute alone: OPTIMAL up to minute 185, DEGRADED from minute 186
    to minute 545, FUTILE from minute 546 on (the thresholds 70 and 35 on
    the decay curve of half-life 360 minutes). *)
Theorem triage_by_arrival_minute (self : IsotopeOptimizer)
    (manager : RoutingIndexManager) (solution : Assignment) (index : Z)
    (s : step) :
  walk_step self manager solution index = Py.Return s ->
  (triage s = "OPTIMAL"%string <-> (arrival_time_min s <= 185)%Z)
  /\ (triage s = "DEGRADED"%string <-> (186 <= arrival_time_min s <= 545)%Z)
  /\ (triage s = "FUTILE"%string <-> (546 <= arrival_time_min s)%Z).
Proof.
  intros Hs. rewrite (walk_step_label _ _ _ _ _ Hs).
  unfold label_of_minute.
  destruct (Z.leb_spec (arrival_time_min s) 185) as [H1|H1];
    [|destruct (Z.leb_spec (arrival_time_min s) 545) as [H2|H2]];
    repeat split; intros; try discriminate; try reflexivity; try lia.
Qed.

Lemma triage_by_arrival_minute_witness :
  exists s,
    walk_step plan_example.two_node_fleet plan_example.single_van_manager
              plan_example.single_van_solution 1 = Py.Return s
    /\ (triage s = "OPTIMAL"%string <-> (arrival_time_min s <= 185)%Z).
Proof.
  eexists. split; [reflexivity|].
  apply (triage_by_arrival_minute plan_example.two_node_fleet
           plan_example.single_van_manager
           plan_example.single_van_solution 1 _ eq_refl).
Defined.

Lemma walk_or_end_step (self : IsotopeOptimizer)
    (manager : RoutingIndexManager) (solution : Assignment) (vid : nat)
    (body : list step) (e s : step) :
  walk_steps self manager solution vid body e ->
  In s (body ++ [e]) ->
  (exists index, walk_step self manager solution index = Py.Return s)
  \/ (s = e /\ potency e = 100 /\ triage e = "DEPOT"%string
      /\ futile e = false).
Proof.
  intros [Hbody Hend] Hin. apply in_app_or in Hin.
  destruct Hin as [Hin|[<-|[]]].
  - left. destruct (Forall2_in_right _ _ _ _ Hbody Hin) as [index [_ Hs]].
    exists index. exact Hs.
  - right. split; [reflexivity|].
    exact (end_step_not_futile _ _ _ _ _ Hend).
Qed.

(** X15. No hospital stop is exported with the label FUTILE.  In every
    route of an exported plan, a stop of the viable list whose tier is not
    0 is either the return step, labelled DEPOT, or a stop reached by
    minute 545, labelled OPTIMAL or DEGRADED; and every stop of the canceled
    list is a stop of tier other than 0 reached at minute 546 or later.
    (The label is decided on the unrounded potency and the cancellation on
    the potency rounded to one decimal; at whole minutes the two never
    disagree.) *)
Theorem hospital_stops_never_futile (self : IsotopeOptimizer)
    (manager : RoutingIndexManager) (solution : Assignment)
    (data : data_model) (net : dm.Network) :
  solution_in_range self manager solution data ->
  exists p net',
    _export_solution self manager solution data net = Py.Return (p, net')
    /\ forall r, In r (routes p) ->
         (forall s, In s (steps r) -> tier s <> 0%Z ->
            triage s = "DEPOT"%string
            \/ ((arrival_time_min s <= 545)%Z
                /\ (triage s = "OPTIMAL"%string
                    \/ triage s = "DEGRADED"%string)))
         /\ (forall s, In s (route_canceled r) ->
               tier s <> 0%Z /\ (546 <= arrival_time_min s)%Z).
Proof.
  intros Hwf.
  destruct (export_solution_spec self manager solution data net Hwf)
    as [p [net' [Hrun [_ Hroutes]]]].
  exists p, net'. split; [exact Hrun|].
  intros r Hr. rewrite Forall_forall in Hroutes.
  destruct (Hroutes r Hr) as [body [e [Hwalk [Hsteps [Hcanc _]]]]].
  split.
  - intros s Hs Htier. rewrite Hsteps in Hs.
    apply filter_In in Hs. destruct Hs as [Hin Hkeep].
    destruct (walk_or_end_step _ _ _ _ _ _ _ Hwalk Hin)
      as [[index Hstep]|[-> [_ [Hdepot _]]]]; [right|left; exact Hdepot].
    assert (Hm : (arrival_time_min s <= 545)%Z).
    { destruct (Z_le_gt_dec 546 (arrival_time_min s)) as [Hlate|Hok];
        [|lia].
      assert (Hf : futile s = true).
      { apply (walk_step_futile _ _ _ _ _ Hstep). split; assumption. }
      rewrite Hf in Hkeep. discriminate. }
    split; [exact Hm|].
    rewrite (walk_step_label _ _ _ _ _ Hstep). unfold label_of_minute.
    destruct (Z.leb_spec (arrival_time_min s) 185); [left; reflexivity|].
    destruct (Z.leb_spec (arrival_time_min s) 545); [right; reflexivity|lia].
  - intros s Hs. rewrite Hcanc in Hs.
    apply in_map_iff in Hs. destruct Hs as [s0 [<- Hs0]].
    apply filter_In in Hs0. destruct Hs0 as [Hin Hf].
    destruct (walk_or_end_step _ _ _ _ _ _ _ Hwalk Hin)
      as [[index Hstep]|[-> [_ [_ Hnf]]]]; [|congruence].
    apply (walk_step_futile _ _ _ _ _ Hstep) in Hf. exact Hf.
Qed.

Lemma hospital_stops_never_futile_witness :
  exists p net',
    _export_solution plan_example.two_node_fleet
      plan_example.single_van_manager plan_example.single_van_solution
      (create_data_model plan_example.two_node_fleet)
      plan_example.silent_network
    = Py.Return (p, net')
    /\ forall r, In r (routes p) ->
         forall s, In s (route_canceled r) -> (546 <= arrival_time_min s)%Z.
Proof.
  destruct (hospital_stops_never_futile plan_example.two_node_fleet
              plan_example.single_van_manager
              plan_example.single_van_solution
              (create_data_model plan_example.two_node_fleet)
              plan_example.silent_network)
    as [p [net' [Hrun Hall]]].
  - intros vid _ index Hin. cbn in Hin.
    destruct Hin as [<-|[<-|[<-|[]]]]; cbn; lia.
  - exists p, net'. split; [exact Hrun|].
    intros r Hr s Hs. exact (proj2 (proj2 (Hall r Hr) s Hs)).
Defined.

(** X16. The deadlines the solver is given, against the cancellation at
    export.  A hospital stop reached by its soft deadline (120 minutes for
    tier 3, 180 for tier 2, 240 for any other tier but 0) is never
    canceled, and for tier 2 and tier 3 it is labelled OPTIMAL.  The hard
    arrival range, which ends at minute 720, does not protect a stop: one
    reached from minute 546 on is inside the range and is canceled. *)
Theorem deadlines_and_cancellation (self : IsotopeOptimizer)
    (manager : RoutingIndexManager) (solution : Assignment) (index : Z)
    (s : step) (h : dl.Hospital) :
  walk_step self manager solution index = Py.Return s ->
  Py.getitem (hospitals self) (IndexToNode manager index) = Py.Return h ->
  dl.tier h <> 0%Z ->
  exists bound coeff lo hi,
    soft_upper_bound h = Some (bound, coeff)
    /\ arrival_range h = Some (lo, hi)
    /\ ((arrival_time_min s <= bound)%Z ->
        futile s = false
        /\ 35 <= potency s
        /\ (dl.tier h = 2%Z \/ dl.tier h = 3%Z ->
            triage s = "OPTIMAL"%string))
    /\ ((546 <= arrival_time_min s <= hi)%Z ->
        (lo <= arrival_time_min s <= hi)%Z /\ futile s = true).
Proof.
  intros Hs Hh Htier.
  destruct (walk_step_fields _ _ _ _ _ Hs) as [h' [Hh' [Ht _]]].
  assert (h' = h) by congruence. subst h'.
  destruct (walk_step_potency_window _ _ _ _ _ Hs) as [_ [_ [H545 _]]].
  pose proof (walk_step_futile _ _ _ _ _ Hs) as Hfut.
  pose proof (walk_step_label _ _ _ _ _ Hs) as Hlab.
  assert (Hrange : arrival_range h = Some (0, 720)%Z).
  { unfold arrival_range. apply Z.eqb_neq in Htier. rewrite Htier.
    reflexivity. }
  assert (Hsoft : exists bound coeff,
             soft_upper_bound h = Some (bound, coeff)
             /\ (bound <= 240)%Z
             /\ (dl.tier h = 2%Z \/ dl.tier h = 3%Z -> (bound <= 180)%Z)).
  { unfold soft_upper_bound. apply Z.eqb_neq in Htier. rewrite Htier.
    destruct (Z.eqb_spec (dl.tier h) 3) as [H3|H3];
      [|destruct (Z.eqb_spec (dl.tier h) 2) as [H2|H2]];
      eexists; eexists; (split; [reflexivity|]); split; lia. }
  destruct Hsoft as [bound [coeff [Hsoft [H240 H180]]]].
  exists bound, coeff, 0%Z, 720%Z.
  split; [exact Hsoft|]. split; [exact Hrange|]. split.
  - intros Hm. split; [|split].
    + apply Bool.not_true_is_false. intros Hf. apply Hfut in Hf. lia.
    + apply H545. lia.
    + intros Hhi. specialize (H180 Hhi). rewrite Hlab.
      unfold label_of_minute.
      destruct (Z.leb_spec (arrival_time_min s) 185); [reflexivity|lia].
  - intros Hm. split; [lia|]. apply Hfut. split; [|lia].
    rewrite Ht. exact Htier.
Qed.

Lemma deadlines_and_cancellation_witness :
  exists s bound coeff,
    walk_step plan_example.two_node_fleet plan_example.single_van_manager
              plan_example.single_van_solution 1 = Py.Return s
    /\ soft_upper_bound (dl.mkHospital "Dest1" (-341 / 10) (1501 / 10) 1
                                       "Metro")
       = Some (bound, coeff)
    /\ ((arrival_time_min s <= bound)%Z -> futile s = false).
Proof.
  eexists.
  destruct (deadlines_and_cancellation plan_example.two_node_fleet
              plan_example.single_van_manager
              plan_example.single_van_solution 1 _
              (dl.mkHospital "Dest1" (-341 / 10) (1501 / 10) 1 "Metro")
              eq_refl eq_refl)
    as [bound [coeff [lo [hi [Hsoft [_ [Hkeep _]]]]]]].
  - cbn. lia.
  - exists bound, coeff. split; [reflexivity|]. split; [exact Hsoft|].
    intros Hm. exact (proj1 (Hkeep Hm)).
Defined.

End triage_props.

(* ================================================================== *)
(** * Plan materializer: the fleet analytics                           *)
(* ================================================================== *)

Module fleet_props.
Import optimizer loop_props route_props export_props financial_props
       depot_props triage_props loop_terms route_terms export_terms
       triage_terms fleet_terms.
#[local] Open Scope R_scope.

(* ------------------------------------------------------------------ *)
(** ** Sums                                                            *)
(* ------------------------------------------------------------------ *)

Lemma sum_nil : sum [] = 0.
Proof. reflexivity. Qed.

Lemma sum_app (xs ys : list R) : sum (xs ++ ys) = sum xs + sum ys.
Proof.
  induction xs as [|x xs IH]; cbn [app].
  - rewrite sum_nil. lra.
  - rewrite !sum_cons, IH. lra.
Qed.

Lemma sum_bounds (xs : list R) (a b : R) :
  (forall x, In x xs -> a <= x <= b) ->
  INR (List.length xs) * a <= sum xs <= INR (List.length xs) * b.
Proof.
  induction xs as [|x xs IH]; intros Hall.
  - cbn [List.length INR]. rewrite sum_nil. lra.
  - rewrite sum_cons.
    change (List.length (x :: xs)) with (S (List.length xs)).
    rewrite S_INR.
    destruct (Hall x (or_introl eq_refl)) as [Hax Hxb].
    destruct IH as [Hlo Hhi]; [intros y Hy; apply Hall; right; exact Hy|].
    lra.
Qed.

Lemma mean_potency_bounds (stops : list step) (a b : R) :
  stops <> [] ->
  (forall s, In s stops -> a <= potency s <= b) ->
  a <= mean_potency stops <= b.
Proof.
  intros Hne Hall. destruct stops as [|s0 rest]; [contradiction|].
  unfold mean_potency.
  set (xs := s0 :: rest) in *.
  assert (Hn : 0 < INR (List.length xs)).
  { unfold xs. apply lt_0_INR. cbn. lia. }
  destruct (sum_bounds (map potency xs) a b) as [Hlo Hhi].
  { intros x Hx. apply in_map_iff in Hx. destruct Hx as [s [<- Hs]].
    apply Hall. exact Hs. }
  rewrite length_map in Hlo, Hhi.
  set (n := INR (List.length xs)) in *. set (t := sum (map potency xs)) in *.
  split.
  - apply (Rmult_le_reg_r n); [exact Hn|].
    replace (t / n * n) with t by (field; lra). lra.
  - apply (Rmult_le_reg_r n); [exact Hn|].
    replace (t / n * n) with t by (field; lra). lra.
Qed.

Lemma round0_IZR (z : Z) : Py.round (IZR z) 0 = IZR z.
Proof.
  rewrite round0_whole, round_half_even_IZR. reflexivity.
Qed.

Lemma sum_map_IZR (zs : list Z) : sum (map IZR zs) = IZR (total zs).
Proof.
  induction zs as [|z zs IH].
  - reflexivity.
  - cbn [map total fold_right]. rewrite sum_cons, IH, plus_IZR.
    reflexivity.
Qed.

(* ------------------------------------------------------------------ *)
(** ** The accumulators of the loop over the vehicles                  *)
(* ------------------------------------------------------------------ *)

Lemma fleet_eta (fl : fleet_state) :
  fl = mkFleet (fleet_total_potency fl) (fleet_served fl) (all_canceled fl).
Proof. destruct fl. reflexivity. Qed.

Lemma split_fold_fleet (xs : list step) (st : split_state) :
  let kept := van_stops_of (filter (fun s => negb (futile s)) xs) in
  fleet (fold_left split_step xs st)
  = mkFleet (fleet_total_potency (fleet st) + sum (map potency kept))
            (fleet_served (fleet st) + Z.of_nat (List.length kept))
            (all_canceled (fleet st) ++ map cancel (filter futile xs)).
Proof.
  revert st. induction xs as [|s xs IH]; intros st; cbn zeta.
  - cbn [fold_left filter van_stops_of map List.length].
    rewrite sum_nil, app_nil_r, (fleet_eta (fleet st)) at 1.
    cbn [Z.of_nat]. f_equal; [lra|lia].
  - cbn [fold_left]. rewrite IH. cbn zeta. clear IH.
    unfold split_step. fold (futile s). cbn [filter].
    destruct (futile s) eqn:Hf; cbn [negb fleet].
    + cbn [fleet_total_potency fleet_served all_canceled map].
      f_equal. rewrite <- app_assoc. reflexivity.
    + unfold van_stops_of. cbn [filter].
      destruct (negb (Z.eqb (tier s) 0)).
      * cbn [fleet_total_potency fleet_served all_canceled map List.length].
        rewrite sum_cons. f_equal; [ring|lia].
      * reflexivity.
Qed.

Lemma export_vehicle_fleet (self : IsotopeOptimizer)
    (manager : RoutingIndexManager) (solution : Assignment) (vid : nat)
    (out : list route_out) (fl : fleet_state) (net : dm.Network) :
  walk_in_range self manager solution vid ->
  exists r net',
    export_vehicle self manager solution vid (out, fl, net)
    = Py.Return
        (out ++ [r],
         mkFleet (fleet_total_potency fl
                  + sum (map potency (van_stops_of (steps r))))
                 (fleet_served fl
                  + Z.of_nat (List.length (van_stops_of (steps r))))
                 (all_canceled fl ++ route_canceled r),
         net')
    /\ vehicle_id r = vid
    /\ route_of self manager solution r
    /\ avg_potency r = Py.round (mean_potency (van_stops_of (steps r))) 1
    /\ fetch_viable_geometry self (steps r) net
       = Py.Return (geometry r, net').
Proof.
  intros Hwf. unfold export_vehicle.
  destruct (build_all_steps_spec self manager solution vid Hwf)
    as [body [e [-> Hwalk]]].
  cbn [Py.bind].
  destruct (fetch_viable_geometry_returns self
              (viable (split_steps (body ++ [e]) fl)) net)
    as [[geom net'] Hgeo].
  rewrite Hgeo. cbn [Py.bind].
  eexists. exists net'. split.
  - f_equal. f_equal. f_equal.
    cbn [steps route_canceled]. unfold split_steps.
    rewrite split_fold_fleet, split_step_viable, split_step_canceled.
    cbn [fleet viable canceled app]. reflexivity.
  - cbn [vehicle_id steps route_canceled financial avg_potency geometry].
    split; [reflexivity|]. split; [|split; [reflexivity|exact Hgeo]].
    exists body, e. cbn [vehicle_id steps route_canceled financial].
    split; [exact Hwalk|].
    unfold split_steps. rewrite split_step_viable, split_step_canceled.
    cbn [viable canceled app]. repeat split.
Qed.

(** The state of the loop over the vehicles when it ends. *)
Lemma export_loop_fleet (self : IsotopeOptimizer)
    (manager : RoutingIndexManager) (solution : Assignment)
    (data : data_model) (net : dm.Network) :
  solution_in_range self manager solution data ->
  exists out fl net',
    Py.for_ (Py.range (data_num_vehicles data))
            (export_vehicle self manager solution)
            ([], mkFleet 0 0 [], net)
    = Py.Return (out, fl, net')
    /\ map vehicle_id out = Py.range (data_num_vehicles data)
    /\ Forall (route_of self manager solution) out
    /\ Forall (fun r => avg_potency r
                        = Py.round (mean_potency (van_stops_of (steps r))) 1)
              out
    /\ fleet_total_potency fl = sum (map potency (served_stops out))
    /\ fleet_served fl = Z.of_nat (List.length (served_stops out))
    /\ all_canceled fl = canceled_stops out.
Proof.
  intros Hwf.
  destruct (for_invariant
              (fun done (st : list route_out * fleet_state * dm.Network) =>
                 let out := fst (fst st) in
                 let fl := snd (fst st) in
                 map vehicle_id out = done
                 /\ Forall (route_of self manager solution) out
                 /\ Forall (fun r =>
                              avg_potency r
                              = Py.round
                                  (mean_potency (van_stops_of (steps r))) 1)
                           out
                 /\ fleet_total_potency fl
                    = sum (map potency (served_stops out))
                 /\ fleet_served fl
                    = Z.of_nat (List.length (served_stops out))
                 /\ all_canceled fl = canceled_stops out)
              (export_vehicle self manager solution)
              (Py.range (data_num_vehicles data))
              ([], mkFleet 0 0 [], net))
    as [[[out fl] net'] [Hrun Hinv]].
  - cbn. repeat split; constructor.
  - intros done vid rest [[out fl] net1] Hsplit
           [Hids [Hroutes [Havg [Htot [Hserved Hcanc]]]]].
    cbn [fst snd] in *.
    destruct (range_split_fresh _ _ _ _ Hsplit) as [Hvid _].
    destruct (export_vehicle_fleet self manager solution vid out fl net1
                (Hwf vid Hvid))
      as [r [net2 [Hrun [Hid [Hr [Hav _]]]]]].
    eexists. split; [exact Hrun|]. cbn [fst snd].
    unfold served_stops, canceled_stops in *.
    rewrite !flat_map_app. cbn [flat_map]. rewrite !app_nil_r.
    split; [rewrite map_app, Hids; cbn [map]; rewrite Hid; reflexivity|].
    split; [apply Forall_app; split;
              [exact Hroutes|constructor; [exact Hr|constructor]]|].
    split; [apply Forall_app; split;
              [exact Havg|constructor; [exact Hav|constructor]]|].
    cbn [fleet_total_potency fleet_served all_canceled].
    split; [rewrite map_app, sum_app, Htot; reflexivity|].
    split; [rewrite length_app, Hserved; lia|].
    rewrite Hcanc. reflexivity.
  - exists out, fl, net'. split; [exact Hrun|]. exact Hinv.
Qed.

Lemma filter_flat_map {A B : Type} (p : B -> bool) (f : A -> list B)
    (xs : list A) :
  filter p (flat_map f xs) = flat_map (fun x => filter p (f x)) xs.
Proof.
  induction xs as [|x xs IH]; [reflexivity|].
  cbn [flat_map]. rewrite filter_app, IH. reflexivity.
Qed.

Lemma filter_length_le {A : Type} (p q : A -> bool) (xs : list A) :
  (forall x, p x = true -> q x = true) ->
  (List.length (filter p xs) <= List.length (filter q xs))%nat.
Proof.
  intros Hpq. induction xs as [|x xs IH]; [apply Nat.le_refl|].
  cbn [filter]. destruct (p x) eqn:Hp.
  - rewrite (Hpq x Hp). cbn [List.length]. lia.
  - destruct (q x); cbn [List.length]; lia.
Qed.

Lemma ge_true (x y : R) : Py.ge x y = true <-> y <= x.
Proof.
  unfold Py.ge. destruct (Rle_dec y x); split; intros; try assumption;
    try reflexivity; try discriminate; contradiction.
Qed.

(** X17. The fleet analytics count what the routes hold.  In every
    exported plan [fleet_stops_served] is the number of stops of tier other
    than 0 in the viable lists of the routes; [avoided_waste_count] is the
    number of stops in their canceled lists and [avoided_waste_cost] is 1500
    times that; and [canceled_missions] lists exactly those canceled stops,
    route by route in the order of the vehicles, each with its name,
    potency, tier and arrival minute. *)
Theorem analytics_count_the_routes (self : IsotopeOptimizer)
    (manager : RoutingIndexManager) (solution : Assignment)
    (data : data_model) (net : dm.Network) :
  solution_in_range self manager solution data ->
  exists p net',
    _export_solution self manager solution data net = Py.Return (p, net')
    /\ map vehicle_id (routes p) = Py.range (data_num_vehicles data)
    /\ let a := payload_analytics p in
       let c := clinical a in
       fleet_stops_served a
       = Z.of_nat (List.length (served_stops (routes p)))
       /\ avoided_waste_count c
          = Z.of_nat (List.length (canceled_stops (routes p)))
       /\ avoided_waste_cost c = (avoided_waste_count c * 1500)%Z
       /\ canceled_missions c = map mission_of (canceled_stops (routes p)).
Proof.
  intros Hwf.
  destruct (export_loop_fleet self manager solution data net Hwf)
    as [out [fl [net' [Hrun [Hids [_ [_ [_ [Hserved Hcanc]]]]]]]]].
  unfold _export_solution. rewrite Hrun. cbn [Py.bind].
  eexists. eexists. split; [reflexivity|].
  cbn [routes payload_analytics clinical fleet_stops_served
       avoided_waste_count avoided_waste_cost canceled_missions].
  split; [exact Hids|].
  rewrite Hcanc. repeat split. exact Hserved.
Qed.

Lemma analytics_count_the_routes_witness :
  exists p net',
    _export_solution plan_example.two_node_fleet
      plan_example.single_van_manager plan_example.single_van_solution
      (create_data_model plan_example.two_node_fleet)
      plan_example.silent_network
    = Py.Return (p, net')
    /\ fleet_stops_served (payload_analytics p)
       = Z.of_nat (List.length (served_stops (routes p))).
Proof.
  destruct (analytics_count_the_routes plan_example.two_node_fleet
              plan_example.single_van_manager
              plan_example.single_van_solution
              (create_data_model plan_example.two_node_fleet)
              plan_example.silent_network)
    as [p [net' [Hrun [_ [Hserved _]]]]].
  - intros vid _ index Hin. cbn in Hin.
    destruct Hin as [<-|[<-|[<-|[]]]]; cbn; lia.
  - exists p, net'. split; [exact Hrun|exact Hserved].
Defined.

(** X18. The clinical counters are nested: in every exported plan
    [cardiac_ready] (served stops at potency 70 or more) is at most
    [doses_saved] (potency 60 or more), which is at most
    [fleet_stops_served], and none of them is negative. *)
Theorem clinical_counters_nested (self : IsotopeOptimizer)
    (manager : RoutingIndexManager) (solution : Assignment)
    (data : data_model) (net : dm.Network) :
  solution_in_range self manager solution data ->
  exists p net',
    _export_solution self manager solution data net = Py.Return (p, net')
    /\ let a := payload_analytics p in
       (0 <= cardiac_ready (clinical a)
        <= doses_saved (clinical a))%Z
       /\ (doses_saved (clinical a) <= fleet_stops_served a)%Z.
Proof.
  intros Hwf.
  destruct (export_loop_fleet self manager solution data net Hwf)
    as [out [fl [net' [Hrun [_ [_ [_ [_ [Hserved _]]]]]]]]].
  unfold _export_solution. rewrite Hrun. cbn [Py.bind].
  eexists. eexists. split; [reflexivity|].
  cbn [payload_analytics clinical fleet_stops_served cardiac_ready
       doses_saved].
  rewrite Hserved. unfold count_steps, served_stops, van_stops_of.
  rewrite <- (filter_flat_map _ steps out).
  split; [split; [lia|]|]; apply inj_le, filter_length_le; intros s Hs;
    apply andb_true_iff in Hs; destruct Hs as [Ht Hp].
  - rewrite Ht. cbn [andb]. apply ge_true. apply ge_true in Hp. lra.
  - exact Ht.
Qed.

Lemma clinical_counters_nested_witness :
  exists p net',
    _export_solution plan_example.two_node_fleet
      plan_example.single_van_manager plan_example.single_van_solution
      (create_data_model plan_example.two_node_fleet)
      plan_example.silent_network
    = Py.Return (p, net')
    /\ (cardiac_ready (clinical (payload_analytics p))
        <= doses_saved (clinical (payload_analytics p)))%Z.
Proof.
  destruct (clinical_counters_nested plan_example.two_node_fleet
              plan_example.single_van_manager
              plan_example.single_van_solution
              (create_data_model plan_example.two_node_fleet)
              plan_example.silent_network)
    as [p [net' [Hrun [[_ Hle] _]]]].
  - intros vid _ index Hin. cbn in Hin.
    destruct Hin as [<-|[<-|[<-|[]]]]; cbn; lia.
  - exists p, net'. split; [exact Hrun|exact Hle].
Defined.

Lemma route_mission_value (self : IsotopeOptimizer)
    (manager : RoutingIndexManager) (solution : Assignment)
    (out : list route_out) :
  Forall (route_of self manager solution) out ->
  total (map (fun r => mission_value (financial r)) out)
  = ((Z.of_nat (List.length (served_stops out))
      + Z.of_nat (List.length (canceled_stops out))) * DOSE_VALUE_AUD)%Z.
Proof.
  induction 1 as [|r out [body [e [_ [_ [_ Hfin]]]]] _ IH].
  - reflexivity.
  - cbn [map total fold_right]. fold (total (map (fun r => mission_value
                                                  (financial r)) out)).
    rewrite IH, Hfin. unfold van_financial, van_mission_of.
    cbn [mission_value]. unfold served_stops, canceled_stops.
    cbn [flat_map]. rewrite !length_app. lia.
Qed.

Lemma route_values_whole (self : IsotopeOptimizer)
    (manager : RoutingIndexManager) (solution : Assignment)
    (out : list route_out) (f : financial_summary -> R) :
  f = preserved_value \/ f = waste_value ->
  Forall (route_of self manager solution) out ->
  exists zs, map (fun r => f (financial r)) out = map IZR zs.
Proof.
  intros Hf. induction 1 as [|r out [body [e [_ [_ [_ Hfin]]]]] _ [zs IH]].
  - exists []. reflexivity.
  - cbn [map]. rewrite IH, Hfin. unfold van_financial.
    destruct Hf as [-> | ->]; cbn [preserved_value waste_value];
      rewrite round0_whole; eexists (_ :: zs); reflexivity.
Qed.

(** X19. The fleet financial block adds up the routes.  In every exported
    plan [total_mission_value] is the sum of the routes' [mission_value],
    that is 1500 times the number of served and canceled stops;
    [total_preserved_value] and [total_waste_value] are the sums of the
    routes' [preserved_value] and [waste_value] (whole numbers already: the
    second rounding changes nothing, in exact arithmetic); and [dose_value]
    is 1500. *)
Theorem fleet_financial_adds_up (self : IsotopeOptimizer)
    (manager : RoutingIndexManager) (solution : Assignment)
    (data : data_model) (net : dm.Network) :
  solution_in_range self manager solution data ->
  exists p net',
    _export_solution self manager solution data net = Py.Return (p, net')
    /\ let f := analytics_financial (payload_analytics p) in
       dose_value f = 1500%Z
       /\ total_mission_value f
          = total (map (fun r => mission_value (financial r)) (routes p))
       /\ total_mission_value f
          = ((Z.of_nat (List.length (served_stops (routes p)))
              + Z.of_nat (List.length (canceled_stops (routes p))))
             * 1500)%Z
       /\ total_preserved_value f
          = sum (map (fun r => preserved_value (financial r)) (routes p))
       /\ total_waste_value f
          = sum (map (fun r => waste_value (financial r)) (routes p)).
Proof.
  intros Hwf.
  destruct (export_loop_fleet self manager solution data net Hwf)
    as [out [fl [net' [Hrun [_ [Hroutes [_ [_ [Hserved Hcanc]]]]]]]]].
  unfold _export_solution. rewrite Hrun. cbn [Py.bind].
  eexists. eexists. split; [reflexivity|].
  cbn [routes payload_analytics analytics_financial dose_value
       total_mission_value total_preserved_value total_waste_value].
  split; [reflexivity|].
  rewrite (route_mission_value _ _ _ _ Hroutes), Hserved, Hcanc.
  unfold DOSE_VALUE_AUD. split; [lia|]. split; [lia|].
  destruct (route_values_whole _ _ _ out preserved_value
              (or_introl eq_refl) Hroutes) as [zp Hzp].
  destruct (route_values_whole _ _ _ out waste_value
              (or_intror eq_refl) Hroutes) as [zw Hzw].
  rewrite Hzp, Hzw, !sum_map_IZR, !round0_IZR. split; reflexivity.
Qed.

Lemma fleet_financial_adds_up_witness :
  exists p net',
    _export_solution plan_example.two_node_fleet
      plan_example.single_van_manager plan_example.single_van_solution
      (create_data_model plan_example.two_node_fleet)
      plan_example.silent_network
    = Py.Return (p, net')
    /\ total_mission_value (analytics_financial (payload_analytics p))
       = total (map (fun r => mission_value (financial r)) (routes p)).
Proof.
  destruct (fleet_financial_adds_up plan_example.two_node_fleet
              plan_example.single_van_manager
              plan_example.single_van_solution
              (create_data_model plan_example.two_node_fleet)
              plan_example.silent_network)
    as [p [net' [Hrun [_ [Htot _]]]]].
  - intros vid _ index Hin. cbn in Hin.
    destruct Hin as [<-|[<-|[<-|[]]]]; cbn; lia.
  - exists p, net'. split; [exact Hrun|exact Htot].
Defined.

(* ------------------------------------------------------------------ *)
(** ** Averages                                                        *)
(* ------------------------------------------------------------------ *)

Lemma served_stop_potency (self : IsotopeOptimizer)
    (manager : RoutingIndexManager) (solution : Assignment)
    (data : data_model) (r : route_out) (s : step) :
  arrivals_nonneg solution data ->
  (vehicle_id r < data_num_vehicles data)%nat ->
  route_of self manager solution r ->
  In s (van_stops_of (steps r)) ->
  35 <= potency s <= 100.
Proof.
  intros Hnn Hvid [body [e [Hwalk [Hsteps _]]]] Hs.
  unfold van_stops_of in Hs. apply filter_In in Hs.
  destruct Hs as [Hin Htier]. rewrite Hsteps in Hin.
  apply filter_In in Hin. destruct Hin as [Hin Hkeep].
  assert (Hlo : 35 <= potency s).
  { apply Rnot_lt_le. intros Hlt.
    assert (Hf : futile s = true).
    { apply futile_spec. split; [|exact Hlt].
      intros Hz. rewrite Hz in Htier. discriminate. }
    rewrite Hf in Hkeep. discriminate. }
  split; [exact Hlo|].
  destruct Hwalk as [Hbody Hend].
  apply in_app_or in Hin. destruct Hin as [Hin|[<-|[]]].
  - destruct (Forall2_in_right _ _ _ _ Hbody Hin) as [index [Hidx Hstep]].
    destruct (walk_step_fields _ _ _ _ _ Hstep) as [h [_ [_ [_ [-> _]]]]].
    pose proof (Hnn _ _ Hvid Hidx) as Hm.
    pose proof (raw_potency_antitone _ _ Hm) as Hraw.
    assert (H0 : raw_potency 0 = 100).
    { unfold raw_potency, INITIAL_ACTIVITY.
      replace (- LAMBDA * (0 / 60)) with 0 by lra. rewrite exp_0. lra. }
    pose proof (round1_lt (raw_potency (cumul_min solution index)) 1000).
    lra.
  - destruct (end_step_not_futile _ _ _ _ _ Hend) as [-> _]. lra.
Qed.

(** X20. The averages of an exported plan.  When no index of a walk is
    reached before minute 0, the [avg_potency] of a route is 0 if the route
    serves no hospital stop and lies between 35 and 100 otherwise, and so
    does [fleet_avg_potency] for the whole plan: a canceled stop never
    enters an average. *)
Theorem averages_within_bounds (self : IsotopeOptimizer)
    (manager : RoutingIndexManager) (solution : Assignment)
    (data : data_model) (net : dm.Network) :
  solution_in_range self manager solution data ->
  arrivals_nonneg solution data ->
  exists p net',
    _export_solution self manager solution data net = Py.Return (p, net')
    /\ (forall r, In r (routes p) ->
          (van_stops_of (steps r) = [] -> avg_potency r = 0)
          /\ (van_stops_of (steps r) <> [] -> 35 <= avg_potency r <= 100))
    /\ (served_stops (routes p) = [] ->
        fleet_avg_potency (payload_analytics p) = 0)
    /\ (served_stops (routes p) <> [] ->
        35 <= fleet_avg_potency (payload_analytics p) <= 100).
Proof.
  intros Hwf Hnn.
  destruct (export_loop_fleet self manager solution data net Hwf)
    as [out [fl [net' [Hrun [Hids [Hroutes [Havg [Htot [Hserved _]]]]]]]]].
  unfold _export_solution. rewrite Hrun. cbn [Py.bind].
  eexists. eexists. split; [reflexivity|].
  cbn [routes payload_analytics fleet_avg_potency].
  assert (Hround0 : Py.round 0 1 = 0).
  { unfold Py.round. replace (0 * 10 ^ 1) with (IZR 0) by (simpl; lra).
    rewrite round_half_even_IZR. simpl. lra. }
  assert (Hround : forall x, 35 <= x <= 100 -> 35 <= Py.round x 1 <= 100).
  { intros x [Hlo Hhi].
    pose proof (round1_ge x 350). pose proof (round1_lt x 1000). lra. }
  assert (Hvid : forall r, In r out ->
                           (vehicle_id r < data_num_vehicles data)%nat).
  { intros r Hr. apply (in_map vehicle_id) in Hr. rewrite Hids in Hr.
    apply in_seq in Hr. lia. }
  rewrite Forall_forall in Hroutes, Havg.
  split; [|split].
  - intros r Hr. rewrite (Havg r Hr). split.
    + intros ->. exact Hround0.
    + intros Hne. apply Hround. apply mean_potency_bounds; [exact Hne|].
      intros s Hs.
      exact (served_stop_potency _ _ _ _ _ _ Hnn (Hvid r Hr)
               (Hroutes r Hr) Hs).
  - intros Hnone. rewrite Hserved, Hnone. cbn. exact Hround0.
  - intros Hsome. rewrite Hserved, Htot.
    assert (Hpos : Z.ltb 0 (Z.of_nat (List.length (served_stops out)))
                   = true).
    { apply Z.ltb_lt. destruct (served_stops out); [contradiction|].
      cbn [List.length]. lia. }
    rewrite Hpos, <- INR_IZR_INZ. apply Hround.
    assert (Hmean : sum (map potency (served_stops out))
                    / INR (List.length (served_stops out))
                    = mean_potency (served_stops out)).
    { unfold mean_potency. destruct (served_stops out);
        [contradiction|reflexivity]. }
    rewrite Hmean. apply mean_potency_bounds; [exact Hsome|].
    intros s Hs. unfold served_stops in Hs. apply in_flat_map in Hs.
    destruct Hs as [r [Hr Hs]].
    exact (served_stop_potency _ _ _ _ _ _ Hnn (Hvid r Hr)
             (Hroutes r Hr) Hs).
Qed.

Lemma averages_within_bounds_witness :
  exists p net',
    _export_solution plan_example.two_node_fleet
      plan_example.single_van_manager plan_example.single_van_solution
      (create_data_model plan_example.two_node_fleet)
      plan_example.silent_network
    = Py.Return (p, net')
    /\ (served_stops (routes p) <> [] ->
        35 <= fleet_avg_potency (payload_analytics p) <= 100).
Proof.
  destruct (averages_within_bounds plan_example.two_node_fleet
              plan_example.single_van_manager
              plan_example.single_van_solution
              (create_data_model plan_example.two_node_fleet)
              plan_example.silent_network)
    as [p [net' [Hrun [_ [_ Havg]]]]].
  - intros vid _ index Hin. cbn in Hin.
    destruct Hin as [<-|[<-|[<-|[]]]]; cbn; lia.
  - intros vid index _ Hin. cbn in Hin.
    destruct Hin as [<-|[<-|[]]]; cbn; lia.
  - exists p, net'. split; [exact Hrun|exact Havg].
Defined.

End fleet_props.

(* ================================================================== *)
(** * Plan materializer: the geometry of the viable path               *)
(* ================================================================== *)

Module geometry_props.
Import optimizer loop_props geo_props route_props export_props request_props
       loop_terms geo_terms route_terms export_terms request_terms
       geometry_terms.
#[local] Open Scope nat_scope.

Lemma fetch_request_between (origin dest : dm.Location)
    (avoid_point : option dm.Location) (net : dm.Network) :
  exists r req,
    dm.fetch_osrm_route_data origin dest avoid_point net
    = Py.Return (r, after_request net req)
    /\ request_between origin dest req
    /\ (avoid_point = None -> req = direct_request origin dest)
    /\ (dm.osrm_replies net = [] ->
        r = fallback_record origin dest (haversine_km origin dest)).
Proof.
  assert (Hdet : exists detour_wp,
             match avoid_point with
             | Some ap =>
                 near <- dm._is_segment_near_point origin dest
                           (dm.lat ap) (dm.lon ap) 2 ;;
                 if (near : bool) then
                   wp <- dm._calculate_detour_waypoint origin dest
                           (dm.lat ap) (dm.lon ap) ;;
                   Py.Return (Some wp)
                 else Py.Return None
             | None => Py.Return None
             end = Py.Return detour_wp
             /\ (avoid_point = None -> detour_wp = None)).
  { destruct avoid_point as [ap|].
    - destruct (near_point_scan_total (Py.range 11) origin dest
                  (dm.lat ap) (dm.lon ap) 2) as [near Hnear].
      unfold dm._is_segment_near_point. rewrite Hnear. cbn [Py.bind].
      destruct near.
      + destruct (detour_waypoint_total origin dest (dm.lat ap) (dm.lon ap))
          as [wp ->].
        cbn [Py.bind]. eexists. split; [reflexivity|discriminate].
      + eexists. split; [reflexivity|discriminate].
    - exists None. split; reflexivity. }
  destruct Hdet as [detour_wp [Hdet Hnone]].
  destruct (fetch_with_request origin dest avoid_point net detour_wp Hdet)
    as [r [Hrun _]].
  exists r. eexists. split; [exact Hrun|]. split; [|split].
  - destruct detour_wp as [wp|]; [right; exists wp|left]; reflexivity.
  - intros Hap. rewrite (Hnone Hap). reflexivity.
  - intros Hsilent. revert Hrun.
    unfold dm.fetch_osrm_route_data, dm.fetch_osrm_try. rewrite Hdet.
    unfold dm.osrm_get. rewrite Hsilent.
    rewrite get_haversine_distance_total. cbn [Py.bind].
    intros [= <- _]. reflexivity.
Qed.

Lemma range_prefix (n x : nat) (done rest : list nat) :
  Py.range n = done ++ x :: rest -> x = List.length done /\ x < n.
Proof.
  intros Hr.
  assert (Hx : nth_error (Py.range n) (List.length done) = Some x).
  { rewrite Hr, nth_error_app2 by apply Nat.le_refl.
    rewrite Nat.sub_diag. reflexivity. }
  assert (Hlt : List.length done < n).
  { apply (f_equal (@List.length nat)) in Hr. unfold Py.range in Hr.
    rewrite length_seq, length_app in Hr. cbn [List.length] in Hr. lia. }
  unfold Py.range in Hx. rewrite nth_error_seq in Hx.
  destruct (Nat.ltb_spec (List.length done) n) as [_|Hge]; [|lia].
  injection Hx as <-. split; [reflexivity|exact Hlt].
Qed.

Lemma firstn_snoc {A : Type} (xs : list A) (k : nat) (x : A) :
  nth_error xs k = Some x -> firstn (S k) xs = firstn k xs ++ [x].
Proof.
  revert k. induction xs as [|y xs IH]; intros [|k] Hk; try discriminate.
  - injection Hk as ->. reflexivity.
  - cbn [firstn app]. f_equal. apply IH. exact Hk.
Qed.

(** X21. [fetch_viable_geometry] sends one route request per pair of
    consecutive steps of the viable list, in order, from the point of the
    one to the point of the next, whatever the router answers; none for a
    list of fewer than two steps.  Canceled stops, which are not in the
    list, are never routed to.  Without an avoid-point every request is a
    direct one. *)
Theorem geometry_one_request_per_leg (self : IsotopeOptimizer)
    (viable : list step) (net : dm.Network) :
  exists geom net' reqs,
    fetch_viable_geometry self viable net = Py.Return (geom, net')
    /\ dm.osrm_sent net' = dm.osrm_sent net ++ reqs
    /\ requests_of_legs viable reqs
    /\ (avoid_point self = None ->
        Forall (fun req => dm.radiuses req = None) reqs).
Proof.
  unfold fetch_viable_geometry.
  destruct (Nat.ltb_spec 1 (List.length viable)) as [Hlen|Hlen].
  2:{ exists [], net, []. split; [reflexivity|]. rewrite app_nil_r.
      split; [reflexivity|]. split; [|constructor].
      split; [cbn; lia|]. intros [|i] req; discriminate. }
  destruct (for_invariant
              (fun done (st : list (R * R) * dm.Network) =>
                 exists reqs,
                   dm.osrm_sent (snd st) = dm.osrm_sent net ++ reqs
                   /\ List.length reqs = List.length done
                   /\ (forall i req,
                         nth_error reqs i = Some req ->
                         exists vi vj,
                           nth_error viable i = Some vi
                           /\ nth_error viable (i + 1) = Some vj
                           /\ request_between (location_of vi)
                                              (location_of vj) req)
                   /\ (avoid_point self = None ->
                       Forall (fun req => dm.radiuses req = None) reqs))
              (fun i '(geom, net) =>
                 vi <- Py.getitem viable i ;;
                 vj <- Py.getitem viable (i + 1) ;;
                 let o := dm.mkLocation (lat vi) (lon vi) in
                 let d := dm.mkLocation (lat vj) (lon vj) in
                 r <- dm.fetch_osrm_route_data o d (avoid_point self) net ;;
                 let seg := dm.rd_geometry (fst r) in
                 Py.Return (extend_geometry geom seg, snd r))
              (Py.range (List.length viable - 1)) ([], net))
    as [[geom net'] [Hrun [reqs [Hsent [Hcount [Hlegs Hdirect]]]]]].
  - exists []. cbn [snd]. rewrite app_nil_r. split; [reflexivity|].
    split; [reflexivity|]. split; [|constructor].
    intros [|i] req; discriminate.
  - intros done x rest [geom1 net1] Hsplit
           [reqs [Hsent [Hcount [Hlegs Hdirect]]]].
    cbn [snd] in *.
    destruct (range_prefix _ _ _ _ Hsplit) as [Hx Hxn].
    destruct (getitem_in_range viable x) as [vi [Hvi ->]]; [lia|].
    destruct (getitem_in_range viable (x + 1)) as [vj [Hvj ->]]; [lia|].
    cbn [Py.bind].
    destruct (fetch_request_between (dm.mkLocation (lat vi) (lon vi))
                (dm.mkLocation (lat vj) (lon vj)) (avoid_point self) net1)
      as [r [req [-> [Hreq [Hdir _]]]]].
    cbn [Py.bind fst snd]. eexists. split; [reflexivity|]. cbn [snd].
    exists (reqs ++ [req]). cbn [after_request dm.osrm_sent].
    split; [rewrite Hsent, app_assoc; reflexivity|].
    split; [rewrite !length_app; cbn [List.length]; lia|].
    split.
    + intros i req' Hi.
      destruct (Nat.lt_ge_cases i (List.length reqs)) as [Hlt|Hge].
      * rewrite nth_error_app1 in Hi by exact Hlt. exact (Hlegs i req' Hi).
      * rewrite nth_error_app2 in Hi by exact Hge.
        destruct (i - List.length reqs) as [|k] eqn:Hk;
          [|destruct k; discriminate].
        injection Hi as <-.
        assert (i = x) by lia. subst i.
        exists vi, vj. repeat split; assumption.
    + intros Hap. apply Forall_app. split; [exact (Hdirect Hap)|].
      constructor; [|constructor]. rewrite (Hdir Hap). reflexivity.
  - exists geom, net', reqs. cbn [snd] in Hsent.
    split; [exact Hrun|]. split; [exact Hsent|]. split; [|exact Hdirect].
    split; [|exact Hlegs].
    rewrite Hcount. unfold Py.range. apply length_seq.
Qed.

Lemma extend_geometry_joint (geom : list (R * R)) (a b : R * R) :
  extend_geometry (geom ++ [a]) [a; b] = geom ++ [a; b].
Proof.
  unfold extend_geometry.
  destruct (geom ++ [a]) as [|g0 gs] eqn:Hg.
  { destruct geom; discriminate. }
  rewrite <- Hg, last_last.
  destruct (point_eq_dec a a) as [_|Hne]; [|contradiction].
  rewrite <- app_assoc. reflexivity.
Qed.

(** X22. When the router does not answer, the geometry of a route is the
    chain of its viable steps: for a viable list of at least two steps
    [fetch_viable_geometry] (in exact arithmetic) returns exactly the points
    of the steps, in order, each once (the point two consecutive fallback
    segments share is not repeated); for a shorter list it returns the
    empty geometry. *)
Theorem geometry_without_router (self : IsotopeOptimizer)
    (viable : list step) (net : dm.Network) :
  dm.osrm_replies net = [] ->
  exists net',
    fetch_viable_geometry self viable net
    = Py.Return (if Nat.ltb 1 (List.length viable)
                 then map point_of viable else [],
                 net')
    /\ dm.osrm_replies net' = [].
Proof.
  intros Hsilent. unfold fetch_viable_geometry.
  destruct (Nat.ltb_spec 1 (List.length viable)) as [Hlen|Hlen].
  2:{ exists net. split; [reflexivity|exact Hsilent]. }
  destruct (for_invariant
              (fun done (st : list (R * R) * dm.Network) =>
                 dm.osrm_replies (snd st) = []
                 /\ fst st = match done with
                             | [] => []
                             | _ => map point_of
                                        (firstn (S (List.length done)) viable)
                             end)
              (fun i '(geom, net) =>
                 vi <- Py.getitem viable i ;;
                 vj <- Py.getitem viable (i + 1) ;;
                 let o := dm.mkLocation (lat vi) (lon vi) in
                 let d := dm.mkLocation (lat vj) (lon vj) in
                 r <- dm.fetch_osrm_route_data o d (avoid_point self) net ;;
                 let seg := dm.rd_geometry (fst r) in
                 Py.Return (extend_geometry geom seg, snd r))
              (Py.range (List.length viable - 1)) ([], net))
    as [[geom net'] [Hrun [Hrep Hgeom]]].
  - split; [exact Hsilent|reflexivity].
  - intros done x rest [geom1 net1] Hsplit [Hrep Hgeom].
    cbn [fst snd] in *.
    destruct (range_prefix _ _ _ _ Hsplit) as [Hx Hxn].
    destruct (getitem_in_range viable x) as [vi [Hvi ->]]; [lia|].
    destruct (getitem_in_range viable (x + 1)) as [vj [Hvj ->]]; [lia|].
    cbn [Py.bind].
    destruct (fetch_request_between (dm.mkLocation (lat vi) (lon vi))
                (dm.mkLocation (lat vj) (lon vj)) (avoid_point self) net1)
      as [r [req [-> [_ [_ Hfb]]]]].
    rewrite (Hfb Hrep). cbn [Py.bind fst snd]. eexists.
    split; [reflexivity|]. cbn [fst snd after_request dm.osrm_replies].
    split; [rewrite Hrep; reflexivity|].
    unfold fallback_record. cbn [dm.rd_geometry dm.lat dm.lon].
    fold (point_of vi). fold (point_of vj).
    rewrite length_app. cbn [List.length].
    replace (List.length done + 1) with (S x) by lia.
    replace (x + 1) with (S x) in Hvj by lia.
    rewrite (firstn_snoc viable (S x) vj Hvj), (firstn_snoc viable x vi Hvi).
    rewrite !map_app. cbn [map].
    destruct (done ++ [x]) eqn:Hd; [destruct done; discriminate|].
    rewrite <- app_assoc. cbn [app].
    destruct done as [|d0 done'].
    + subst geom1. cbn [List.length] in Hx. subst x. reflexivity.
    + subst geom1. rewrite <- Hx, (firstn_snoc viable x vi Hvi), map_app.
      cbn [map]. apply extend_geometry_joint.
  - exists net'. cbn [fst snd] in *. split; [|exact Hrep].
    rewrite Hrun, Hgeom. f_equal. f_equal.
    unfold Py.range. rewrite length_seq.
    destruct (seq 0 (List.length viable - 1)) eqn:Hs.
    + apply (f_equal (@List.length nat)) in Hs. rewrite length_seq in Hs.
      cbn in Hs. lia.
    + replace (S (List.length viable - 1)) with (List.length viable) by lia.
      rewrite firstn_all. reflexivity.
Qed.

Lemma geometry_without_router_witness :
  exists net',
    fetch_viable_geometry plan_example.two_node_fleet
      [mkStep "Source" 0 0 (-34) 150 100 "OPTIMAL";
       mkStep "Dest1" 1 5 (-341 / 10) (1501 / 10) (99) "OPTIMAL";
       mkStep "Source" 0 10 (-34) 150 100 "DEPOT"]
      plan_example.silent_network
    = Py.Return ([(-34, 150); (-341 / 10, 1501 / 10); (-34, 150)]%R, net').
Proof.
  destruct (geometry_without_router plan_example.two_node_fleet
              [mkStep "Source" 0 0 (-34) 150 100 "OPTIMAL";
               mkStep "Dest1" 1 5 (-341 / 10) (1501 / 10) (99) "OPTIMAL";
               mkStep "Source" 0 10 (-34) 150 100 "DEPOT"]
              plan_example.silent_network eq_refl) as [net' [Hrun _]].
  exists net'. exact Hrun.
Defined.

End geometry_props.

(* ================================================================== *)
(** * Solver model: demands, arc costs and drop penalties              *)
(* ================================================================== *)

Module model_props.
Import optimizer loop_props callback_props fleet_props loop_terms
       callback_terms fleet_terms model_terms.

Lemma cost_callback_value (self : IsotopeOptimizer) (data : data_model)
    (manager : RoutingIndexManager) (from_index to_index : Z)
    (tt : R) (dest : dl.Hospital) :
  dm.get_cell (time_matrix data) (IndexToNode manager from_index)
              (IndexToNode manager to_index) = Py.Return tt ->
  Py.getitem (hospitals self) (IndexToNode manager to_index)
  = Py.Return dest ->
  (0 <= dl.tier dest <= 3)%Z ->
  cost_callback self data manager from_index to_index
  = Py.Return (Py.int (tt * (1 / cost_weight (dl.tier dest)) * 100)).
Proof.
  intros Hcell Hdest Htier. unfold cost_callback.
  rewrite Hcell. cbn [Py.bind]. rewrite Hdest. cbn [Py.bind].
  unfold dl.get_priority_weight, cost_weight.
  assert (Hcases : (dl.tier dest = 0 \/ dl.tier dest = 1
                    \/ dl.tier dest = 2 \/ dl.tier dest = 3)%Z) by lia.
  destruct Hcases as [-> | [-> | [-> | ->]]]; reflexivity.
Qed.

Lemma int_monotone (x y : R) : 0 <= x <= y -> (0 <= Py.int x <= Py.int y)%Z.
Proof.
  intros [Hx Hxy]. unfold Py.int.
  destruct (Rle_dec 0 x) as [_|Hn]; [|contradiction].
  destruct (Rle_dec 0 y) as [_|Hn]; [|lra].
  split; [|apply Zfloor_le; exact Hxy].
  apply (Zfloor_lub 0). exact Hx.
Qed.

Lemma int_below (x : R) (z : Z) : (0 < z)%Z -> x < IZR z -> (Py.int x < z)%Z.
Proof.
  intros Hz Hx. unfold Py.int.
  destruct (Rle_dec 0 x) as [Hpos|Hneg].
  - apply lt_IZR. pose proof (Zfloor_bound x). lra.
  - assert (Hc : (Zceil x <= 0)%Z).
    { unfold Zceil. assert (H0 : (0 <= Zfloor (- x))%Z).
      { apply (Zfloor_lub 0). lra. }
      lia. }
    lia.
Qed.

(** X23. The arc cost grows with the tier of the destination.  For the
    same travel time, which is not negative, an arc into a hospital of a
    higher tier (among 1, 2, 3) never costs less than one into a hospital of
    a lower tier, and an arc into a tier-0 node costs what an arc into a
    tier-3 hospital costs: the weight 3 / 2 / 1 of tiers 1 / 2 / 3 divides
    the cost, so Metro arcs are the cheapest. *)
Theorem cost_grows_with_tier (self : IsotopeOptimizer) (data : data_model)
    (manager : RoutingIndexManager) (from_index a b : Z) (tt : R)
    (ha hb : dl.Hospital) :
  dm.get_cell (time_matrix data) (IndexToNode manager from_index)
              (IndexToNode manager a) = Py.Return tt ->
  dm.get_cell (time_matrix data) (IndexToNode manager from_index)
              (IndexToNode manager b) = Py.Return tt ->
  Py.getitem (hospitals self) (IndexToNode manager a) = Py.Return ha ->
  Py.getitem (hospitals self) (IndexToNode manager b) = Py.Return hb ->
  (0 <= dl.tier ha <= 3)%Z -> (0 <= dl.tier hb <= 3)%Z ->
  0 <= tt ->
  exists ca cb,
    cost_callback self data manager from_index a = Py.Return ca
    /\ cost_callback self data manager from_index b = Py.Return cb
    /\ ((1 <= dl.tier ha <= dl.tier hb)%Z -> (0 <= ca <= cb)%Z)
    /\ (dl.tier ha = 0%Z -> dl.tier hb = 3%Z -> ca = cb).
Proof.
  intros Hca Hcb Hha Hhb Hta Htb Htt.
  rewrite (cost_callback_value _ _ _ _ _ _ _ Hca Hha Hta).
  rewrite (cost_callback_value _ _ _ _ _ _ _ Hcb Hhb Htb).
  eexists. eexists. split; [reflexivity|]. split; [reflexivity|]. split.
  - intros Hab. apply int_monotone. unfold cost_weight.
    assert (Hcases : (dl.tier ha = 1 \/ dl.tier ha = 2 \/ dl.tier ha = 3)%Z)
      by lia.
    assert (Hcases' : (dl.tier hb = 1 \/ dl.tier hb = 2 \/ dl.tier hb = 3)%Z)
      by lia.
    destruct Hcases as [Ha | [Ha | Ha]];
      destruct Hcases' as [Hb | [Hb | Hb]];
      rewrite Ha, Hb in *; cbn [Z.eqb Pos.eqb]; try lia; split; lra.
  - intros -> ->. reflexivity.
Qed.

Lemma cost_grows_with_tier_witness :
  exists ca cb,
    cost_callback plan_example.two_node_fleet
      (create_data_model plan_example.two_node_fleet)
      plan_example.single_van_manager 0 1 = Py.Return ca
    /\ cost_callback plan_example.two_node_fleet
         (create_data_model plan_example.two_node_fleet)
         plan_example.single_van_manager 0 1 = Py.Return cb
    /\ (0 <= ca <= cb)%Z.
Proof.
  destruct (cost_grows_with_tier plan_example.two_node_fleet
              (create_data_model plan_example.two_node_fleet)
              plan_example.single_van_manager 0 1 1 5
              (dl.mkHospital "Dest1" (-341 / 10) (1501 / 10) 1 "Metro")
              (dl.mkHospital "Dest1" (-341 / 10) (1501 / 10) 1 "Metro")
              eq_refl eq_refl eq_refl eq_refl)
    as [ca [cb [Ha [Hb [Hle _]]]]]; cbn [dl.tier]; try lia; try lra.
  exists ca, cb. split; [exact Ha|]. split; [exact Hb|].
  apply Hle. cbn [dl.tier]. lia.
Defined.

(** X24. Leaving a hospital out costs more than any single arc into it.
    For an arc whose transit time, as the time callback reports it, fits the
    1440-minute horizon of the time dimension, and whose destination is a
    hospital of tier 1, 2 or 3 away from the depot index, the arc cost is
    below the drop penalty of that hospital (50000, 200000 or 1000000). *)
Theorem drop_penalty_exceeds_arc_cost (self : IsotopeOptimizer)
    (data : data_model) (manager : RoutingIndexManager)
    (from_index to_index : Z) (h : dl.Hospital) (t : Z) :
  Py.getitem (hospitals self) (IndexToNode manager to_index) = Py.Return h ->
  (1 <= dl.tier h <= 3)%Z ->
  IndexToNode manager to_index <> depot_index self ->
  time_callback data manager from_index to_index = Py.Return t ->
  (t <= TIME_HORIZON)%Z ->
  exists c penalty,
    cost_callback self data manager from_index to_index = Py.Return c
    /\ drop_penalty self (IndexToNode manager to_index) h = Some penalty
    /\ (c < penalty)%Z.
Proof.
  intros Hh Htier Hdepot Htime Ht. unfold time_callback in Htime.
  destruct (dm.get_cell (time_matrix data) (IndexToNode manager from_index)
              (IndexToNode manager to_index)) as [tt|e] eqn:Hcell;
    [|discriminate].
  cbn [Py.bind] in Htime. injection Htime as <-.
  assert (Htt : tt < 1441).
  { unfold TIME_HORIZON, Py.int in Ht.
    destruct (Rle_dec 0 tt) as [Hpos|Hneg]; [|lra].
    pose proof (Zfloor_bound tt) as [_ Hhi].
    apply IZR_le in Ht. lra. }
  rewrite (cost_callback_value _ _ _ _ _ _ _ Hcell Hh) by lia.
  unfold drop_penalty. apply Nat.eqb_neq in Hdepot. rewrite Hdepot.
  eexists. eexists. split; [reflexivity|]. split; [reflexivity|].
  unfold cost_weight.
  assert (Hcases : (dl.tier h = 1 \/ dl.tier h = 2 \/ dl.tier h = 3)%Z)
    by lia.
  destruct Hcases as [-> | [-> | ->]]; cbn [Z.eqb Pos.eqb];
    apply int_below; try lia; lra.
Qed.

Lemma drop_penalty_exceeds_arc_cost_witness :
  exists c penalty,
    cost_callback plan_example.two_node_fleet
      (create_data_model plan_example.two_node_fleet)
      plan_example.single_van_manager 0 1 = Py.Return c
    /\ (c < penalty)%Z.
Proof.
  destruct (drop_penalty_exceeds_arc_cost plan_example.two_node_fleet
              (create_data_model plan_example.two_node_fleet)
              plan_example.single_van_manager 0 1
              (dl.mkHospital "Dest1" (-341 / 10) (1501 / 10) 1 "Metro")
              (Py.int 5) eq_refl)
    as [c [penalty [Hc [_ Hlt]]]].
  - cbn [dl.tier]. lia.
  - cbn. lia.
  - reflexivity.
  - unfold TIME_HORIZON.
    assert (H5 : Py.int 5 = 5%Z) by (apply int_nonneg; lra).
    rewrite H5. lia.
  - exists c, penalty. split; [exact Hc|exact Hlt].
Defined.

Lemma total_demands (hs : list dl.Hospital) :
  total (map (fun h => if Z.eqb (dl.tier h) 0 then 0%Z else 1%Z) hs)
  = Z.of_nat (List.length (to_serve hs)).
Proof.
  induction hs as [|h hs IH]; [reflexivity|].
  cbn [map total fold_right to_serve filter].
  fold (total (map (fun h => if Z.eqb (dl.tier h) 0 then 0%Z else 1%Z) hs)).
  fold (to_serve hs). rewrite IH.
  destruct (Z.eqb (dl.tier h) 0); cbn [negb List.length]; lia.
Qed.

(** The load model.  In the data model every hospital has a demand,
    0 for a hospital of tier 0 and 1 for any other, also at the depot index;
    the demand callback returns it for a routing index whose node names a
    hospital and raises [IndexError] for a node beyond the list; the demands
    add up to the number of hospitals of tier other than 0; and every
    vehicle has the same capacity. *)
Lemma demand_is_one_per_hospital (self : IsotopeOptimizer)
    (manager : RoutingIndexManager) (from_index : Z) :
  let data := create_data_model self in
  let node := IndexToNode manager from_index in
  (forall h,
      nth_error (hospitals self) node = Some h ->
      demand_callback data manager from_index
      = Py.Return (if Z.eqb (dl.tier h) 0 then 0 else 1)%Z)
  /\ ((List.length (hospitals self) <= node)%nat ->
      demand_callback data manager from_index = Py.Raise Py.IndexError)
  /\ total (demands data)
     = Z.of_nat (List.length (to_serve (hospitals self)))
  /\ vehicle_capacities data
     = repeat (vehicle_capacity self) (num_vehicles self).
Proof.
  cbn zeta. unfold demand_callback, create_data_model, Py.getitem.
  cbn [demands vehicle_capacities].
  split; [|split; [|split]].
  - intros h Hh. rewrite nth_error_map, Hh. reflexivity.
  - intros Hout. rewrite nth_error_map.
    apply nth_error_None in Hout. rewrite Hout. reflexivity.
  - apply total_demands.
  - reflexivity.
Qed.

End model_props.

(* ================================================================== *)
(** * Loading the hospitals                                            *)
(* ================================================================== *)

Module loader_props.
Import data_loader snap_props snap_terms loader_terms.

Lemma getitem_str_raise (v : json.value) (k : string) (ex : Py.exn) :
  json.getitem_str v k = Py.Raise ex ->
  (ex = Py.TypeError /\ forall kvs, v <> json.Dict kvs)
  \/ (ex = Py.KeyError
      /\ exists kvs, v = json.Dict kvs /\ json.lookup kvs k = None).
Proof.
  destruct v as [| | | | |xs|kvs]; cbn;
    try (intros [= <-]; left; split; [reflexivity|discriminate]).
  destruct (json.lookup kvs k) eqn:Hk; [discriminate|].
  intros [= <-]. right. split; [reflexivity|]. exists kvs. split;
    [reflexivity|exact Hk].
Qed.

Lemma hospital_of_entry_return (entry : json.value) (h : HospitalObject) :
  hospital_of_entry entry = Py.Return h <-> entry_fields entry h.
Proof.
  unfold hospital_of_entry, entry_fields. split.
  - destruct (json.getitem_str entry "name") as [x1|e] eqn:H1;
      [|discriminate].
    destruct (getitem_str_lookup _ _ _ H1) as [kvs [-> L1]].
    cbn [Py.bind json.getitem_str].
    destruct (json.lookup kvs "lat") as [x2|] eqn:L2; [|discriminate].
    destruct (json.lookup kvs "lon") as [x3|] eqn:L3; [|discriminate].
    destruct (json.lookup kvs "tier") as [x4|] eqn:L4; [|discriminate].
    destruct (json.lookup kvs "type") as [x5|] eqn:L5; [|discriminate].
    cbn [Py.bind]. intros [= <-]. exists kvs. cbn. repeat split; assumption.
  - intros [kvs [-> [L1 [L2 [L3 [L4 L5]]]]]].
    cbn [json.getitem_str]. rewrite L1, L2, L3, L4, L5. cbn [Py.bind].
    destruct h. reflexivity.
Qed.

Lemma hospital_of_entry_raise (entry : json.value) (ex : Py.exn) :
  hospital_of_entry entry = Py.Raise ex -> entry_fails entry ex.
Proof.
  unfold hospital_of_entry, entry_fails, entry_keys.
  assert (Hkey : forall k, In k ["name"; "lat"; "lon"; "tier"; "type"]%string ->
                 json.getitem_str entry k = Py.Raise ex ->
                 (ex = Py.TypeError /\ forall kvs, entry <> json.Dict kvs)
                 \/ (ex = Py.KeyError
                     /\ exists kvs k',
                          entry = json.Dict kvs
                          /\ In k' ["name"; "lat"; "lon"; "tier"; "type"]%string
                          /\ json.lookup kvs k' = None)).
  { intros k Hk Hr.
    destruct (getitem_str_raise _ _ _ Hr) as [Ht|[Hx [kvs [He Hl]]]];
      [left; exact Ht|right].
    split; [exact Hx|]. exists kvs, k. repeat split; assumption. }
  destruct (json.getitem_str entry "name") eqn:H1;
    [|intros [= <-]; apply (Hkey "name"%string); [cbn; tauto|exact H1]].
  cbn [Py.bind].
  destruct (json.getitem_str entry "lat") eqn:H2;
    [|intros [= <-]; apply (Hkey "lat"%string); [cbn; tauto|exact H2]].
  cbn [Py.bind].
  destruct (json.getitem_str entry "lon") eqn:H3;
    [|intros [= <-]; apply (Hkey "lon"%string); [cbn; tauto|exact H3]].
  cbn [Py.bind].
  destruct (json.getitem_str entry "tier") eqn:H4;
    [|intros [= <-]; apply (Hkey "tier"%string); [cbn; tauto|exact H4]].
  cbn [Py.bind].
  destruct (json.getitem_str entry "type") eqn:H5;
    [|intros [= <-]; apply (Hkey "type"%string); [cbn; tauto|exact H5]].
  discriminate.
Qed.

Lemma entries_loop_return (entries : list json.value)
    (acc res : list HospitalObject) :
  Py.for_ entries (fun entry hospitals =>
                     h <- hospital_of_entry entry ;;
                     Py.Return (hospitals ++ [h])) acc = Py.Return res
  <-> exists hs, Forall2 entry_fields entries hs /\ res = acc ++ hs.
Proof.
  revert acc. induction entries as [|e es IH]; intros acc; cbn [Py.for_].
  - split.
    + intros [= <-]. exists []. split; [constructor|].
      rewrite app_nil_r. reflexivity.
    + intros [hs [Hall ->]]. inversion Hall. rewrite app_nil_r. reflexivity.
  - destruct (hospital_of_entry e) as [h|ex] eqn:He; cbn [Py.bind].
    + rewrite IH. split.
      * intros [hs [Hall ->]]. exists (h :: hs). split.
        -- constructor; [apply hospital_of_entry_return; exact He|exact Hall].
        -- rewrite <- app_assoc. reflexivity.
      * intros [hs [Hall ->]].
        inversion Hall as [|? h' ? hs' Hh Hrest]; subst.
        apply hospital_of_entry_return in Hh.
        assert (h' = h) by congruence. subst h'.
        exists hs'. split; [exact Hrest|].
        rewrite <- app_assoc. reflexivity.
    + split; [discriminate|].
      intros [hs [Hall _]].
      inversion Hall as [|? h' ? hs' Hh Hrest]; subst.
      apply hospital_of_entry_return in Hh. congruence.
Qed.

Lemma entries_loop_raise (entries : list json.value)
    (acc : list HospitalObject) (ex : Py.exn) :
  Py.for_ entries (fun entry hospitals =>
                     h <- hospital_of_entry entry ;;
                     Py.Return (hospitals ++ [h])) acc = Py.Raise ex ->
  exists entry, In entry entries /\ entry_fails entry ex.
Proof.
  revert acc. induction entries as [|e es IH]; intros acc; cbn [Py.for_].
  - discriminate.
  - destruct (hospital_of_entry e) as [h|ex'] eqn:He; cbn [Py.bind].
    + intros Hr. destruct (IH _ Hr) as [entry [Hin Hf]].
      exists entry. split; [right; exact Hin|exact Hf].
    + intros [= <-]. exists e. split; [left; reflexivity|].
      apply hospital_of_entry_raise. exact He.
Qed.

(** X25. The loop over the entries is all or nothing.  On a document that
    is a list, [load_hospitals] builds its list exactly when every entry is
    a dict that has the five keys name, lat, lon, tier and type; the result
    then has one hospital per entry, in order, holding the values of those
    keys (other keys are ignored, and no value is checked against its
    annotation).  Otherwise it raises, and nothing is returned: [TypeError]
    for an entry that is not a dict, [KeyError] for a dict that lacks a key.
    On a document that is a dict with at least one key it raises
    [TypeError]. *)
Theorem entries_load_all_or_nothing (entries : list json.value) :
  (forall hs,
      hospitals_of (json.List entries) = Py.Return hs
      <-> Forall2 entry_fields entries hs)
  /\ (forall ex,
        hospitals_of (json.List entries) = Py.Raise ex ->
        exists entry, In entry entries /\ entry_fails entry ex)
  /\ (forall kv kvs,
        hospitals_of (json.Dict (kv :: kvs)) = Py.Raise Py.TypeError).
Proof.
  unfold hospitals_of. cbn [json.iter Py.bind]. split; [|split].
  - intros hs. rewrite entries_loop_return. cbn [app]. split.
    + intros [hs' [Hall ->]]. exact Hall.
    + intros Hall. exists hs. split; [exact Hall|reflexivity].
  - intros ex. apply entries_loop_raise.
  - intros kv kvs. reflexivity.
Qed.

Lemma hospital_json_fields (h : HospitalObject) :
  entry_fields (api.hospital_json h) h.
Proof.
  exists [("name", o_name h); ("lat", o_lat h); ("lon", o_lon h);
          ("tier", o_tier h); ("type", o_type h)]%string.
  repeat split.
Qed.

Lemma hospitals_of_dump (hs : list HospitalObject) :
  hospitals_of (json.List (map api.hospital_json hs)) = Py.Return hs.
Proof.
  unfold hospitals_of. cbn [json.iter Py.bind].
  apply entries_loop_return. exists hs. split; [|reflexivity].
  induction hs as [|h hs IH]; cbn [map]; constructor;
    [apply hospital_json_fields|exact IH].
Qed.

(** X26. The hospitals endpoint and the loader round-trip.  When the file
    hospitals.json is there and loads as the list [hs], [get_hospitals]
    answers with one dict of the five keys per hospital, in order, and
    that answer, read as a document, loads as [hs] again: nothing is lost
    or reordered between the file, the loader and the endpoint. *)
Theorem hospitals_round_trip (fs : FileSystem) (doc : json.value)
    (hs : list HospitalObject) :
  read fs "hospitals.json" = Some (Some doc) ->
  hospitals_of doc = Py.Return hs ->
  load_hospitals fs "hospitals.json" = Loaded hs
  /\ api.get_hospitals fs = Loaded (json.List (map api.hospital_json hs))
  /\ hospitals_of (json.List (map api.hospital_json hs)) = Py.Return hs.
Proof.
  intros Hread Hdoc.
  assert (Hload : load_hospitals fs "hospitals.json" = Loaded hs).
  { unfold load_hospitals, resolve_path, path_exists.
    rewrite Hread. cbn [negb]. rewrite Hread, Hdoc. reflexivity. }
  split; [exact Hload|]. split; [|apply hospitals_of_dump].
  unfold api.get_hospitals. rewrite Hload. reflexivity.
Qed.

Lemma hospitals_round_trip_witness :
  exists hs,
    load_hospitals app_directory "hospitals.json" = Loaded hs
    /\ hospitals_of (json.List (map api.hospital_json hs)) = Py.Return hs.
Proof.
  destruct (hospitals_round_trip app_directory one_hospital_file
              [mkHospitalObject (json.Str "ANSTO Lucas Heights")
                 (json.Float (-3405 / 100)) (json.Float (15098 / 100))
                 (json.Int 0) (json.Str "Source")]
              eq_refl eq_refl) as [Hload [_ Hback]].
  eexists. split; [exact Hload|exact Hback].
Defined.

Lemma resolve_existing (fs : FileSystem) (path : string) :
  path_exists fs path = true -> resolve_path fs path = path.
Proof.
  intros He. unfold resolve_path. rewrite He. reflexivity.
Qed.

(** X27. Where the loader looks.  A path that exists is the one opened.
    A path that does not exist is replaced by hospitals.json in the working
    directory if that exists, else by ../../hospitals.json beside the
    module if that exists: whatever file name was asked for, the call then
    gives what loading that default file gives.  [FileNotFoundError] is
    raised exactly when none of the three exists, and then names the path
    that was asked for. *)
Theorem load_path_fallback (fs : FileSystem) (file_path : string) :
  (path_exists fs file_path = false ->
   path_exists fs (root_path fs) = true ->
   load_hospitals fs file_path = load_hospitals fs (root_path fs))
  /\ (path_exists fs file_path = false ->
      path_exists fs (root_path fs) = false ->
      path_exists fs (rel_path fs) = true ->
      load_hospitals fs file_path = load_hospitals fs (rel_path fs))
  /\ (forall path,
        load_hospitals fs file_path = FileNotFoundError path
        <-> (path = file_path
             /\ path_exists fs file_path = false
             /\ path_exists fs (root_path fs) = false
             /\ path_exists fs (rel_path fs) = false)).
Proof.
  split; [|split].
  - intros Hf Hr. unfold load_hospitals.
    rewrite (resolve_existing fs (root_path fs) Hr).
    unfold resolve_path. rewrite Hf. cbn [negb].
    fold (root_path fs). rewrite Hr. reflexivity.
  - intros Hf Hr Hl. unfold load_hospitals.
    rewrite (resolve_existing fs (rel_path fs) Hl).
    unfold resolve_path. rewrite Hf. cbn [negb].
    fold (root_path fs). rewrite Hr. fold (rel_path fs). rewrite Hl.
    reflexivity.
  - intros path. unfold load_hospitals, resolve_path.
    fold (root_path fs). fold (rel_path fs). unfold path_exists.
    destruct (read fs file_path) as [[d|]|] eqn:Hf; cbn [negb].
    + rewrite Hf. destruct (hospitals_of d); split;
        try discriminate; intros [_ [H _]]; discriminate.
    + rewrite Hf. split; try discriminate; intros [_ [H _]]; discriminate.
    + destruct (read fs (root_path fs)) as [[d|]|] eqn:Hr.
      * rewrite Hr. destruct (hospitals_of d); split;
          try discriminate; intros [_ [_ [H _]]]; discriminate.
      * rewrite Hr. split; try discriminate;
          intros [_ [_ [H _]]]; discriminate.
      * destruct (read fs (rel_path fs)) as [[d|]|] eqn:Hl.
        -- rewrite Hl. destruct (hospitals_of d); split;
             try discriminate; intros [_ [_ [_ H]]]; discriminate.
        -- rewrite Hl. split; try discriminate;
             intros [_ [_ [_ H]]]; discriminate.
        -- rewrite Hf. split.
           ++ intros [= <-]. repeat split.
           ++ intros [-> _]. reflexivity.
Qed.

Lemma load_path_fallback_witness :
  load_hospitals default_file_only "no_such_file.json"
  = load_hospitals default_file_only "/app/hospitals.json".
Proof.
  exact (proj1 (load_path_fallback default_file_only "no_such_file.json")
           eq_refl eq_refl).
Defined.

End loader_props.

(* ================================================================== *)
(** * The two simulators                                               *)
(* ================================================================== *)

Module disrupt_props.
Import optimizer loop_props geo_props sphere_props matrix_props trip_props
       decay_props loop_terms geo_terms matrix_terms trip_terms
       disrupt_terms.

Lemma skipn_cons_nth {A : Type} (xs : list A) (k : nat) (x : A) :
  nth_error xs k = Some x -> skipn k xs = x :: skipn (S k) xs.
Proof.
  revert k. induction xs as [|y xs IH]; intros [|k] Hk; try discriminate.
  - injection Hk as ->. reflexivity.
  - cbn [skipn]. apply IH. exact Hk.
Qed.

Lemma leg_scan_from (all : list step) (m k : nat) :
  m = (List.length all - 1 - k)%nat ->
  simulator.leg_scan (json.List (map step_json all)) (seq k m)
  = Py.Return (existsb (fun s => Z.eqb (tier s) 3) (skipn (k + 1) all)).
Proof.
  revert k. induction m as [|m IH]; intros k Hm; cbn [seq simulator.leg_scan].
  - rewrite skipn_all2 by lia. reflexivity.
  - destruct (nth_error all (k + 1)) as [s|] eqn:Hs.
    2:{ apply nth_error_None in Hs. lia. }
    cbn [json.getitem_int]. unfold Py.getitem.
    rewrite nth_error_map, Hs. cbn [option_map Py.bind].
    change (json.getitem_str (step_json s) "name")
      with (@Py.Return json.value (json.Str (name s))).
    change (json.getitem_str (step_json s) "tier")
      with (@Py.Return json.value (json.Int (tier s))).
    cbn [Py.bind json.eq_int].
    rewrite (skipn_cons_nth all (k + 1) s Hs). cbn [existsb].
    destruct (Z.eqb (tier s) 3); [reflexivity|].
    cbn [orb]. rewrite (IH (S k)) by lia.
    replace (S k + 1)%nat with (S (k + 1)) by lia. reflexivity.
Qed.

Lemma route_scan_exported (rs : list route_out) :
  simulator.route_scan (map route_json rs)
  = Py.Return (picked (find has_remote_leg rs)).
Proof.
  induction rs as [|r rs IH]; [reflexivity|].
  cbn [map simulator.route_scan find].
  change (json.getitem_str (route_json r) "vehicle_id")
    with (@Py.Return json.value (json.Int (Z.of_nat (vehicle_id r)))).
  change (json.getitem_str (route_json r) "steps")
    with (@Py.Return json.value (json.List (map step_json (steps r)))).
  cbn [Py.bind json.len]. rewrite length_map.
  unfold Py.range. rewrite (leg_scan_from (steps r) _ 0) by lia.
  cbn [Py.bind Nat.add]. fold (has_remote_leg r).
  destruct (has_remote_leg r); [reflexivity|exact IH].
Qed.

Lemma get_cell_as_cell (m : dm.matrix) (i j : nat) :
  dm.get_cell m i j = match cell m i j with
                      | Some x => Py.Return x
                      | None => Py.Raise Py.IndexError
                      end.
Proof.
  unfold dm.get_cell, cell, Py.getitem.
  destruct (nth_error m i) as [row|]; [|reflexivity].
  cbn [Py.bind]. destruct (nth_error row j); reflexivity.
Qed.

(** X28. [find_route_to_disrupt] and the exported plan.  On the document
    the materializer writes, a dict with the keys 'routes' and 'analytics',
    the search raises [TypeError]: it iterates over the document as over a
    list of routes and subscripts the key 'routes' with 'vehicle_id'.  On
    the bare list of routes it returns the first route, in the order of the
    vehicles, with a tier-3 stop after its first step, together with its
    vehicle id, and [(None, None)] when there is none. *)
Theorem find_route_to_disrupt_on_exports (p : payload) :
  simulator.find_route_to_disrupt (payload_json p) = Py.Raise Py.TypeError
  /\ simulator.find_route_to_disrupt (json.List (map route_json (routes p)))
     = Py.Return (picked (find has_remote_leg (routes p))).
Proof.
  split.
  - reflexivity.
  - unfold simulator.find_route_to_disrupt. cbn [json.iter Py.bind].
    apply route_scan_exported.
Qed.

(* ------------------------------------------------------------------ *)
(** ** The reroute problem of [trigger_reroute]                        *)
(* ------------------------------------------------------------------ *)

(** X29. The reroute problem.  For a van location followed by at least one
    remaining hospital, [trigger_reroute] (in exact arithmetic, sending
    nothing to the network) builds a one-vehicle problem of capacity 10 on
    exactly those hospitals, the van first, whose matrix is the analytic
    fallback matrix except for the one arc from the van to its next
    destination, which is multiplied by 4; the arc back is left as it is;
    the projected delay is 3 times the original time of that arc, hence not
    negative.  With no remaining hospital the call raises [IndexError]. *)
Theorem reroute_spikes_one_arc (current_loc next_h : dl.Hospital)
    (rest : list dl.Hospital) (net : dm.Network) :
  let remaining := current_loc :: next_h :: rest in
  (exists rr m0,
      simulator.trigger_reroute remaining net = Py.Return (rr, net)
      /\ dm.generate_distance_matrix (map loc_dict_of remaining) None net
         = Py.Return (m0, net)
      /\ hospitals (simulator.reroute_optimizer rr) = remaining
      /\ depot_index (simulator.reroute_optimizer rr) = 0%nat
      /\ num_vehicles (simulator.reroute_optimizer rr) = 1%nat
      /\ vehicle_capacity (simulator.reroute_optimizer rr) = 10%Z
      /\ simulator.original_time rr = base_minutes current_loc next_h
      /\ dm.get_cell (distance_matrix (simulator.reroute_optimizer rr)) 0 1
         = Py.Return (simulator.original_time rr * 4)
      /\ (forall i j,
            i <> 0%nat \/ j <> 1%nat ->
            dm.get_cell (distance_matrix (simulator.reroute_optimizer rr)) i j
            = dm.get_cell m0 i j)
      /\ simulator.projected_delay rr = 3 * simulator.original_time rr
      /\ 0 <= simulator.projected_delay rr)
  /\ simulator.trigger_reroute [current_loc] net = Py.Raise Py.IndexError.
Proof.
  cbn zeta. split.
  - destruct (generate_distance_matrix_cells
                (map loc_dict_of (current_loc :: next_h :: rest)) None net)
      as [m0 [net' [Hrun [Hd [_ [Hnet [_ Hoff]]]]]]].
    rewrite (Hnet eq_refl) in Hrun.
    assert (H01 : cell m0 0 1 = Some (base_minutes current_loc next_h)).
    { destruct (Hoff 0%nat 1%nat (loc_dict_of current_loc)
                  (loc_dict_of next_h)) as [[Hlive _]|H];
        try reflexivity; try discriminate. exact H. }
    destruct (set_cell_spec m0 0 1 _ (base_minutes current_loc next_h * 4)
                H01) as [m1 [Hset [_ [Hnew Hframe]]]].
    unfold simulator.trigger_reroute.
    fold loc_dict_of. rewrite Hrun. cbn [Py.bind].
    apply get_cell_cell in H01. rewrite H01. cbn [Py.bind].
    rewrite Hset. cbn [Py.bind].
    apply get_cell_cell in Hnew. rewrite Hnew. cbn [Py.bind].
    eexists. exists m0. split; [reflexivity|]. split; [reflexivity|].
    cbn [simulator.reroute_optimizer simulator.original_time
         simulator.projected_delay hospitals depot_index num_vehicles
         vehicle_capacity distance_matrix].
    repeat split; try assumption.
    + intros i j Hij. rewrite !get_cell_as_cell, (Hframe i j Hij).
      reflexivity.
    + lra.
    + assert (Hb : 0 <= base_minutes current_loc next_h).
      { apply calculate_duration_fallback_nonneg, haversine_km_nonneg. }
      lra.
  - reflexivity.
Qed.

(* ------------------------------------------------------------------ *)
(** ** The system that pushes through                                  *)
(* ------------------------------------------------------------------ *)

Lemma decay_above_quarter (t : R) :
  25 < 100 * exp (- (ln 2 / 6) * (t / 60)) <-> t < 720.
Proof.
  assert (Hln : 0 < ln 2) by (rewrite <- ln_1; apply ln_increasing; lra).
  assert (Hq : 100 * exp (- (ln 2 / 6) * (720 / 60)) = 25).
  { replace (- (ln 2 / 6) * (720 / 60)) with (- ln 2 + - ln 2) by field.
    rewrite exp_plus, exp_neg_ln2. lra. }
  split.
  - intros Hgt. apply Rnot_le_lt. intros Hle.
    assert (Hexp : exp (- (ln 2 / 6) * (t / 60))
                   <= exp (- (ln 2 / 6) * (720 / 60))).
    { destruct Hle as [Hlt|Heq].
      - left. apply exp_increasing. nra.
      - rewrite Heq. right. reflexivity. }
    lra.
  - intros Hlt.
    assert (Hexp : exp (- (ln 2 / 6) * (720 / 60))
                   < exp (- (ln 2 / 6) * (t / 60))).
    { apply exp_increasing. nra. }
    lra.
Qed.

(** X30. The ignorant option of the M5 scenario.  For every van location
    and next destination it is computed without raising (in exact
    arithmetic): the arrival time is 45 minutes plus 10 times the analytic
    fallback from the van to the destination, the activity is the decay of
    100 over that time, and the log's 'Viable?' entry is YES exactly when
    the arrival time is below 720 minutes, that is when the analytic
    fallback is below 67.5 minutes. *)
Theorem ignorant_option_viability (current_loc next_dest_h : dl.Hospital)
    (net : dm.Network) :
  exists arrival activity,
    simulator_dynamic.ignorant_option current_loc next_dest_h net
    = Py.Return (arrival, activity)
    /\ arrival = 45 + base_minutes current_loc next_dest_h * 10
    /\ decay_calculator.calculate_remaining_activity 100 (arrival / 60) 6
       = Py.Return activity
    /\ 0 < activity <= 100
    /\ (simulator_dynamic.viable_entry activity = "YES"%string
        <-> arrival < 720)
    /\ (arrival < 720
        <-> base_minutes current_loc next_dest_h < 675 / 10).
Proof.
  set (locs := [dm.mkLocDict (dl.lat current_loc) (dl.lon current_loc) 0;
                dm.mkLocDict (dl.lat next_dest_h) (dl.lon next_dest_h)
                             (dl.tier next_dest_h)]).
  destruct (generate_distance_matrix_cells locs None net)
    as [m0 [net' [Hrun [_ [_ [_ [_ Hoff]]]]]]].
  assert (H01 : cell m0 0 1 = Some (base_minutes current_loc next_dest_h)).
  { destruct (Hoff 0%nat 1%nat
                (dm.mkLocDict (dl.lat current_loc) (dl.lon current_loc) 0)
                (dm.mkLocDict (dl.lat next_dest_h) (dl.lon next_dest_h)
                              (dl.tier next_dest_h)))
      as [[Hlive _]|H]; try reflexivity; try discriminate. exact H. }
  assert (Hb : 0 <= base_minutes current_loc next_dest_h).
  { apply calculate_duration_fallback_nonneg, haversine_km_nonneg. }
  set (b := base_minutes current_loc next_dest_h) in *.
  unfold simulator_dynamic.ignorant_option. fold locs.
  rewrite Hrun. cbn [Py.bind fst].
  apply get_cell_cell in H01. rewrite H01. cbn [Py.bind].
  unfold simulator_dynamic.INITIAL_ACTIVITY, simulator_dynamic.HALF_LIFE.
  assert (Hact : decay_calculator.calculate_remaining_activity
                   100 ((45 + b * 10) / 60) 6
                 = Py.Return (100 * exp (- (ln 2 / 6) * ((45 + b * 10) / 60))))
    by (apply activity_defined; lra).
  rewrite Hact. cbn [Py.bind].
  eexists. eexists. split; [reflexivity|]. split; [reflexivity|].
  split; [exact Hact|]. split; [|split].
  - assert (Hln : 0 < ln 2) by (rewrite <- ln_1; apply ln_increasing; lra).
    pose proof (exp_pos (- (ln 2 / 6) * ((45 + b * 10) / 60))) as Hpos.
    assert (Hle : exp (- (ln 2 / 6) * ((45 + b * 10) / 60)) < exp 0).
    { apply exp_increasing. nra. }
    rewrite exp_0 in Hle. lra.
  - rewrite <- decay_above_quarter.
    unfold simulator_dynamic.viable_entry,
      simulator_dynamic.MIN_ACTIVITY_THRESHOLD.
    replace (25 / 100 * 100) with 25 by lra.
    destruct (Rlt_dec 25 _) as [Hy|Hn]; split; intros H;
      try assumption; try reflexivity; try discriminate; contradiction.
  - split; intros H; lra.
Qed.

(* ------------------------------------------------------------------ *)
(** ** The van between two stops                                       *)
(* ------------------------------------------------------------------ *)

(** The interpolated van location, which both simulators compute the
    same way, is the origin at progress 0 and the destination at progress
    1, lies in the box the two span for a progress between 0 and 1, and is
    always a tier-0 location of type Mobile named after the destination,
    so that it can stand as the depot of a reroute problem. *)
Lemma van_location_between_stops (origin dest : dl.Hospital) (f : R) :
  let van := simulator.interpolate_location origin dest f in
  simulator_dynamic.interpolate_location origin dest f = van
  /\ dl.tier van = 0%Z
  /\ dl.type van = "Mobile"%string
  /\ dl.name van = ("Van_Loc_EnRoute_" ++ dl.name dest)%string
  /\ (f = 0 -> dl.lat van = dl.lat origin /\ dl.lon van = dl.lon origin)
  /\ (f = 1 -> dl.lat van = dl.lat dest /\ dl.lon van = dl.lon dest)
  /\ (0 <= f <= 1 ->
      Rmin (dl.lat origin) (dl.lat dest) <= dl.lat van
      <= Rmax (dl.lat origin) (dl.lat dest)
      /\ Rmin (dl.lon origin) (dl.lon dest) <= dl.lon van
         <= Rmax (dl.lon origin) (dl.lon dest)).
Proof.
  cbn zeta. unfold simulator.interpolate_location.
  cbn [dl.tier dl.type dl.name dl.lat dl.lon].
  split; [reflexivity|]. split; [reflexivity|]. split; [reflexivity|].
  split; [reflexivity|]. split; [|split].
  - intros ->. split; lra.
  - intros ->. split; lra.
  - intros [H0 H1]. unfold Rmin, Rmax.
    destruct (Rle_dec (dl.lat origin) (dl.lat dest));
      destruct (Rle_dec (dl.lon origin) (dl.lon dest)); repeat split; nra.
Qed.

End disrupt_props.
